(** * reticulum: a shallow embedding of the network engine

    The Go packages [volume], [layers] and [reticulum] are embedded as
    Rocq functions over an explicit store of volumes.  Pointers to
    volumes are indices into the store, a nil pointer is [None], and a Go
    panic is the [Panic] result of the monad [M].

    Go's [int] is a 64-bit two's-complement integer, modelled as [Z]
    with the wrap-around written out ([GoInt]).  Go's [float64] sits
    behind the interface [Float64], with two instances: [binary64]
    (IEEE 754 double precision, Rocq's primitive floats), on which the
    code is run on concrete inputs, and [realnum] (exact real
    arithmetic), on which the algebraic properties of the kernels are
    stated. *)

From Stdlib Require Import ZArith List Lia Floats Reals Lra String Bool.
From stdpp Require Import base list.
Import ListNotations.
Local Open Scope Z_scope.

(** ** Go integers *)

Module GoInt.

Definition wrap (z : Z) : Z := (z + 2 ^ 63) mod 2 ^ 64 - 2 ^ 63.

Definition add (a b : Z) : Z := wrap (a + b).
Definition sub (a b : Z) : Z := wrap (a - b).
Definition mul (a b : Z) : Z := wrap (a * b).
Definition neg (a : Z) : Z := wrap (- a).

Definition in_range (z : Z) : Prop := - 2 ^ 63 <= z < 2 ^ 63.

End GoInt.

(** ** Go float64 *)

(** The operations the code applies to [float64] values: conversions
    from and to [int], the arithmetic operators, the comparisons [<] and
    [<=] (Go's [a > b] is [fltb b a]), and the exactly rounded functions
    of package [math]. *)
Class Float64 (F : Type) := {
  fofZ : Z -> F;
  f2int : F -> Z;
  fadd : F -> F -> F;
  fsub : F -> F -> F;
  fmul : F -> F -> F;
  fdiv : F -> F -> F;
  fneg : F -> F;
  fltb : F -> F -> bool;
  fleb : F -> F -> bool;
  math_Sqrt : F -> F;
  math_Abs : F -> F;
  math_Floor : F -> F
}.

(** The transcendental functions of package [math], which the
    repository imports and does not define. *)
Class Libm (F : Type) := {
  math_Exp : F -> F;
  math_Log : F -> F;
  math_Pow : F -> F -> F;
  math_Tanh : F -> F
}.

(** The process-wide random source of package [math/rand]: the value
    returned by the [n]-th draw. *)
Class GoRand (F : Type) := {
  rand_NormFloat64 : nat -> F;
  rand_Float64 : nat -> F
}.

Definition f0 {F} `{Float64 F} : F := fofZ 0.
Definition f1 {F} `{Float64 F} : F := fofZ 1.
Definition fgtb {F} `{Float64 F} (a b : F) : bool := fltb b a.

(** Decimal constants of the source, as the correctly rounded quotient
    of two integers. *)
Definition fdec {F} `{Float64 F} (num den : Z) : F := fdiv (fofZ num) (fofZ den).

Module B64.

(** [float64(n)], correctly rounded for every [n] of Go's int above the
    smallest one. *)
Definition ofZ (z : Z) : float :=
  if z <? 0 then PrimFloat.opp (PrimFloat.of_uint63 (Uint63.of_Z (- z)))
  else PrimFloat.of_uint63 (Uint63.of_Z z).

(** Truncation towards zero of a finite value [(-1)^s * m * 2^e]. *)
Definition truncZ (s : bool) (m : positive) (e : Z) : Z :=
  let a := if 0 <=? e then Z.shiftl (Z.pos m) e else Z.shiftr (Z.pos m) (- e) in
  if s then - a else a.

(** Largest integer below or equal to [(-1)^s * m * 2^e]. *)
Definition floorZ (s : bool) (m : positive) (e : Z) : Z :=
  if 0 <=? e then truncZ s m e
  else if s then - ((Z.pos m + 2 ^ (- e) - 1) / 2 ^ (- e))
  else Z.pos m / 2 ^ (- e).

(** [int(f)]: truncation; out of range, infinite or NaN arguments give
    the smallest integer, as on amd64. *)
Definition toInt (f : float) : Z :=
  match Prim2SF f with
  | S754_zero _ => 0
  | S754_finite s m e =>
      let z := truncZ s m e in
      if (- 2 ^ 63 <=? z) && (z <? 2 ^ 63) then z else - 2 ^ 63
  | _ => - 2 ^ 63
  end.

Definition floor (f : float) : float :=
  match Prim2SF f with
  | S754_finite s m e => if 0 <=? e then f else ofZ (floorZ s m e)
  | _ => f
  end.

End B64.

#[export] Instance binary64 : Float64 float := {
  fofZ := B64.ofZ;
  f2int := B64.toInt;
  fadd := PrimFloat.add;
  fsub := PrimFloat.sub;
  fmul := PrimFloat.mul;
  fdiv := PrimFloat.div;
  fneg := PrimFloat.opp;
  fltb := PrimFloat.ltb;
  fleb := PrimFloat.leb;
  math_Sqrt := PrimFloat.sqrt;
  math_Abs := PrimFloat.abs;
  math_Floor := B64.floor
}.

Module RealNum.

Definition ltb (a b : R) : bool := if Rlt_dec a b then true else false.
Definition leb (a b : R) : bool := if Rle_dec a b then true else false.
Definition floorZ (r : R) : Z := (up r - 1)%Z.
Definition toInt (r : R) : Z :=
  if Rle_dec 0 r then floorZ r else (- floorZ (- r))%Z.

End RealNum.

#[export] Instance realnum : Float64 R := {
  fofZ := IZR;
  f2int := RealNum.toInt;
  fadd := Rplus;
  fsub := Rminus;
  fmul := Rmult;
  fdiv := Rdiv;
  fneg := Ropp;
  fltb := RealNum.ltb;
  fleb := RealNum.leb;
  math_Sqrt := sqrt;
  math_Abs := Rabs;
  math_Floor := fun r => IZR (RealNum.floorZ r)
}.

#[export] Instance realnum_libm : Libm R := {
  math_Exp := exp;
  math_Log := ln;
  math_Pow := Rpower;
  math_Tanh := tanh
}.

(** ** Panics and the store *)

Inductive Res (A : Type) : Type :=
| Ok (a : A)
| Panic (msg : string).
Arguments Ok {A} a.
Arguments Panic {A} msg.

Definition is_ok {A} (r : Res A) : bool :=
  match r with Ok _ => true | Panic _ => false end.

Definition is_panic {A} (r : Res A) : bool := negb (is_ok r).

(** A slice of Go: reading and writing out of range panics. *)
Definition slice_get {A} (l : list A) (i : Z) : Res A :=
  if i <? 0 then Panic "index out of range"
  else match l !! Z.to_nat i with
       | Some a => Ok a
       | None => Panic "index out of range"
       end.

Definition slice_set {A} (l : list A) (i : Z) (a : A) : Res (list A) :=
  if i <? 0 then Panic "index out of range"
  else if (Z.to_nat i <? length l)%nat then Ok (<[Z.to_nat i := a]> l)
  else Panic "index out of range".

(** [make([]T, n)] filled with the zero value [z]. *)
Definition make {A} (z : A) (n : Z) : Res (list A) :=
  if n <? 0 then Panic "makeslice: len out of range"
  else Ok (replicate (Z.to_nat n) z).

Definition len {A} (l : list A) : Z := Z.of_nat (length l).

(** ** The monad of the embedding

    A computation reads and updates a state and either returns a value
    or panics. *)

Definition M (St A : Type) : Type := St -> Res (A * St).

Definition ret {St A} (a : A) : M St A := fun s => Ok (a, s).

Definition bind {St A B} (c : M St A) (k : A -> M St B) : M St B :=
  fun s => match c s with
           | Ok (a, s') => k a s'
           | Panic msg => Panic msg
           end.

Definition panic {St A} (msg : string) : M St A := fun _ => Panic msg.

Definition lift {St A} (r : Res A) : M St A :=
  fun s => match r with Ok a => Ok (a, s) | Panic msg => Panic msg end.

Declare Scope go_scope.
Delimit Scope go_scope with go.
Notation "'let*' x := c 'in' k" := (bind c (fun x => k))
  (at level 10, x pattern, c at level 100, k at level 200) : go_scope.
Notation "c ;; k" := (bind c (fun _ => k))
  (at level 100, k at level 200, right associativity) : go_scope.
Local Open Scope go_scope.

(** [for i := 0; i < n; i++ { acc = body i acc }]: the loop variables
    that the body updates are threaded as [acc]. *)
Fixpoint for_loop {St A} (cnt : nat) (i : Z) (body : Z -> A -> M St A) (acc : A)
  : M St A :=
  match cnt with
  | O => ret acc
  | S cnt' => let* acc' := body i acc in for_loop cnt' (i + 1) body acc'
  end.

Definition for_range {St A} (n : Z) (body : Z -> A -> M St A) (acc : A) : M St A :=
  for_loop (Z.to_nat n) 0 body acc.

(** The same loop, started at [from]. *)
Definition for_from {St A} (from n : Z) (body : Z -> A -> M St A) (acc : A)
  : M St A :=
  for_loop (Z.to_nat (n - from)) from body acc.

(** ** package volume *)

(** Dimensions represents the volumetric size of the data. *)
Record Dimensions := NewDimensions { Dim_X : Z; Dim_Y : Z; Dim_Z : Z }.

Definition Dimensions_Size (d : Dimensions) : Z :=
  GoInt.mul (GoInt.mul (Dim_X d) (Dim_Y d)) (Dim_Z d).

Definition Dimensions_Clone (d : Dimensions) : Dimensions :=
  NewDimensions (Dim_X d) (Dim_Y d) (Dim_Z d).

(** Volume: the dimensions, the weights [w] and the gradients [dw]. *)
Record Volume (F : Type) := mkVolume {
  dim : Dimensions;
  w : list F;
  dw : list F
}.
Arguments mkVolume {F} dim w dw.
Arguments dim {F} _.
Arguments w {F} _.
Arguments dw {F} _.

(** The store: the volumes allocated so far, and the number of draws
    made from the random source. *)
Record State (F : Type) := mkState {
  heap : list (Volume F);
  draws : nat
}.
Arguments mkState {F} heap draws.
Arguments heap {F} _.
Arguments draws {F} _.

(** A pointer to a volume; [None] is nil. *)
Definition ptr := option nat.

(** Options stores volume options. *)
Record Options (F : Type) := mkOptions {
  Zero : bool;
  HasInitialValue : bool;
  InitialValue : F;
  Weights : option (list F)
}.
Arguments mkOptions {F} Zero HasInitialValue InitialValue Weights.
Arguments Zero {F} _.
Arguments HasInitialValue {F} _.
Arguments InitialValue {F} _.
Arguments Weights {F} _.

Definition OptionFunc (F : Type) : Type := Options F -> Options F.

Section Volume.
Context {F : Type} `{Float64 F} `{GoRand F}.

Local Abbreviation V := (M (State F)).

Definition deref (p : ptr) : V (Volume F) :=
  fun s => match p with
           | None => Panic "nil pointer dereference"
           | Some a => match heap s !! a with
                       | Some v => Ok (v, s)
                       | None => Panic "dangling pointer"
                       end
           end.

Definition assign (p : ptr) (v : Volume F) : V unit :=
  fun s => match p with
           | None => Panic "nil pointer dereference"
           | Some a => if (a <? length (heap s))%nat
                       then Ok (tt, mkState (<[a := v]> (heap s)) (draws s))
                       else Panic "dangling pointer"
           end.

Definition alloc (v : Volume F) : V ptr :=
  fun s => Ok (Some (length (heap s)), mkState (heap s ++ [v]) (draws s)).

Definition draw_NormFloat64 : V F :=
  fun s => Ok (rand_NormFloat64 (draws s), mkState (heap s) (S (draws s))).

Definition draw_Float64 : V F :=
  fun s => Ok (rand_Float64 (draws s), mkState (heap s) (S (draws s))).

Definition WithInitialValue (value : F) : OptionFunc F :=
  fun opts => mkOptions (Zero opts) true value (Weights opts).

Definition WithZeros : OptionFunc F :=
  fun opts => mkOptions true true (InitialValue opts) (Weights opts).

Definition WithWeights (ws : option (list F)) : OptionFunc F :=
  fun opts => mkOptions (Zero opts) (HasInitialValue opts) (InitialValue opts) ws.

(** The builtin [copy(dst, src)]. *)
Definition copy (dst src : list F) : list F :=
  take (length dst) src ++ drop (length src) dst.

(** NewVolume creates a new Volume of the given size and options. *)
Definition NewVolume (d : Dimensions) (optFuncs : list (OptionFunc F)) : V ptr :=
  let n := Dimensions_Size d in
  let* w0 := lift (make f0 n) in
  let* dw0 := lift (make f0 n) in
  let opts := fold_left (fun o optFn => optFn o) optFuncs
                (mkOptions false false f0 None) in
  let* w1 := (if HasInitialValue opts then
           if negb (Zero opts) then
             for_range n (fun i wi => lift (slice_set wi i (InitialValue opts))) w0
           else ret w0
         else match Weights opts with
              | Some ws =>
                  if negb (len ws =? Dim_Z d) then
                    panic "Invalid input weights: depth inconsistencies"
                  else if negb (Dim_X d =? 1) then
                    panic "Invalid volume dimensions: X must equal 1 when weights are given"
                  else if negb (Dim_Y d =? 1) then
                    panic "Invalid volume dimensions: Y must equal 1 when weights are given"
                  else ret (copy w0 ws)
              | None =>
                  let desiredStdDev := math_Sqrt (fdiv f1 (fofZ n)) in
                  for_range n (fun i wi =>
                    let* r := draw_NormFloat64 in
                    lift (slice_set wi i (fmul r desiredStdDev))) w0
              end) in
  alloc (mkVolume d w1 dw0).

Definition Volume_Dimensions (v : ptr) : V Dimensions :=
  let* vol := deref v in ret (dim vol).

Definition Volume_Size (v : ptr) : V Z :=
  let* vol := deref v in ret (Dimensions_Size (dim vol)).

(** getIndex returns the array index for the given position. *)
Definition getIndex (d : Dimensions) (x y z : Z) : Z :=
  GoInt.add (GoInt.mul (GoInt.add (GoInt.mul (Dim_X d) y) x) (Dim_Z d)) z.

Definition Volume_getIndex (v : ptr) (x y z : Z) : V Z :=
  let* vol := deref v in ret (getIndex (dim vol) x y z).

Definition Volume_GetByIndex (v : ptr) (index : Z) : V F :=
  let* vol := deref v in lift (slice_get (w vol) index).

Definition Volume_SetByIndex (v : ptr) (index : Z) (val : F) : V unit :=
  let* vol := deref v in
  let* w' := lift (slice_set (w vol) index val) in
  assign v (mkVolume (dim vol) w' (dw vol)).

Definition Volume_Get (v : ptr) (x y z : Z) : V F :=
  let* i := Volume_getIndex v x y z in Volume_GetByIndex v i.

Definition Volume_Set (v : ptr) (x y z : Z) (val : F) : V unit :=
  let* i := Volume_getIndex v x y z in Volume_SetByIndex v i val.

Definition Volume_Add (v : ptr) (x y z : Z) (val : F) : V unit :=
  let* i := Volume_getIndex v x y z in
  let* old := Volume_GetByIndex v i in
  Volume_SetByIndex v i (fadd old val).

Definition Volume_MultByIndex (v : ptr) (index : Z) (val : F) : V unit :=
  let* old := Volume_GetByIndex v index in
  Volume_SetByIndex v index (fmul old val).

Definition Volume_Mult (v : ptr) (x y z : Z) (val : F) : V unit :=
  let* i := Volume_getIndex v x y z in Volume_MultByIndex v i val.

Definition Volume_GetGradByIndex (v : ptr) (index : Z) : V F :=
  let* vol := deref v in lift (slice_get (dw vol) index).

Definition Volume_SetGradByIndex (v : ptr) (index : Z) (val : F) : V unit :=
  let* vol := deref v in
  let* dw' := lift (slice_set (dw vol) index val) in
  assign v (mkVolume (dim vol) (w vol) dw').

Definition Volume_AddGradByIndex (v : ptr) (index : Z) (val : F) : V unit :=
  let* old := Volume_GetGradByIndex v index in
  Volume_SetGradByIndex v index (fadd old val).

Definition Volume_GetGrad (v : ptr) (x y z : Z) : V F :=
  let* i := Volume_getIndex v x y z in Volume_GetGradByIndex v i.

Definition Volume_SetGrad (v : ptr) (x y z : Z) (val : F) : V unit :=
  let* i := Volume_getIndex v x y z in Volume_SetGradByIndex v i val.

Definition Volume_AddGrad (v : ptr) (x y z : Z) (val : F) : V unit :=
  let* i := Volume_getIndex v x y z in Volume_AddGradByIndex v i val.

(** Clone creates a new Volume with cloned weights and zeroed gradients. *)
Definition Volume_Clone (v : ptr) : V ptr :=
  let* vol0 := deref v in
  let* p := NewVolume (dim vol0) [WithZeros] in
  let* vol := deref p in
  let* src := deref v in
  assign p (mkVolume (dim vol) (copy (w vol) (w src)) (dw vol)) ;;
  ret p.

(** CloneAndZero creates a Volume of the same size but with zero weights
    and gradients. *)
Definition Volume_CloneAndZero (v : ptr) : V ptr :=
  let* vol := deref v in NewVolume (dim vol) [WithZeros].

(** AddFrom adds the weights from another Volume. *)
Definition Volume_AddFrom (v vol : ptr) : V unit :=
  let* n := Volume_Size v in
  for_range n (fun i _ =>
    let* x := Volume_GetByIndex v i in
    let* y := Volume_GetByIndex vol i in
    Volume_SetByIndex v i (fadd x y)) tt.

(** AddFromScaled adds the weights from another Volume and scaled with
    the given value. *)
Definition Volume_AddFromScaled (v vol : ptr) (scale : F) : V unit :=
  let* n := Volume_Size v in
  for_range n (fun i _ =>
    let* x := Volume_GetByIndex v i in
    let* y := Volume_GetByIndex vol i in
    Volume_SetByIndex v i (fadd x (fmul y scale))) tt.

(** ZeroGrad sets the gradients to 0. *)
Definition Volume_ZeroGrad (v : ptr) : V unit :=
  let* n := Volume_Size v in
  for_range n (fun i _ => Volume_SetGradByIndex v i f0) tt.

(** SetConst sets the weights to the given value. *)
Definition Volume_SetConst (v : ptr) (val : F) : V unit :=
  let* n := Volume_Size v in
  for_range n (fun i _ => Volume_SetByIndex v i val) tt.

(** Weights returns all the weights for the volume. *)
Definition Volume_Weights (v : ptr) : V (list F) :=
  let* vol := deref v in ret (w vol).

(** Gradients returns all the gradients for the volume. *)
Definition Volume_Gradients (v : ptr) : V (list F) :=
  let* vol := deref v in ret (dw vol).

End Volume.

(** ** package layers: definitions and configurations *)

(** LayerType describes the network layer. *)
Definition LayerType := string.

Definition FullyConnected : LayerType := "fc"%string.
Definition LocalResponseNorm : LayerType := "lrn"%string.
Definition Dropout : LayerType := "dropout"%string.
Definition Input : LayerType := "input"%string.
Definition SoftMax : LayerType := "softmax"%string.
Definition Regression : LayerType := "regression"%string.
Definition Conv : LayerType := "conv"%string.
Definition Pool : LayerType := "pool"%string.
Definition ReLU : LayerType := "relu"%string.
Definition Sigmoid : LayerType := "sigmoid"%string.
Definition Tanh : LayerType := "tanh"%string.
Definition Maxout : LayerType := "maxout"%string.
Definition SVM : LayerType := "svm"%string.

Record convLayerConfig (F : Type) := mkConvLayerConfig {
  conv_FilterCount : Z;
  conv_Sx : Z;
  conv_Sy : Z;
  conv_Stride : Z;
  conv_Padding : Z;
  conv_L1DecayMult : F;
  conv_L2DecayMult : F;
  conv_PreferredBias : F
}.
Arguments mkConvLayerConfig {F}.
Arguments conv_FilterCount {F} _.
Arguments conv_Sx {F} _.
Arguments conv_Sy {F} _.
Arguments conv_Stride {F} _.
Arguments conv_Padding {F} _.
Arguments conv_L1DecayMult {F} _.
Arguments conv_L2DecayMult {F} _.
Arguments conv_PreferredBias {F} _.

Record poolLayerConfig := mkPoolLayerConfig {
  pool_Sx : Z;
  pool_Sy : Z;
  pool_Stride : Z;
  pool_Padding : Z
}.

(** fullyConnLayerConfig stores the config info for fully connected layers. *)
Record fullyConnLayerConfig (F : Type) := mkFullyConnLayerConfig {
  fc_Neurons : Z;
  fc_L1DecayMult : F;
  fc_L2DecayMult : F;
  fc_PreferredBias : F
}.
Arguments mkFullyConnLayerConfig {F}.
Arguments fc_Neurons {F} _.
Arguments fc_L1DecayMult {F} _.
Arguments fc_L2DecayMult {F} _.
Arguments fc_PreferredBias {F} _.

(** DropoutLayerConfig contains the dropout probablity. *)
Record DropoutLayerConfig (F : Type) := mkDropoutLayerConfig {
  DropoutProbability : F
}.
Arguments mkDropoutLayerConfig {F}.
Arguments DropoutProbability {F} _.

(** MaxoutLayerConfig contains the maxout group size. *)
Record MaxoutLayerConfig := mkMaxoutLayerConfig { GroupSize : Z }.

Record softMaxLayerConfig := mkSoftMaxLayerConfig { softmax_Classes : Z }.
Record svmLayerConfig := mkSvmLayerConfig { svm_Classes : Z }.
Record regressionLayerConfig := mkRegressionLayerConfig { regression_Neurons : Z }.

(** LayerConfig is the empty interface: a value of any dynamic type.
    The configurations of this package are held by pointer, except
    [maxoutConfigValue], a [MaxoutLayerConfig] held by value. *)
Inductive LayerConfig (F : Type) : Type :=
| nilConfig
| convConfig (c : convLayerConfig F)
| poolConfig (c : poolLayerConfig)
| fullyConnConfig (c : fullyConnLayerConfig F)
| dropoutConfig (c : DropoutLayerConfig F)
| maxoutConfig (c : MaxoutLayerConfig)
| maxoutConfigValue (c : MaxoutLayerConfig)
| softMaxConfig (c : softMaxLayerConfig)
| svmConfig (c : svmLayerConfig)
| regressionConfig (c : regressionLayerConfig)
| otherConfig.
Arguments nilConfig {F}.
Arguments convConfig {F} _.
Arguments poolConfig {F} _.
Arguments fullyConnConfig {F} _.
Arguments dropoutConfig {F} _.
Arguments maxoutConfig {F} _.
Arguments maxoutConfigValue {F} _.
Arguments softMaxConfig {F} _.
Arguments svmConfig {F} _.
Arguments regressionConfig {F} _.
Arguments otherConfig {F}.

(** LayerDef outlines the layer type, size and config. *)
Record LayerDef (F : Type) := mkLayerDef {
  def_Type : LayerType;
  def_Input : Dimensions;
  def_Output : Dimensions;
  def_Activation : LayerType;
  def_Dropout : option (DropoutLayerConfig F);
  def_Maxout : option MaxoutLayerConfig;
  def_LayerConfig : LayerConfig F
}.
Arguments mkLayerDef {F}.
Arguments def_Type {F} _.
Arguments def_Input {F} _.
Arguments def_Output {F} _.
Arguments def_Activation {F} _.
Arguments def_Dropout {F} _.
Arguments def_Maxout {F} _.
Arguments def_LayerConfig {F} _.

(** LayerResponse represents the layer parameters (weights) and
    gradients; both slices share their arrays with the volume [resp_vol]
    they come from. *)
Record LayerResponse (F : Type) := mkLayerResponse {
  resp_vol : ptr;
  L1DecayMul : F;
  L2DecayMul : F
}.
Arguments mkLayerResponse {F}.
Arguments resp_vol {F} _.
Arguments L1DecayMul {F} _.
Arguments L2DecayMul {F} _.

Definition zeroDimensions : Dimensions := NewDimensions 0 0 0.

(** ** layers/pool.go *)

Record poolLayer := mkPoolLayer {
  pool_conf : poolLayerConfig;
  pool_input : Dimensions;
  pool_output : Dimensions;
  pool_inVol : ptr;
  pool_outVol : ptr;
  pool_switchX : list Z;
  pool_switchY : list Z
}.

Section Pool.
Context {F : Type} `{Float64 F} `{GoRand F}.

Local Abbreviation V := (M (State F)).

(** The output size of a convolution or pooling window along one axis. *)
Definition outSize (input padding size stride : Z) : Z :=
  f2int (math_Floor
    (fadd (fdiv (fsub (fadd (fofZ input) (fmul (fofZ padding) (fofZ 2)))
                      (fofZ size))
                (fofZ stride))
          f1)).

(** NewPoolLayer creates a new pool layer. *)
Definition NewPoolLayer (def : LayerDef F) : V poolLayer :=
  if negb (String.eqb (def_Type def) Pool) then
    panic (String.append "Invalid layer type: " (String.append (def_Type def) " != pool"))
  else if Dim_Z (def_Output def) =? 0 then
    panic "Output depth cannot be 0 for pool layer"
  else match def_LayerConfig def with
  | nilConfig => panic "Config cannot be nil for pool layer"
  | poolConfig conf =>
      let conf :=
        if pool_Sy conf <=? 0
        then mkPoolLayerConfig (pool_Sx conf) (pool_Sx conf)
                               (pool_Stride conf) (pool_Padding conf)
        else conf in
      let outDepth := Dim_Z (def_Input def) in
      let outSx := outSize (Dim_X (def_Input def)) (pool_Padding conf)
                           (pool_Sx conf) (pool_Stride conf) in
      let outSy := outSize (Dim_Y (def_Input def)) (pool_Padding conf)
                           (pool_Sy conf) (pool_Stride conf) in
      let outDim := NewDimensions outSx outSy outDepth in
      let* switchX := lift (make 0 (Dimensions_Size outDim)) in
      let* switchY := lift (make 0 (Dimensions_Size outDim)) in
      ret (mkPoolLayer conf (def_Input def) outDim None None switchX switchY)
  | _ => panic "Invalid LayerConfig for PoolLayer"
  end.

Definition poolLayer_Forward (l : poolLayer) (vol : ptr) (training : bool)
  : V (poolLayer * ptr) :=
  let conf := pool_conf l in
  let* A := NewVolume (pool_output l) [WithZeros] in
  let* (n, switchX, switchY) :=
    for_range (Dim_Z (pool_output l)) (fun d st =>
      let x := GoInt.neg (pool_Padding conf) in
      let* (_, st) :=
        for_range (Dim_X (pool_output l)) (fun ax '(x, st) =>
          let x := GoInt.add x (pool_Stride conf) in
          let y := GoInt.neg (pool_Padding conf) in
          let* (_, st) :=
            for_range (Dim_Y (pool_output l)) (fun ay '(y, (n, switchX, switchY)) =>
              let y := GoInt.add y (pool_Stride conf) in
              let* (a, winX, winY) :=
                for_range (pool_Sx conf) (fun fx acc =>
                  for_range (pool_Sy conf) (fun fy '(a, winX, winY) =>
                    let oy := GoInt.add y fy in
                    let ox := GoInt.add x fx in
                    if (0 <=? oy) && (oy <? Dim_Y (pool_input l))
                       && (0 <=? ox) && (ox <? Dim_X (pool_input l))
                    then
                      let* v := Volume_Get vol ox oy d in
                      if fgtb v a then ret (v, ox, oy) else ret (a, winX, winY)
                    else ret (a, winX, winY)) acc)
                  (fneg (fofZ 100000), -1, -1) in
              let* switchX := lift (slice_set switchX n winX) in
              let* switchY := lift (slice_set switchY n winY) in
              let n := GoInt.add n 1 in
              Volume_Set A ax ay d a ;;
              ret (y, (n, switchX, switchY))) (y, st) in
          ret (x, st)) (x, st) in
      ret st) (0, pool_switchX l, pool_switchY l) in
  ret (mkPoolLayer conf (pool_input l) (pool_output l) vol A switchX switchY, A).

Definition poolLayer_Backward (l : poolLayer) : V poolLayer :=
  let conf := pool_conf l in
  Volume_ZeroGrad (pool_inVol l) ;;
  for_range (Dim_Z (pool_output l)) (fun d n =>
    let x := GoInt.neg (pool_Padding conf) in
    let* (_, n) :=
      for_range (Dim_X (pool_output l)) (fun ax '(x, n) =>
        let x := GoInt.add x (pool_Stride conf) in
        let y := GoInt.neg (pool_Padding conf) in
        let* (_, n) :=
          for_range (Dim_Y (pool_output l)) (fun ay '(y, n) =>
            let y := GoInt.add y (pool_Stride conf) in
            let* chainGrad := Volume_GetGrad (pool_outVol l) ax ay d in
            let* sx := lift (slice_get (pool_switchX l) n) in
            let* sy := lift (slice_get (pool_switchY l) n) in
            Volume_AddGrad (pool_inVol l) sx sy d chainGrad ;;
            ret (y, GoInt.add n 1)) (y, n) in
        ret (x, n)) (x, n) in
    ret n) 0 ;;
  ret l.

End Pool.

(** ** layers/input.go *)

Record inputLayer := mkInputLayer {
  input_output : Dimensions;
  input_inVol : ptr;
  input_outVol : ptr
}.

Definition layerTypeError (t : LayerType) (expected : string) : string :=
  String.append "Invalid layer type: "
    (String.append t (String.append " != " expected)).

Section Input.
Context {F : Type} `{Float64 F} `{GoRand F}.

Local Abbreviation V := (M (State F)).

(** NewInputLayer creates a new input layer. *)
Definition NewInputLayer (def : LayerDef F) : V inputLayer :=
  if negb (String.eqb (def_Type def) Input) then
    panic (layerTypeError (def_Type def) "input")
  else if Dim_Z (def_Output def) =? 0 then
    panic "Output depth cannot be 0 for input layer"
  else ret (mkInputLayer (def_Output def) None None).

Definition inputLayer_Forward (il : inputLayer) (vol : ptr) (training : bool)
  : V (inputLayer * ptr) :=
  ret (mkInputLayer (input_output il) vol vol, vol).

Definition inputLayer_Backward (il : inputLayer) : V inputLayer :=
  panic "Unsupported operation".

End Input.

(** ** layers/relu.go *)

Record reluLayer := mkReluLayer {
  relu_output : Dimensions;
  relu_inVol : ptr;
  relu_outVol : ptr
}.

Section Relu.
Context {F : Type} `{Float64 F} `{GoRand F}.

Local Abbreviation V := (M (State F)).

(** NewReluLayer creates a new ReLU (rectified linear unit) layer. *)
Definition NewReluLayer (def : LayerDef F) : V reluLayer :=
  if negb (String.eqb (def_Type def) ReLU) then
    panic (layerTypeError (def_Type def) "relu")
  else if Dim_Z (def_Output def) =? 0 then
    panic "Output depth cannot be 0 for relu layer"
  else ret (mkReluLayer (def_Output def) None None).

Definition reluLayer_Forward (l : reluLayer) (vol : ptr) (training : bool)
  : V (reluLayer * ptr) :=
  let* v2 := Volume_Clone vol in
  let* n := Volume_Size vol in
  for_range n (fun i _ =>
    let* x := Volume_GetByIndex v2 i in
    if fltb x f0 then Volume_SetByIndex v2 i f0 else ret tt) tt ;;
  ret (mkReluLayer (relu_output l) vol v2, v2).

Definition reluLayer_Backward (l : reluLayer) : V reluLayer :=
  let* n := Volume_Size (relu_inVol l) in
  Volume_ZeroGrad (relu_inVol l) ;;
  for_range n (fun i _ =>
    let* o := Volume_GetByIndex (relu_outVol l) i in
    if fleb o f0 then Volume_SetGradByIndex (relu_inVol l) i f0
    else
      let* g := Volume_GetGradByIndex (relu_outVol l) i in
      Volume_SetGradByIndex (relu_inVol l) i g) tt ;;
  ret l.

End Relu.

(** ** layers/sigmoid.go *)

Record sigmoidLayer := mkSigmoidLayer {
  sigmoid_output : Dimensions;
  sigmoid_inVol : ptr;
  sigmoid_outVol : ptr
}.

Section Sigmoid.
Context {F : Type} `{Float64 F} `{Libm F} `{GoRand F}.

Local Abbreviation V := (M (State F)).

(** NewSigmoidLayer creates a new Sigmoid layer. *)
Definition NewSigmoidLayer (def : LayerDef F) : V sigmoidLayer :=
  if negb (String.eqb (def_Type def) Sigmoid) then
    panic (layerTypeError (def_Type def) "sigmoid")
  else if Dim_Z (def_Output def) =? 0 then
    panic "Output depth cannot be 0 for sigmoid layer"
  else ret (mkSigmoidLayer (def_Output def) None None).

Definition sigmoidLayer_Forward (l : sigmoidLayer) (vol : ptr) (training : bool)
  : V (sigmoidLayer * ptr) :=
  let* v2 := Volume_CloneAndZero vol in
  let* n := Volume_Size vol in
  for_range n (fun i _ =>
    let* x := Volume_GetByIndex vol i in
    Volume_SetByIndex v2 i (fdiv f1 (fadd f1 (math_Exp (fneg x))))) tt ;;
  ret (mkSigmoidLayer (sigmoid_output l) vol v2, v2).

Definition sigmoidLayer_Backward (l : sigmoidLayer) : V sigmoidLayer :=
  let* n := Volume_Size (sigmoid_inVol l) in
  Volume_ZeroGrad (sigmoid_inVol l) ;;
  for_range n (fun i _ =>
    let* v2wi := Volume_GetByIndex (sigmoid_outVol l) i in
    let* g := Volume_GetGradByIndex (sigmoid_outVol l) i in
    Volume_SetGradByIndex (sigmoid_inVol l) i
      (fmul (fmul v2wi (fsub f1 v2wi)) g)) tt ;;
  ret l.

End Sigmoid.

(** ** layers/tanh.go *)

Record tanhLayer := mkTanhLayer {
  tanh_output : Dimensions;
  tanh_inVol : ptr;
  tanh_outVol : ptr
}.

Section Tanh.
Context {F : Type} `{Float64 F} `{Libm F} `{GoRand F}.

Local Abbreviation V := (M (State F)).

Definition NewTanhLayer (def : LayerDef F) : V tanhLayer :=
  if negb (String.eqb (def_Type def) Tanh) then
    panic (layerTypeError (def_Type def) "tanh")
  else if Dim_Z (def_Output def) =? 0 then
    panic "Output depth cannot be 0 for tanh layer"
  else ret (mkTanhLayer (def_Output def) None None).

Definition tanhLayer_Forward (l : tanhLayer) (vol : ptr) (training : bool)
  : V (tanhLayer * ptr) :=
  let* v2 := Volume_CloneAndZero vol in
  let* n := Volume_Size vol in
  for_range n (fun i _ =>
    let* x := Volume_GetByIndex vol i in
    Volume_SetByIndex v2 i (math_Tanh x)) tt ;;
  ret (mkTanhLayer (tanh_output l) vol v2, v2).

Definition tanhLayer_Backward (l : tanhLayer) : V tanhLayer :=
  let* n := Volume_Size (tanh_inVol l) in
  Volume_ZeroGrad (tanh_inVol l) ;;
  for_range n (fun i _ =>
    let* v2wi := Volume_GetByIndex (tanh_outVol l) i in
    let* g := Volume_GetGradByIndex (tanh_outVol l) i in
    Volume_SetGradByIndex (tanh_inVol l) i
      (fmul (fsub f1 (fmul v2wi v2wi)) g)) tt ;;
  ret l.

End Tanh.

(** ** layers/dropout.go *)

Record dropoutLayer (F : Type) := mkDropoutLayer {
  dropout_config : DropoutLayerConfig F;
  dropout_input : Dimensions;
  dropout_output : Dimensions;
  dropout_dropped : list bool;
  dropout_inVol : ptr;
  dropout_outVol : ptr
}.
Arguments mkDropoutLayer {F}.
Arguments dropout_config {F} _.
Arguments dropout_input {F} _.
Arguments dropout_output {F} _.
Arguments dropout_dropped {F} _.
Arguments dropout_inVol {F} _.
Arguments dropout_outVol {F} _.

Section DropoutLayer.
Context {F : Type} `{Float64 F} `{GoRand F}.

Local Abbreviation V := (M (State F)).

(** NewDropoutLayer creates a new dropout layer. *)
Definition NewDropoutLayer (def : LayerDef F) : V (dropoutLayer F) :=
  if negb (String.eqb (def_Type def) Dropout) then
    panic (layerTypeError (def_Type def) "input")
  else match def_LayerConfig def with
  | dropoutConfig conf =>
      let n := Dimensions_Size (def_Output def) in
      let* dropped := lift (make false n) in
      ret (mkDropoutLayer conf (def_Input def) (def_Output def) dropped None None)
  | _ => panic "Invalid layer config: expected DropoutLayerConfig"
  end.

Definition dropoutLayer_Forward (l : dropoutLayer F) (vol : ptr) (training : bool)
  : V (dropoutLayer F * ptr) :=
  let p := DropoutProbability (dropout_config l) in
  let* vol2 := Volume_Clone vol in
  let* n := Volume_Size vol in
  let* dropped :=
    if training then
      for_range n (fun i dropped =>
        let* r := draw_Float64 in
        if fltb r p then
          Volume_SetByIndex vol2 i f0 ;;
          lift (slice_set dropped i true)
        else lift (slice_set dropped i false)) (dropout_dropped l)
    else
      for_range n (fun i dropped =>
        Volume_MultByIndex vol2 i p ;; ret dropped) (dropout_dropped l) in
  ret (mkDropoutLayer (dropout_config l) (dropout_input l) (dropout_output l)
         dropped vol vol2, vol2).

Definition dropoutLayer_Backward (l : dropoutLayer F) : V (dropoutLayer F) :=
  Volume_ZeroGrad (dropout_inVol l) ;;
  let chainGrad := dropout_outVol l in
  let* n := Volume_Size (dropout_inVol l) in
  for_range n (fun i _ =>
    let* d := lift (slice_get (dropout_dropped l) i) in
    if negb d then
      let* g := Volume_GetGradByIndex chainGrad i in
      Volume_SetGradByIndex (dropout_inVol l) i g
    else ret tt) tt ;;
  ret l.

End DropoutLayer.

(** ** layers/fully_connected.go *)

Record fullyConnLayer (F : Type) := mkFullyConnLayer {
  fc_conf : fullyConnLayerConfig F;
  fc_input : Dimensions;
  fc_output : Dimensions;
  fc_inVol : ptr;
  fc_outVol : ptr;
  fc_filters : list ptr;
  fc_biases : ptr
}.
Arguments mkFullyConnLayer {F}.
Arguments fc_conf {F} _.
Arguments fc_input {F} _.
Arguments fc_output {F} _.
Arguments fc_inVol {F} _.
Arguments fc_outVol {F} _.
Arguments fc_filters {F} _.
Arguments fc_biases {F} _.

Section FullyConn.
Context {F : Type} `{Float64 F} `{GoRand F}.

Local Abbreviation V := (M (State F)).

(** NewFullyConnectedLayerConfig, without options. *)
Definition NewFullyConnectedLayerConfig (neurons : Z) : V (fullyConnLayerConfig F) :=
  if neurons <=? 0 then panic "Neuron count must be greater than 0"
  else ret (mkFullyConnLayerConfig neurons f0 f1 f0).

(** NewFullyConnectedLayer creates a new fully connected layer. *)
Definition NewFullyConnectedLayer (def : LayerDef F) : V (fullyConnLayer F) :=
  if negb (String.eqb (def_Type def) FullyConnected) then
    panic (layerTypeError (def_Type def) "fc")
  else if Dim_Z (def_Output def) =? 0 then
    panic "Output depth cannot be 0 for a fully connected layer"
  else match def_LayerConfig def with
  | nilConfig => panic "Config cannot be nil for a fully connected layer"
  | fullyConnConfig conf =>
      let outDepth := fc_Neurons conf in
      let outDim := NewDimensions 1 1 outDepth in
      let bias := fc_PreferredBias conf in
      let* filters :=
        for_range outDepth (fun i filters =>
          let* f := NewVolume
                      (NewDimensions 1 1 (Dimensions_Size (def_Input def))) [] in
          ret (filters ++ [f])) [] in
      let* biases := NewVolume (NewDimensions 1 1 outDepth)
                       [WithInitialValue bias] in
      ret (mkFullyConnLayer conf (def_Input def) outDim None None filters biases)
  | _ => panic "Invalid LayerConfig for fullyConnLayer"
  end.

(** The filter [l.filters[i]]. *)
Definition filter_at (filters : list ptr) (i : Z) : V ptr :=
  lift (slice_get filters i).

Definition fullyConnLayer_Forward (l : fullyConnLayer F) (vol : ptr)
  (training : bool) : V (fullyConnLayer F * ptr) :=
  let* A := NewVolume (fc_output l) [WithZeros] in
  let* ws := Volume_Weights vol in
  for_range (Dimensions_Size (fc_output l)) (fun i _ =>
    let* fi := filter_at (fc_filters l) i in
    let* wi := Volume_Weights fi in
    let* a :=
      for_range (Dimensions_Size (fc_input l)) (fun d a =>
        let* x := lift (slice_get ws d) in
        let* y := lift (slice_get wi d) in
        ret (fadd a (fmul x y))) f0 in
    let* b := Volume_GetByIndex (fc_biases l) i in
    Volume_SetByIndex A i (fadd a b)) tt ;;
  ret (mkFullyConnLayer (fc_conf l) (fc_input l) (fc_output l) vol A
         (fc_filters l) (fc_biases l), A).

Definition fullyConnLayer_Backward (l : fullyConnLayer F) : V (fullyConnLayer F) :=
  Volume_ZeroGrad (fc_inVol l) ;;
  let numInputs := Dimensions_Size (fc_input l) in
  for_range (Dim_Z (fc_output l)) (fun i _ =>
    let* tfi := filter_at (fc_filters l) i in
    let* chainGrad := Volume_GetGradByIndex (fc_outVol l) i in
    for_range numInputs (fun d _ =>
      let* fd := Volume_GetByIndex tfi d in
      Volume_AddGradByIndex (fc_inVol l) d (fmul fd chainGrad) ;;
      let* xd := Volume_GetByIndex (fc_inVol l) d in
      Volume_AddGradByIndex tfi d (fmul xd chainGrad)) tt ;;
    Volume_AddGradByIndex (fc_biases l) i chainGrad) tt ;;
  ret l.

Definition fullyConnLayer_GetResponse (l : fullyConnLayer F)
  : V (list (LayerResponse F)) :=
  let* resp :=
    for_range (Dim_Z (fc_output l)) (fun i resp =>
      let* fi := filter_at (fc_filters l) i in
      deref fi ;;
      ret (resp ++ [mkLayerResponse fi (fc_L1DecayMult (fc_conf l))
                                       (fc_L2DecayMult (fc_conf l))])) [] in
  deref (fc_biases l) ;;
  ret (resp ++ [mkLayerResponse (fc_biases l) f0 f0]).

End FullyConn.

(** ** layers/conv.go *)

Record convLayer (F : Type) := mkConvLayer {
  conv_conf : convLayerConfig F;
  conv_input : Dimensions;
  conv_output : Dimensions;
  conv_inVol : ptr;
  conv_outVol : ptr;
  conv_filters : list ptr;
  conv_biases : ptr
}.
Arguments mkConvLayer {F}.
Arguments conv_conf {F} _.
Arguments conv_input {F} _.
Arguments conv_output {F} _.
Arguments conv_inVol {F} _.
Arguments conv_outVol {F} _.
Arguments conv_filters {F} _.
Arguments conv_biases {F} _.

Section ConvLayer.
Context {F : Type} `{Float64 F} `{GoRand F}.

Local Abbreviation V := (M (State F)).

(** NewConvLayer creates a new convoluted layer. *)
Definition NewConvLayer (def : LayerDef F) : V (convLayer F) :=
  if negb (String.eqb (def_Type def) Conv) then
    panic (layerTypeError (def_Type def) "conv")
  else if Dim_Z (def_Output def) =? 0 then
    panic "Output depth cannot be 0 for conv layer"
  else match def_LayerConfig def with
  | nilConfig => panic "Config cannot be nil for conv layer"
  | convConfig conf =>
      let conf :=
        if conv_Sy conf <=? 0
        then mkConvLayerConfig (conv_FilterCount conf) (conv_Sx conf) (conv_Sx conf)
               (conv_Stride conf) (conv_Padding conf) (conv_L1DecayMult conf)
               (conv_L2DecayMult conf) (conv_PreferredBias conf)
        else conf in
      let outDepth := conv_FilterCount conf in
      let outSx := outSize (Dim_X (def_Input def)) (conv_Padding conf)
                           (conv_Sx conf) (conv_Stride conf) in
      let outSy := outSize (Dim_Y (def_Input def)) (conv_Padding conf)
                           (conv_Sy conf) (conv_Stride conf) in
      let outDim := NewDimensions outSx outSy outDepth in
      let bias := conv_PreferredBias conf in
      let* filters :=
        for_range outDepth (fun i filters =>
          let* f := NewVolume
                      (NewDimensions (conv_Sx conf) (conv_Sy conf)
                                     (Dim_Z (def_Input def))) [] in
          ret (filters ++ [f])) [] in
      let* biases := NewVolume (NewDimensions 1 1 outDepth)
                       [WithInitialValue bias] in
      ret (mkConvLayer conf (def_Input def) outDim None None filters biases)
  | _ => panic "Invalid LayerConfig for ConvLayer"
  end.

(** The index of the filter weight at kernel offset [(fx, fy, fz)]. *)
Definition conv_filterIndex (fDim : Dimensions) (fx fy fz : Z) : Z :=
  GoInt.add (GoInt.mul (GoInt.add (GoInt.mul (Dim_X fDim) fy) fx) (Dim_Z fDim)) fz.

(** The index at which Forward reads the input value mapped to
    [(ox, oy, fz)]: [((vsx*oy)+ox)*vDim.Z + fz]. *)
Definition conv_forwardIndex (vDim : Dimensions) (ox oy fz : Z) : Z :=
  GoInt.add (GoInt.mul (GoInt.add (GoInt.mul (Dim_X vDim) oy) ox) (Dim_Z vDim)) fz.

(** The index [ix1] at which Backward reads the input value and adds to
    the input gradient: [((vsy*oy)+ox)*vDim.Z + fz]. *)
Definition conv_backwardIndex (vDim : Dimensions) (ox oy fz : Z) : Z :=
  GoInt.add (GoInt.mul (GoInt.add (GoInt.mul (Dim_Y vDim) oy) ox) (Dim_Z vDim)) fz.

Definition convLayer_Forward (l : convLayer F) (vol : ptr) (training : bool)
  : V (convLayer F * ptr) :=
  let conf := conv_conf l in
  let* A := NewVolume (conv_output l) [WithZeros] in
  let* vDim := Volume_Dimensions vol in
  let vsx := Dim_X vDim in
  let vsy := Dim_Y vDim in
  let stride := conv_Stride conf in
  for_range (Dim_Z (conv_output l)) (fun d _ =>
    let* f := filter_at (conv_filters l) d in
    let y := GoInt.neg (conv_Padding conf) in
    for_range (Dim_Y (conv_output l)) (fun ay y =>
      let y := GoInt.add y stride in
      let x := GoInt.neg (conv_Padding conf) in
      for_range (Dim_X (conv_output l)) (fun ax x =>
        let x := GoInt.add x stride in
        let* fDim := Volume_Dimensions f in
        let* a :=
          for_range (Dim_Y fDim) (fun fy a =>
            let oy := GoInt.add y fy in
            for_range (Dim_X fDim) (fun fx a =>
              let ox := GoInt.add x fx in
              if (0 <=? oy) && (oy <? vsy) && (0 <=? ox) && (ox <? vsx) then
                for_range (Dim_Z fDim) (fun fz a =>
                  let* a1 := Volume_GetByIndex f (conv_filterIndex fDim fx fy fz) in
                  let* a2 := Volume_GetByIndex vol (conv_forwardIndex vDim ox oy fz) in
                  ret (fadd a (fmul a1 a2))) a
              else ret a) a) f0 in
        let* b := Volume_GetByIndex (conv_biases l) d in
        Volume_Set A ax ay d (fadd a b) ;;
        ret x) x ;;
      ret y) y ;;
    ret tt) tt ;;
  ret (mkConvLayer conf (conv_input l) (conv_output l) vol A
         (conv_filters l) (conv_biases l), A).

Definition convLayer_Backward (l : convLayer F) : V (convLayer F) :=
  let conf := conv_conf l in
  Volume_ZeroGrad (conv_inVol l) ;;
  let* vDim := Volume_Dimensions (conv_inVol l) in
  let vsx := Dim_X vDim in
  let vsy := Dim_Y vDim in
  let stride := conv_Stride conf in
  for_range (Dim_Z (conv_output l)) (fun d _ =>
    let* f := filter_at (conv_filters l) d in
    let y := GoInt.neg (conv_Padding conf) in
    let* fDim := Volume_Dimensions f in
    for_range (Dim_Y (conv_output l)) (fun ay y =>
      let y := GoInt.add y stride in
      let x := GoInt.neg (conv_Padding conf) in
      for_range (Dim_X (conv_output l)) (fun ax x =>
        let x := GoInt.add x stride in
        let* chainGrad := Volume_GetGrad (conv_outVol l) ax ay d in
        for_range (Dim_Y fDim) (fun fy _ =>
          let oy := GoInt.add y fy in
          for_range (Dim_X fDim) (fun fx _ =>
            let ox := GoInt.add x fx in
            if (0 <=? oy) && (oy <? vsy) && (0 <=? ox) && (ox <? vsx) then
              for_range (Dim_Z fDim) (fun fz _ =>
                let ix1 := conv_backwardIndex vDim ox oy fz in
                let ix2 := conv_filterIndex fDim fx fy fz in
                let* iv := Volume_GetByIndex (conv_inVol l) ix1 in
                Volume_AddGradByIndex f ix2 (fmul iv chainGrad) ;;
                let* fv := Volume_GetByIndex f ix2 in
                Volume_AddGradByIndex (conv_inVol l) ix1 (fmul fv chainGrad)) tt
            else ret tt) tt) tt ;;
        Volume_AddGradByIndex (conv_biases l) d chainGrad ;;
        ret x) x ;;
      ret y) y ;;
    ret tt) tt ;;
  ret l.

Definition convLayer_GetResponse (l : convLayer F) : V (list (LayerResponse F)) :=
  let* resp :=
    for_range (Dim_Z (conv_output l)) (fun i resp =>
      let* fi := filter_at (conv_filters l) i in
      deref fi ;;
      ret (resp ++ [mkLayerResponse fi (conv_L1DecayMult (conv_conf l))
                                       (conv_L2DecayMult (conv_conf l))])) [] in
  deref (conv_biases l) ;;
  ret (resp ++ [mkLayerResponse (conv_biases l) f0 f0]).

End ConvLayer.

(** ** layers/maxout.go *)

Record maxoutLayer := mkMaxoutLayer {
  maxout_conf : MaxoutLayerConfig;
  maxout_output : Dimensions;
  maxout_inVol : ptr;
  maxout_outVol : ptr;
  maxout_switches : list Z
}.

Section MaxoutLayer.
Context {F : Type} `{Float64 F} `{GoRand F}.

Local Abbreviation V := (M (State F)).

(** NewMaxoutLayer creates a new maxout layer. *)
Definition NewMaxoutLayer (def : LayerDef F) : V maxoutLayer :=
  if negb (String.eqb (def_Type def) Maxout) then
    panic (layerTypeError (def_Type def) "maxout")
  else if Dim_Z (def_Output def) =? 0 then
    panic "Output depth cannot be 0 for maxout layer"
  else match def_LayerConfig def with
  | maxoutConfig conf =>
      if GroupSize conf <=? 0 then
        panic "Group size cannot be  <= 0 for maxout layer"
      else
        let* switches := lift (make 0 (Dimensions_Size (def_Output def))) in
        ret (mkMaxoutLayer conf (def_Output def) None None switches)
  | _ => panic "Invalid layer config: expected MaxoutLayerConfig"
  end.

(** The scan of one group: the maximum [a] and its offset [ai], where
    [get j] reads the [j]-th channel of the group. *)
Definition maxout_group (groupSize : Z) (get : Z -> V F) : V (F * Z) :=
  let* a := get 0 in
  for_from 1 groupSize (fun j '(a, ai) =>
    let* a2 := get j in
    if fgtb a2 a then ret (a2, j) else ret (a, ai)) (a, 0).

Definition maxoutLayer_Forward (l : maxoutLayer) (vol : ptr) (training : bool)
  : V (maxoutLayer * ptr) :=
  let inVol := vol in
  let groupSize := GroupSize (maxout_conf l) in
  let* v2 := Volume_CloneAndZero (maxout_outVol l) in
  let n := Dim_Z (maxout_output l) in
  let* switches :=
    if (Dim_X (maxout_output l) =? 1) && (Dim_Y (maxout_output l) =? 1) then
      for_range n (fun i switches =>
        let ix := GoInt.mul i groupSize in
        let* (a, ai) := maxout_group groupSize
                          (fun j => Volume_GetByIndex inVol (GoInt.add ix j)) in
        Volume_SetByIndex v2 i a ;;
        lift (slice_set switches i (GoInt.add ix ai))) (maxout_switches l)
    else
      let* (_, switches) :=
        for_range (Dim_X (maxout_output l)) (fun x st =>
          for_range (Dim_Y (maxout_output l)) (fun y st =>
            for_range n (fun i '(si, switches) =>
              let ix := GoInt.mul i groupSize in
              let* (a, ai) := maxout_group groupSize
                                (fun j => Volume_Get inVol x y (GoInt.add ix j)) in
              Volume_Set v2 x y i a ;;
              let* switches := lift (slice_set switches n (GoInt.add ix ai)) in
              ret (GoInt.add si 1, switches)) st) st)
          (0, maxout_switches l) in
      ret switches in
  ret (mkMaxoutLayer (maxout_conf l) (maxout_output l) inVol v2 switches, v2).

Definition maxoutLayer_Backward (l : maxoutLayer) : V maxoutLayer :=
  let n := Dim_Z (maxout_output l) in
  Volume_ZeroGrad (maxout_inVol l) ;;
  (if (Dim_X (maxout_output l) =? 1) && (Dim_Y (maxout_output l) =? 1) then
     for_range n (fun i _ =>
       let* chainGrad := Volume_GetGradByIndex (maxout_outVol l) i in
       let* sw := lift (slice_get (maxout_switches l) i) in
       Volume_SetGradByIndex (maxout_inVol l) sw chainGrad) tt
   else
     let* _ :=
       for_range (Dim_X (maxout_output l)) (fun x si =>
         for_range (Dim_Y (maxout_output l)) (fun y si =>
           for_range n (fun i si =>
             let* chainGrad := Volume_GetGrad (maxout_outVol l) x y i in
             let* sw := lift (slice_get (maxout_switches l) si) in
             Volume_SetGrad (maxout_inVol l) x y sw chainGrad ;;
             ret (GoInt.add si 1)) si) si) 0 in
     ret tt) ;;
  ret l.

End MaxoutLayer.

(** ** layers/softmax.go *)

Record softmaxLayer (F : Type) := mkSoftmaxLayer {
  softmax_conf : softMaxLayerConfig;
  softmax_inDim : Dimensions;
  softmax_outDim : Dimensions;
  softmax_inVol : ptr;
  softmax_outVol : ptr;
  softmax_es : list F
}.
Arguments mkSoftmaxLayer {F}.
Arguments softmax_conf {F} _.
Arguments softmax_inDim {F} _.
Arguments softmax_outDim {F} _.
Arguments softmax_inVol {F} _.
Arguments softmax_outVol {F} _.
Arguments softmax_es {F} _.

Section SoftmaxLayer.
Context {F : Type} `{Float64 F} `{Libm F} `{GoRand F}.

Local Abbreviation V := (M (State F)).

(** NewSoftmaxLayer creates a new softmax layer. *)
Definition NewSoftmaxLayer (def : LayerDef F) : V (softmaxLayer F) :=
  if negb (String.eqb (def_Type def) SoftMax) then
    panic (layerTypeError (def_Type def) "softmax")
  else match def_LayerConfig def with
  | nilConfig => panic "invalid layer config"
  | softMaxConfig conf =>
      let n := Dimensions_Size (def_Input def) in
      ret (mkSoftmaxLayer conf (def_Input def) (NewDimensions 1 1 n) None None [])
  | _ => panic "invalid LayerConfig for softMaxLayerConfig"
  end.

(** NewSoftmaxLayerConfig, without options. *)
Definition NewSoftmaxLayerConfig (classes : Z) : V softMaxLayerConfig :=
  if classes <=? 0 then panic "class count must be greater than 0"
  else ret (mkSoftMaxLayerConfig classes).

Definition softmaxLayer_Forward (l : softmaxLayer F) (vol : ptr) (training : bool)
  : V (softmaxLayer F * ptr) :=
  let n := Dim_Z (softmax_outDim l) in
  let* volA := NewVolume (softmax_outDim l) [WithZeros] in
  let* as_ := Volume_Weights vol in
  let* a0 := lift (slice_get as_ 0) in
  let* aMax :=
    for_range n (fun i aMax =>
      let* ai := lift (slice_get as_ i) in
      if fgtb ai aMax then ret ai else ret aMax) a0 in
  let* es0 := lift (make f0 n) in
  let* (esum, es) :=
    for_range n (fun i '(esum, es) =>
      let* ai := lift (slice_get as_ i) in
      let e := math_Exp (fsub ai aMax) in
      let* es := lift (slice_set es i e) in
      ret (fadd esum e, es)) (f0, es0) in
  let* es :=
    for_range n (fun i es =>
      let* ei := lift (slice_get es i) in
      let* es := lift (slice_set es i (fdiv ei esum)) in
      let* ei := lift (slice_get es i) in
      Volume_SetByIndex volA i ei ;;
      ret es) es in
  ret (mkSoftmaxLayer (softmax_conf l) (softmax_inDim l) (softmax_outDim l)
         vol volA es, volA).

Definition softmaxLayer_Loss (l : softmaxLayer F) (index : Z) : V F :=
  if (index <? 0) || (Dimensions_Size (softmax_outDim l) <=? index) then
    panic "Invalid dimension index"
  else
    Volume_ZeroGrad (softmax_inVol l) ;;
    let n := Dim_Z (softmax_outDim l) in
    for_range n (fun i _ =>
      let indicator := if i =? index then f1 else f0 in
      let* ei := lift (slice_get (softmax_es l) i) in
      Volume_SetGradByIndex (softmax_inVol l) i (fneg (fsub indicator ei))) tt ;;
    let* e := lift (slice_get (softmax_es l) index) in
    ret (fneg (math_Log e)).

Definition softmaxLayer_Backward (l : softmaxLayer F) : V (softmaxLayer F) :=
  panic "Unsupported operation".

(** GetSoftMaxPrediction returns the argmax prediction for the softmax
    layer. *)
Definition softmax_prediction (l : softmaxLayer F) : V Z :=
  let* p := Volume_Weights (softmax_outVol l) in
  let* p0 := lift (slice_get p 0) in
  let* (_, maxi) :=
    for_range (len p) (fun index '(maxv, maxi) =>
      let* pi := lift (slice_get p index) in
      if fgtb pi maxv then ret (pi, index) else ret (maxv, maxi)) (p0, 0) in
  ret maxi.

End SoftmaxLayer.

(** ** layers/svm.go *)

Record svmLayer := mkSvmLayer {
  svm_conf : svmLayerConfig;
  svm_inDim : Dimensions;
  svm_outDim : Dimensions;
  svm_inVol : ptr;
  svm_outVol : ptr
}.

Section SvmLayer.
Context {F : Type} `{Float64 F} `{GoRand F}.

Local Abbreviation V := (M (State F)).

(** NewSVMLayer creates a new SVM layer. *)
Definition NewSVMLayer (def : LayerDef F) : V svmLayer :=
  if negb (String.eqb (def_Type def) SVM) then
    panic (layerTypeError (def_Type def) "svm")
  else match def_LayerConfig def with
  | svmConfig conf =>
      let n := Dimensions_Size (def_Input def) in
      ret (mkSvmLayer conf (def_Input def) (NewDimensions 1 1 n) None None)
  | _ => panic "invalid LayerConfig for svmLayerConfig"
  end.

(** NewSVMLayerConfig, without options. *)
Definition NewSVMLayerConfig (classes : Z) : V svmLayerConfig :=
  if classes <=? 0 then panic "class count must be greater than 0"
  else ret (mkSvmLayerConfig classes).

Definition svmLayer_Forward (l : svmLayer) (vol : ptr) (training : bool)
  : V (svmLayer * ptr) :=
  ret (mkSvmLayer (svm_conf l) (svm_inDim l) (svm_outDim l) vol vol, vol).

Definition svmLayer_Loss (l : svmLayer) (index : Z) : V F :=
  if (index <? 0) || (Dimensions_Size (svm_outDim l) <=? index) then
    panic "Invalid dimension index"
  else
    Volume_ZeroGrad (svm_inVol l) ;;
    let* yScore := Volume_GetByIndex (svm_inVol l) index in
    let margin := f1 in
    let* size := Volume_Size (svm_outVol l) in
    for_range size (fun i loss =>
      if index =? i then ret loss
      else
        let* si := Volume_GetByIndex (svm_inVol l) i in
        let yDiff := fadd (fadd (fneg yScore) si) margin in
        if fgtb yDiff f0 then
          Volume_AddGradByIndex (svm_inVol l) i f1 ;;
          Volume_AddGradByIndex (svm_inVol l) index (fneg f1) ;;
          ret (fadd loss yDiff)
        else ret loss) f0.

Definition svmLayer_Backward (l : svmLayer) : V svmLayer :=
  panic "Unsupported operation".

End SvmLayer.

(** ** layers/regression.go *)

Record regressionLayer := mkRegressionLayer {
  regression_conf : regressionLayerConfig;
  regression_inDim : Dimensions;
  regression_outDim : Dimensions;
  regression_inVol : ptr;
  regression_outVol : ptr
}.

Section RegressionLayer.
Context {F : Type} `{Float64 F} `{GoRand F}.

Local Abbreviation V := (M (State F)).

(** NewRegressionLayer creates a new regression layer. *)
Definition NewRegressionLayer (def : LayerDef F) : V regressionLayer :=
  if negb (String.eqb (def_Type def) Regression) then
    panic (layerTypeError (def_Type def) "regression")
  else match def_LayerConfig def with
  | regressionConfig conf =>
      let n := Dimensions_Size (def_Input def) in
      ret (mkRegressionLayer conf (def_Input def) (NewDimensions 1 1 n) None None)
  | _ => panic "invalid LayerConfig for regressionLayerConfig"
  end.

Definition regressionLayer_Forward (l : regressionLayer) (vol : ptr)
  (training : bool) : V (regressionLayer * ptr) :=
  ret (mkRegressionLayer (regression_conf l) (regression_inDim l)
         (regression_outDim l) vol vol, vol).

Definition regressionLayer_MultiDimensionalLoss (l : regressionLayer)
  (y : list F) : V F :=
  if negb (len y =? Dimensions_Size (regression_outDim l)) then
    panic "Invalid input length"
  else
    Volume_ZeroGrad (regression_inVol l) ;;
    for_range (Dimensions_Size (regression_outDim l)) (fun i loss =>
      let* p := Volume_GetByIndex (regression_inVol l) i in
      let* yi := lift (slice_get y i) in
      let dY := fsub p yi in
      Volume_SetGradByIndex (regression_inVol l) i dY ;;
      ret (fadd loss (fmul (fmul (fdec 1 2) dY) dY))) f0.

Definition regressionLayer_DimensionalLoss (l : regressionLayer)
  (index : Z) (value : F) : V F :=
  if (index <? 0) || (Dimensions_Size (regression_outDim l) <=? index) then
    panic "Invalid dimension index"
  else
    Volume_ZeroGrad (regression_inVol l) ;;
    let* p := Volume_GetByIndex (regression_inVol l) index in
    let dY := fsub p value in
    Volume_SetGradByIndex (regression_inVol l) index dY ;;
    ret (fadd f0 (fmul (fmul (fdec 1 2) dY) dY)).

Definition regressionLayer_Backward (l : regressionLayer) : V regressionLayer :=
  panic "Unsupported operation".

End RegressionLayer.

(** ** layers/layers.go: the Layer interface *)

(** A layer of the network: one of the twelve implementations of the
    interface [Layer]. *)
Inductive Layer (F : Type) : Type :=
| inputL (l : inputLayer)
| fullyConnL (l : fullyConnLayer F)
| dropoutL (l : dropoutLayer F)
| softmaxL (l : softmaxLayer F)
| regressionL (l : regressionLayer)
| convL (l : convLayer F)
| poolL (l : poolLayer)
| reluL (l : reluLayer)
| sigmoidL (l : sigmoidLayer)
| tanhL (l : tanhLayer)
| maxoutL (l : maxoutLayer)
| svmL (l : svmLayer).
Arguments inputL {F} l.
Arguments fullyConnL {F} l.
Arguments dropoutL {F} l.
Arguments softmaxL {F} l.
Arguments regressionL {F} l.
Arguments convL {F} l.
Arguments poolL {F} l.
Arguments reluL {F} l.
Arguments sigmoidL {F} l.
Arguments tanhL {F} l.
Arguments maxoutL {F} l.
Arguments svmL {F} l.

(** The value of [(Network, error)] and the like. *)
Inductive WithError (A : Type) : Type :=
| Value (a : A)
| Error (msg : string).
Arguments Value {A} a.
Arguments Error {A} msg.

Section Layers.
Context {F : Type} `{Float64 F} `{Libm F} `{GoRand F}.

Local Abbreviation V := (M (State F)).

Definition Layer_Type (l : Layer F) : LayerType :=
  match l with
  | inputL _ => Input
  | fullyConnL _ => FullyConnected
  | dropoutL _ => Dropout
  | softmaxL _ => SoftMax
  | regressionL _ => Regression
  | convL _ => Conv
  | poolL _ => Pool
  | reluL _ => ReLU
  | sigmoidL _ => Sigmoid
  | tanhL _ => Tanh
  | maxoutL _ => Maxout
  | svmL _ => SVM
  end.

Definition with_layer {A B} (inj : A -> Layer F) (c : V (A * B)) : V (Layer F * B) :=
  let* (l, b) := c in ret (inj l, b).

Definition Layer_Forward (l : Layer F) (vol : ptr) (training : bool)
  : V (Layer F * ptr) :=
  match l with
  | inputL l => with_layer inputL (inputLayer_Forward l vol training)
  | fullyConnL l => with_layer fullyConnL (fullyConnLayer_Forward l vol training)
  | dropoutL l => with_layer dropoutL (dropoutLayer_Forward l vol training)
  | softmaxL l => with_layer softmaxL (softmaxLayer_Forward l vol training)
  | regressionL l => with_layer regressionL (regressionLayer_Forward l vol training)
  | convL l => with_layer convL (convLayer_Forward l vol training)
  | poolL l => with_layer poolL (poolLayer_Forward l vol training)
  | reluL l => with_layer reluL (reluLayer_Forward l vol training)
  | sigmoidL l => with_layer sigmoidL (sigmoidLayer_Forward l vol training)
  | tanhL l => with_layer tanhL (tanhLayer_Forward l vol training)
  | maxoutL l => with_layer maxoutL (maxoutLayer_Forward l vol training)
  | svmL l => with_layer svmL (svmLayer_Forward l vol training)
  end.

Definition Layer_Backward (l : Layer F) : V (Layer F) :=
  match l with
  | inputL l => let* l := inputLayer_Backward l in ret (inputL l)
  | fullyConnL l => let* l := fullyConnLayer_Backward l in ret (fullyConnL l)
  | dropoutL l => let* l := dropoutLayer_Backward l in ret (dropoutL l)
  | softmaxL l => let* l := softmaxLayer_Backward l in ret (softmaxL l)
  | regressionL l => let* l := regressionLayer_Backward l in ret (regressionL l)
  | convL l => let* l := convLayer_Backward l in ret (convL l)
  | poolL l => let* l := poolLayer_Backward l in ret (poolL l)
  | reluL l => let* l := reluLayer_Backward l in ret (reluL l)
  | sigmoidL l => let* l := sigmoidLayer_Backward l in ret (sigmoidL l)
  | tanhL l => let* l := tanhLayer_Backward l in ret (tanhL l)
  | maxoutL l => let* l := maxoutLayer_Backward l in ret (maxoutL l)
  | svmL l => let* l := svmLayer_Backward l in ret (svmL l)
  end.

Definition Layer_GetResponse (l : Layer F) : V (list (LayerResponse F)) :=
  match l with
  | fullyConnL l => fullyConnLayer_GetResponse l
  | convL l => convLayer_GetResponse l
  | _ => ret []
  end.

(** The type assertion [layer.(LossLayer)]: the [Loss] method of the
    layers that have one. *)
Definition asLossLayer (l : Layer F) : option (Z -> V F) :=
  match l with
  | softmaxL l => Some (softmaxLayer_Loss l)
  | svmL l => Some (svmLayer_Loss l)
  | _ => None
  end.

(** The type assertion [layer.(RegressionLossLayer)]. *)
Definition asRegressionLossLayer (l : Layer F) : option regressionLayer :=
  match l with
  | regressionL l => Some l
  | _ => None
  end.

(** GetSoftMaxPrediction returns the argmax prediction for the softmax
    layer. *)
Definition GetSoftMaxPrediction (layer : Layer F) : V Z :=
  match layer with
  | softmaxL l => softmax_prediction l
  | _ => panic "expected Softmax layer"
  end.

Definition emptyDef : LayerDef F :=
  mkLayerDef ""%string zeroDimensions zeroDimensions ""%string None None nilConfig.

Definition fullyConnDef (conf : fullyConnLayerConfig F) : LayerDef F :=
  mkLayerDef FullyConnected zeroDimensions zeroDimensions ""%string None None
    (fullyConnConfig conf).

Definition typeDef (t : LayerType) (conf : LayerConfig F) : LayerDef F :=
  mkLayerDef t zeroDimensions zeroDimensions ""%string None None conf.

Definition with_LayerConfig (def : LayerDef F) (conf : LayerConfig F) : LayerDef F :=
  mkLayerDef (def_Type def) (def_Input def) (def_Output def) (def_Activation def)
    (def_Dropout def) (def_Maxout def) conf.

Definition with_Input (def : LayerDef F) (input : Dimensions) : LayerDef F :=
  mkLayerDef (def_Type def) input (def_Output def) (def_Activation def)
    (def_Dropout def) (def_Maxout def) (def_LayerConfig def).

(** One iteration of the loop of ActivateLayers: the definitions that
    [def] contributes, appended to [newDefs]. *)
Definition activateLayer (newDefs : list (LayerDef F)) (def : LayerDef F)
  : V (list (LayerDef F)) :=
  let* newDefs :=
    if String.eqb (def_Type def) SoftMax || String.eqb (def_Type def) SVM then
      match def_LayerConfig def with
      | softMaxConfig conf =>
          let* c := NewFullyConnectedLayerConfig (softmax_Classes conf) in
          ret (newDefs ++ [fullyConnDef c])
      | svmConfig conf =>
          let* c := NewFullyConnectedLayerConfig (svm_Classes conf) in
          ret (newDefs ++ [fullyConnDef c])
      | _ => panic "invalid LayerConfig"
      end
    else ret newDefs in
  let* newDefs :=
    if String.eqb (def_Type def) Regression then
      match def_LayerConfig def with
      | regressionConfig conf =>
          let* c := NewFullyConnectedLayerConfig (regression_Neurons conf) in
          ret (newDefs ++ [fullyConnDef c])
      | _ => panic "invalid LayerConfig for svmLayerConfig"
      end
    else ret newDefs in
  let def :=
    if String.eqb (def_Type def) FullyConnected || String.eqb (def_Type def) Conv then
      if String.eqb (def_Activation def) ReLU then
        match def_LayerConfig def with
        | fullyConnConfig conf =>
            with_LayerConfig def
              (fullyConnConfig (mkFullyConnLayerConfig (fc_Neurons conf)
                 (fc_L1DecayMult conf) (fc_L2DecayMult conf) (fdec 1 10)))
        | convConfig conf =>
            with_LayerConfig def
              (convConfig (mkConvLayerConfig (conv_FilterCount conf) (conv_Sx conf)
                 (conv_Sy conf) (conv_Stride conf) (conv_Padding conf)
                 (conv_L1DecayMult conf) (conv_L2DecayMult conf) (fdec 1 10)))
        | _ => def
        end
      else def
    else def in
  let newDefs := newDefs ++ [def] in
  let* newDefs :=
    if negb (String.eqb (def_Activation def) "") then
      if String.eqb (def_Activation def) ReLU then
        ret (newDefs ++ [typeDef ReLU nilConfig])
      else if String.eqb (def_Activation def) Sigmoid then
        ret (newDefs ++ [typeDef Sigmoid nilConfig])
      else if String.eqb (def_Activation def) Tanh then
        ret (newDefs ++ [typeDef Tanh nilConfig])
      else if String.eqb (def_Activation def) Maxout then
        let groupSize :=
          match def_Maxout def with
          | Some m => GroupSize m
          | None => 2
          end in
        ret (newDefs ++ [typeDef Maxout
                           (maxoutConfigValue (mkMaxoutLayerConfig groupSize))])
      else panic "unsupported activation"
    else ret newDefs in
  match def_Dropout def with
  | Some d => ret (newDefs ++ [typeDef Dropout (dropoutConfig d)])
  | None => ret newDefs
  end.

(** The loop [for _, x := range xs { acc = body acc x }]. *)
Fixpoint for_each {A B} (xs : list B) (body : A -> B -> V A) (acc : A) : V A :=
  match xs with
  | [] => ret acc
  | x :: xs' => let* acc' := body acc x in for_each xs' body acc'
  end.

(** ActivateLayers adds activation, dropout layers, etc. *)
Definition ActivateLayers (defs : list (LayerDef F)) : V (list (LayerDef F)) :=
  for_each defs activateLayer [].

End Layers.

(** ** network.go *)

Record network (F : Type) := mkNetwork { layers : list (Layer F) }.
Arguments mkNetwork {F} layers.
Arguments layers {F} _.

Section Network.
Context {F : Type} `{Float64 F} `{Libm F} `{GoRand F}.

Local Abbreviation V := (M (State F)).

(** The constructor that NewNetwork selects for a definition; [None]
    for an unrecognized layer type. *)
Definition newLayer (def : LayerDef F) : option (V (Layer F)) :=
  let t := def_Type def in
  if String.eqb t FullyConnected then
    Some (let* l := NewFullyConnectedLayer def in ret (fullyConnL l))
  else if String.eqb t Dropout then
    Some (let* l := NewDropoutLayer def in ret (dropoutL l))
  else if String.eqb t Input then
    Some (let* l := NewInputLayer def in ret (inputL l))
  else if String.eqb t SoftMax then
    Some (let* l := NewSoftmaxLayer def in ret (softmaxL l))
  else if String.eqb t Regression then
    Some (let* l := NewRegressionLayer def in ret (regressionL l))
  else if String.eqb t Conv then
    Some (let* l := NewConvLayer def in ret (convL l))
  else if String.eqb t Pool then
    Some (let* l := NewPoolLayer def in ret (poolL l))
  else if String.eqb t ReLU then
    Some (let* l := NewReluLayer def in ret (reluL l))
  else if String.eqb t Sigmoid then
    Some (let* l := NewSigmoidLayer def in ret (sigmoidL l))
  else if String.eqb t Tanh then
    Some (let* l := NewTanhLayer def in ret (tanhL l))
  else if String.eqb t Maxout then
    Some (let* l := NewMaxoutLayer def in ret (maxoutL l))
  else if String.eqb t SVM then
    Some (let* l := NewSVMLayer def in ret (svmL l))
  else None.

(** The loop of NewNetwork over the expanded definitions: [prev] is
    [defs[i-1]], absent at [i = 0]. *)
Fixpoint buildLayers (prev : option (LayerDef F)) (defs : list (LayerDef F))
  (newLayers : list (Layer F)) : V (WithError (list (Layer F))) :=
  match defs with
  | [] => ret (Value newLayers)
  | def0 :: rest =>
      let def :=
        match prev with
        | Some p => with_Input def0 (def_Output p)
        | None => def0
        end in
      match newLayer def with
      | Some mk =>
          let* l := mk in
          buildLayers (Some def0) rest (newLayers ++ [l])
      | None => ret (Error "unrecognized layer type")
      end
  end.

(** NewNetwork creates a new network from the layer definitions. *)
Definition NewNetwork (defs : list (LayerDef F)) : V (WithError (network F)) :=
  if len defs <=? 2 then
    ret (Error "at least one input and one loss layer are required")
  else
    let* d0 := lift (slice_get defs 0) in
    if negb (String.eqb (def_Type d0) Input) then
      ret (Error "first layer must be the input layer, to declare size of inputs")
    else
      let* defs := ActivateLayers defs in
      let* r := buildLayers None defs [] in
      match r with
      | Value newLayers => ret (Value (mkNetwork newLayers))
      | Error msg => ret (Error msg)
      end.

Definition network_Size (n : network F) : Z := len (layers n).

Definition layer_at (n : network F) (index : Z) : V (Layer F) :=
  lift (slice_get (layers n) index).

Definition set_layer (n : network F) (index : Z) (l : Layer F) : V (network F) :=
  let* ls := lift (slice_set (layers n) index l) in ret (mkNetwork ls).

(** [n.layers[index].Forward(vol, training)]: the layer at [index] is
    updated in place. *)
Definition forward_at (n : network F) (index : Z) (vol : ptr) (training : bool)
  : V (network F * ptr) :=
  let* l := layer_at n index in
  let* (l', out) := Layer_Forward l vol training in
  let* n' := set_layer n index l' in
  ret (n', out).

Definition network_Forward (n : network F) (vol : ptr) (training : bool)
  : V (network F * ptr) :=
  let* (n, actions) := forward_at n 0 vol training in
  for_from 1 (len (layers n)) (fun index '(n, actions) =>
    forward_at n index vol training) (n, actions).

(** [for index := from; index >= 0; index-- { acc = body index acc }]. *)
Fixpoint for_down_loop {A} (cnt : nat) (i : Z) (body : Z -> A -> V A) (acc : A)
  : V A :=
  match cnt with
  | O => ret acc
  | S cnt' => let* acc' := body i acc in for_down_loop cnt' (i - 1) body acc'
  end.

Definition for_down {A} (from : Z) (body : Z -> A -> V A) (acc : A) : V A :=
  for_down_loop (Z.to_nat (from + 1)) from body acc.

Definition backward_at (n : network F) (index : Z) : V (network F) :=
  let* l := layer_at n index in
  let* l' := Layer_Backward l in
  set_layer n index l'.

Definition network_Backward (n : network F) (index : Z) : V (network F * F) :=
  let size := network_Size n in
  let* last := layer_at n (GoInt.sub size 1) in
  match asLossLayer last with
  | None => panic "expecting loss layer as last layer in network"
  | Some Loss =>
      let* loss := Loss index in
      let* n := for_down (GoInt.sub (network_Size n) 2)
                  (fun index n => backward_at n index) n in
      ret (n, loss)
  end.

Definition network_GetCostLoss (n : network F) (vol : ptr) (index : Z)
  : V (network F * F) :=
  let* (n, _) := network_Forward n vol false in
  let* last := layer_at n (GoInt.sub (network_Size n) 1) in
  match asLossLayer last with
  | None => panic "expecting loss layer as last layer in network"
  | Some Loss => let* loss := Loss index in ret (n, loss)
  end.

Definition network_GetPrediction (n : network F) : V Z :=
  let* S_ := layer_at n (GoInt.sub (network_Size n) 1) in
  if negb (String.eqb (Layer_Type S_) SoftMax) then
    panic "GetPrediction assumes Softmax is the last layer in the network"
  else GetSoftMaxPrediction S_.

Definition network_GetResponse (n : network F) : V (list (LayerResponse F)) :=
  for_range (len (layers n)) (fun index resp =>
    let* l := layer_at n index in
    let* layerResponse := Layer_GetResponse l in
    ret (resp ++ layerResponse)) [].

(** MultiDimensionalLoss computes the total loss for each of the values
    given. *)
Definition network_MultiDimensionalLoss (n : network F) (y : list F) : V F :=
  let* last := layer_at n (GoInt.sub (network_Size n) 1) in
  match asRegressionLossLayer last with
  | None => panic "MultiDimensionalLoss assumes a Regression layer is the last layer in the network"
  | Some lossLayer => regressionLayer_MultiDimensionalLoss lossLayer y
  end.

Definition network_DimensionalLoss (n : network F) (index : Z) (value : F) : V F :=
  let* last := layer_at n (GoInt.sub (network_Size n) 1) in
  match asRegressionLossLayer last with
  | None => panic "DimensionalLoss assumes a Regression layer is the last layer in the network"
  | Some lossLayer => regressionLayer_DimensionalLoss lossLayer index value
  end.

(** Network.Forward as the specification words it: every layer consumes
    the previous layer's output tensor, the first one the caller's
    input. *)
Definition Forward_threaded (n : network F) (vol : ptr) (training : bool)
  : V (network F * ptr) :=
  let* (n, actions) := forward_at n 0 vol training in
  for_from 1 (len (layers n)) (fun index '(n, actions) =>
    forward_at n index actions training) (n, actions).

End Network.

(** ** trainer.go and options.go *)

Definition TrainingMethod := string.

Definition SGD : TrainingMethod := "sgd"%string.
Definition Adam : TrainingMethod := "adam"%string.
Definition Adagrad : TrainingMethod := "adagrad"%string.
Definition Adadelta : TrainingMethod := "adadelta"%string.
Definition Windowgrad : TrainingMethod := "windowgrad"%string.
Definition Netsterov : TrainingMethod := "netsterov"%string.

Record TrainerOptions (F : Type) := mkTrainerOptions {
  Method : TrainingMethod;
  LearningRate : F;
  L1Decay : F;
  L2Decay : F;
  BatchSize : Z;
  Momentum : F;
  Ro : F;
  Eps : F;
  Beta1 : F;
  Beta2 : F
}.
Arguments mkTrainerOptions {F}.
Arguments Method {F} _.
Arguments LearningRate {F} _.
Arguments L1Decay {F} _.
Arguments L2Decay {F} _.
Arguments BatchSize {F} _.
Arguments Momentum {F} _.
Arguments Ro {F} _.
Arguments Eps {F} _.
Arguments Beta1 {F} _.
Arguments Beta2 {F} _.

(** The trainer: the network, the options, the iteration counter [k],
    the last iteration gradients [gsum] (used for momentum calculations)
    and [xsum] (used in adam or adadelta). *)
Record trainer (F : Type) := mkTrainer {
  t_net : network F;
  t_opts : TrainerOptions F;
  t_k : Z;
  gsum : list (list F);
  xsum : list (list F);
  t_regression : bool
}.
Arguments mkTrainer {F}.
Arguments t_net {F} _.
Arguments t_opts {F} _.
Arguments t_k {F} _.
Arguments gsum {F} _.
Arguments xsum {F} _.
Arguments t_regression {F} _.

(** TrainingResults, without the two durations. *)
Record TrainingResults (F : Type) := mkTrainingResults {
  L1DecayLoss : F;
  L2DecayLoss : F;
  CostLost : F;
  TotalLoss : F
}.
Arguments mkTrainingResults {F}.
Arguments L1DecayLoss {F} _.
Arguments L2DecayLoss {F} _.
Arguments CostLost {F} _.
Arguments TotalLoss {F} _.

Section Trainer.
Context {F : Type} `{Float64 F} `{Libm F} `{GoRand F}.

Local Abbreviation V := (M (State F)).

Definition with_options (o : TrainerOptions F) (m : TrainingMethod)
  (rate l1 l2 : F) (size : Z) (mom ro eps b1 b2 : F) : TrainerOptions F :=
  mkTrainerOptions m rate l1 l2 size mom ro eps b1 b2.

Definition WithMethod (m : TrainingMethod) (o : TrainerOptions F)
  : TrainerOptions F :=
  with_options o m (LearningRate o) (L1Decay o) (L2Decay o) (BatchSize o)
    (Momentum o) (Ro o) (Eps o) (Beta1 o) (Beta2 o).

Definition WithLearningRate (rate : F) (o : TrainerOptions F) : TrainerOptions F :=
  with_options o (Method o) rate (L1Decay o) (L2Decay o) (BatchSize o)
    (Momentum o) (Ro o) (Eps o) (Beta1 o) (Beta2 o).

Definition WithBatchSize (size : Z) (o : TrainerOptions F) : TrainerOptions F :=
  with_options o (Method o) (LearningRate o) (L1Decay o) (L2Decay o) size
    (Momentum o) (Ro o) (Eps o) (Beta1 o) (Beta2 o).

Definition WithMomentum (m : F) (o : TrainerOptions F) : TrainerOptions F :=
  with_options o (Method o) (LearningRate o) (L1Decay o) (L2Decay o) (BatchSize o)
    m (Ro o) (Eps o) (Beta1 o) (Beta2 o).

Definition WithDecay (l1 l2 : F) (o : TrainerOptions F) : TrainerOptions F :=
  with_options o (Method o) (LearningRate o) l1 l2 (BatchSize o)
    (Momentum o) (Ro o) (Eps o) (Beta1 o) (Beta2 o).

Definition WithEps (e : F) (o : TrainerOptions F) : TrainerOptions F :=
  with_options o (Method o) (LearningRate o) (L1Decay o) (L2Decay o) (BatchSize o)
    (Momentum o) (Ro o) e (Beta1 o) (Beta2 o).

Definition WithAdam (ro beta1 beta2 : F) (o : TrainerOptions F) : TrainerOptions F :=
  with_options o Adam (LearningRate o) (L1Decay o) (L2Decay o) (BatchSize o)
    (Momentum o) ro (Eps o) beta1 beta2.

(** The options of NewTrainer before the option functions are applied. *)
Definition baseOpts : TrainerOptions F :=
  mkTrainerOptions SGD (fdec 1 100) f0 f0 1 (fdec 9 10) (fdec 95 100)
    (fdec 1 100000000) (fdec 9 10) (fdec 999 1000).

Definition NewTrainer (net : option (network F))
  (opts : list (TrainerOptions F -> TrainerOptions F)) : V (trainer F) :=
  match net with
  | None => panic "network cannot be nil"
  | Some net =>
      let baseOpts := fold_left (fun o optFn => optFn o) opts baseOpts in
      let* last := layer_at net (GoInt.sub (network_Size net) 1) in
      let isRegression :=
        match asRegressionLossLayer last with Some _ => true | None => false end in
      ret (mkTrainer net baseOpts 0 [] [] isRegression)
  end.

Definition LossFunc : Type := network F -> V (network F * F).

Definition LabeledLossFunc (label : Z) : LossFunc :=
  fun net => network_Backward net label.

Definition RegressionLossFunc (y : list F) : LossFunc :=
  fun net => let* loss := network_MultiDimensionalLoss net y in ret (net, loss).

(** [acc[i][j]] and [acc[i][j] = v] on the accumulator lists. *)
Definition acc_get (acc : list (list F)) (i j : Z) : V F :=
  let* acci := lift (slice_get acc i) in lift (slice_get acci j).

Definition acc_set (acc : list (list F)) (i j : Z) (v : F) : V (list (list F)) :=
  let* acci := lift (slice_get acc i) in
  let* acci := lift (slice_set acci j v) in
  lift (slice_set acc i acci).

Definition with_acc (t : trainer F) (g x : list (list F)) : trainer F :=
  mkTrainer (t_net t) (t_opts t) (t_k t) g x (t_regression t).

(** The condition under which the accumulators are allocated:
    [len(t.gsum) == 0 && t.opts.Method == SGD || t.opts.Momentum > 0.0]. *)
Definition accumulators_needed (t : trainer F) : bool :=
  ((len (gsum t) =? 0) && String.eqb (Method (t_opts t)) SGD)
  || fgtb (Momentum (t_opts t)) f0.

(** "initialize lists for accumulators. Will only be done once on first
    iteration" *)
Definition init_accumulators (t : trainer F) (pgList : list (LayerResponse F))
  : V (trainer F) :=
  if accumulators_needed t then
    for_range (len pgList) (fun i t =>
      let* pg := lift (slice_get pgList i) in
      let* ws := Volume_Weights (resp_vol pg) in
      let* gi := lift (make f0 (len ws)) in
      let* xi :=
        if String.eqb (Method (t_opts t)) Adam
           || String.eqb (Method (t_opts t)) Adadelta
        then lift (make f0 (len ws))
        else ret [] in
      ret (with_acc t (gsum t ++ [gi]) (xsum t ++ [xi]))) t
  else ret t.

(** The update of the parameter [j] of the response [i]. *)
Definition update_parameter (i : Z) (pg : LayerResponse F) (l1Decay l2Decay : F)
  (j : Z) (st : trainer F * F * F) : V (trainer F * F * F) :=
  let '(t, l1DecayLoss, l2DecayLoss) := st in
  let o := t_opts t in
  let p := resp_vol pg in
  let* pj := Volume_GetByIndex p j in
  let l2DecayLoss := fadd l2DecayLoss (fdiv (fmul (fmul l2Decay pj) pj) (fofZ 2)) in
  let l1DecayLoss := fadd l1DecayLoss (fmul l1Decay (math_Abs pj)) in
  let l1Grad := l1Decay in
  let l2Grad := fmul l2Decay pj in
  let l1Grad := if fleb pj f0 then fmul l1Grad (fofZ (-1)) else l1Grad in
  let* gj := Volume_GetGradByIndex p j in
  let gij := fdiv (fadd (fadd l2Grad l1Grad) gj) (fofZ (BatchSize o)) in
  let meth := Method o in
  let* gsumi := lift (slice_get (gsum t) i) in
  let* xsumi := lift (slice_get (xsum t) i) in
  let* t :=
    if String.eqb meth Adam then
      let* g := acc_get (gsum t) i j in
      let* gs := acc_set (gsum t) i j
                   (fadd (fmul g (Beta1 o)) (fmul (fsub f1 (Beta1 o)) gij)) in
      let* x := acc_get (xsum t) i j in
      let* xs := acc_set (xsum t) i j
                   (fadd (fmul x (Beta2 o))
                         (fmul (fmul (fsub f1 (Beta2 o)) gij) gij)) in
      let* g := acc_get gs i j in
      let biasCorr1 := fmul g (fsub f1 (math_Pow (Beta1 o) (fofZ (t_k t)))) in
      let* x := acc_get xs i j in
      let biasCorr2 := fmul x (fsub f1 (math_Pow (Beta2 o) (fofZ (t_k t)))) in
      let dx := fdiv (fmul (fneg (LearningRate o)) biasCorr1)
                     (fadd (math_Sqrt biasCorr2) (Eps o)) in
      let* pj := Volume_GetByIndex p j in
      Volume_SetByIndex p j (fadd pj dx) ;;
      ret (with_acc t gs xs)
    else if String.eqb meth Adagrad then
      let* g := acc_get (gsum t) i j in
      let* gs := acc_set (gsum t) i j (fadd g (fmul gij gij)) in
      let* g := acc_get gs i j in
      let dx := fmul (fdiv (fneg (LearningRate o)) (fadd (math_Sqrt g) (Eps o)))
                     gij in
      let* pj := Volume_GetByIndex p j in
      Volume_SetByIndex p j (fadd pj dx) ;;
      ret (with_acc t gs (xsum t))
    else if String.eqb meth Windowgrad then
      let* g := acc_get (gsum t) i j in
      let* gs := acc_set (gsum t) i j
                   (fadd (fmul (Ro o) g) (fmul (fmul (fsub f1 (Ro o)) gij) gij)) in
      let* g := acc_get gs i j in
      let dx := fmul (fdiv (fneg (LearningRate o)) (math_Sqrt (fadd g (Eps o))))
                     gij in
      let* pj := Volume_GetByIndex p j in
      Volume_SetByIndex p j (fadd pj dx) ;;
      ret (with_acc t gs (xsum t))
    else if String.eqb meth Adadelta then
      let* g := acc_get (gsum t) i j in
      let* gs := acc_set (gsum t) i j
                   (fadd (fmul (Ro o) g) (fmul (fmul (fsub f1 (Ro o)) gij) gij)) in
      let* x := acc_get (xsum t) i j in
      let* g := acc_get gs i j in
      let dx := fmul (fneg (math_Sqrt (fdiv (fadd x (Eps o)) (fadd g (Eps o)))))
                     gij in
      let* xs := acc_set (xsum t) i j
                   (fadd (fmul (Ro o) x) (fmul (fmul (fsub f1 (Ro o)) dx) dx)) in
      let* pj := Volume_GetByIndex p j in
      Volume_SetByIndex p j (fadd pj dx) ;;
      ret (with_acc t gs xs)
    else if String.eqb meth Netsterov then
      let* dx := acc_get (gsum t) i j in
      let* gs := acc_set (gsum t) i j
                   (fadd (fmul dx (Momentum o)) (fmul (LearningRate o) gij)) in
      let* g := acc_get gs i j in
      let dx := fsub (fmul (Momentum o) dx) (fmul (fadd f1 (Momentum o)) g) in
      let* pj := Volume_GetByIndex p j in
      Volume_SetByIndex p j (fadd pj dx) ;;
      ret (with_acc t gs (xsum t))
    else if fgtb (Momentum o) f0 then
      let* g := acc_get (gsum t) i j in
      let dx := fsub (fmul (Momentum o) g) (fmul (LearningRate o) gij) in
      let* gs := acc_set (gsum t) i j dx in
      let* pj := Volume_GetByIndex p j in
      Volume_SetByIndex p j (fadd pj dx) ;;
      ret (with_acc t gs (xsum t))
    else
      let* pj := Volume_GetByIndex p j in
      Volume_SetByIndex p j (fadd pj (fmul (fneg (LearningRate o)) gij)) ;;
      ret t in
  Volume_SetGradByIndex p j f0 ;;
  ret (t, l1DecayLoss, l2DecayLoss).

(** "perform an update for all sets of weights" *)
Definition update_parameters (t : trainer F) (pgList : list (LayerResponse F))
  : V (trainer F * F * F) :=
  for_range (len pgList) (fun i st =>
    let* pg := lift (slice_get pgList i) in
    let '(t, _, _) := st in
    let l1Decay := fmul (L1Decay (t_opts t)) (L1DecayMul pg) in
    let l2Decay := fmul (L2Decay (t_opts t)) (L2DecayMul pg) in
    let* ws := Volume_Weights (resp_vol pg) in
    for_range (len ws) (update_parameter i pg l1Decay l2Decay) st) (t, f0, f0).

(** The parameter-update pass of Train, entered when
    [t.k % t.opts.BatchSize == 0]. *)
Definition update_pass (t : trainer F) : V (trainer F * F * F) :=
  let* pgList := network_GetResponse (t_net t) in
  let* t := init_accumulators t pgList in
  update_parameters t pgList.

Definition trainer_Train (t : trainer F) (vol : ptr) (lossFunc : LossFunc)
  : V (trainer F * TrainingResults F) :=
  let* (net, _) := network_Forward (t_net t) vol true in
  let* (net, costLoss) := lossFunc net in
  let t := mkTrainer net (t_opts t) (GoInt.add (t_k t) 1) (gsum t) (xsum t)
             (t_regression t) in
  let* (t, l1DecayLoss, l2DecayLoss) :=
    if BatchSize (t_opts t) =? 0 then panic "integer divide by zero"
    else if Z.rem (t_k t) (BatchSize (t_opts t)) =? 0 then update_pass t
    else ret (t, f0, f0) in
  ret (t, mkTrainingResults l1DecayLoss l2DecayLoss costLoss
            (fadd (fadd costLoss l1DecayLoss) l2DecayLoss)).

End Trainer.

(** ** Closed forms

    What the loops of the loss layers compute, as functions on lists;
    the properties below relate the code to them. *)

Section ClosedForms.
Context {F : Type} `{Float64 F} `{Libm F}.

(** The store [s] with the volume at address [a] replaced by [v]. *)
Definition set_vol (s : State F) (a : nat) (v : Volume F) : State F :=
  mkState (<[a := v]> (heap s)) (draws s).

(** The volume [v] with the gradients [g]. *)
Definition with_dw (v : Volume F) (g : list F) : Volume F :=
  mkVolume (dim v) (w v) g.

(** The invariant of NewVolume: both arrays have the length [size]. *)
Definition wf_volume (v : Volume F) : Prop :=
  len (w v) = Dimensions_Size (dim v) /\ len (dw v) = Dimensions_Size (dim v).

Definition zeros (n : nat) : list F := replicate n f0.

(** The maximum that softmax subtracts: the scan of [as_] from its
    first element. *)
Definition softmax_aMax (as_ : list F) : F :=
  fold_left (fun aMax a => if fgtb a aMax then a else aMax) as_ (hd f0 as_).

Definition softmax_exps (as_ : list F) : list F :=
  map (fun a => math_Exp (fsub a (softmax_aMax as_))) as_.

Definition softmax_esum (as_ : list F) : F :=
  fold_left fadd (softmax_exps as_) f0.

(** The probabilities that softmax stores. *)
Definition softmax_probs (as_ : list F) : list F :=
  map (fun e => fdiv e (softmax_esum as_)) (softmax_exps as_).

(** The layer after Forward over the input at address [a], with its
    output at address [out]. *)
Definition softmax_after (l0 : softmaxLayer F) (a out : nat) (as_ : list F)
  : softmaxLayer F :=
  mkSoftmaxLayer (softmax_conf l0) (softmax_inDim l0) (softmax_outDim l0)
    (Some a) (Some out) (softmax_probs as_).

(** The input gradient that the softmax loss sets:
    [-(indicator(i == index) - probability[i])]. *)
Definition softmax_grads (probs : list F) (index : Z) : list F :=
  imap (fun i p => fneg (fsub (if Z.of_nat i =? index then f1 else f0) p)) probs.








(** The number of weights behind a parameter response, in the store
    [s]. *)
Definition weights_len (s : State F) (pg : LayerResponse F) : nat :=
  match resp_vol pg with
  | Some a => match heap s !! a with
              | Some v => length (w v)
              | None => 0%nat
              end
  | None => 0%nat
  end.

(** The accumulators that one pass of the initialization appends. *)
Definition new_gsum (s : State F) (pgList : list (LayerResponse F))
  : list (list F) :=
  map (fun pg => zeros (weights_len s pg)) pgList.

Definition new_xsum (t : trainer F) (s : State F)
  (pgList : list (LayerResponse F)) : list (list F) :=
  map (fun pg =>
         if String.eqb (Method (t_opts t)) Adam
            || String.eqb (Method (t_opts t)) Adadelta
         then zeros (weights_len s pg) else []) pgList.

End ClosedForms.

(** ** Concrete inputs *)

(** A random source whose normal draws are all 1 and whose uniform
    draws are all 0.5. *)
Definition ones_source : GoRand float :=
  {| rand_NormFloat64 := fun _ => 1%float; rand_Float64 := fun _ => 0.5%float |}.

Definition plainDef (t : LayerType) (input output : Dimensions)
  (conf : LayerConfig float) : LayerDef float :=
  mkLayerDef t input output ""%string None None conf.

Section PoolWindow.
Context `{GoRand float}.
Local Open Scope float_scope.

(** The 2x2 window [1,5,2,3] as a 2x2x1 input volume, at address 0. *)
Definition window_1523 : State float :=
  mkState [mkVolume (NewDimensions 2 2 1) [1; 5; 2; 3] [0; 0; 0; 0]] 0.

(** A pool layer with a 2x2 kernel and padding 0 over that input. *)
Definition pool_2x2 (stride : Z) : LayerDef float :=
  plainDef Pool (NewDimensions 2 2 1) (NewDimensions 1 1 1)
    (poolConfig (mkPoolLayerConfig 2 2 stride 0)).

Definition pool_2x2_forward (stride : Z) : Res (poolLayer * ptr * State float) :=
  (let* l := NewPoolLayer (pool_2x2 stride) in
   poolLayer_Forward l (Some 0%nat) true) window_1523.

(** Forward, then an output gradient of 1.0, then Backward; the result
    is the gradients of the input volume. *)
Definition pool_2x2_backward (stride : Z) : Res (list float * State float) :=
  (let* l := NewPoolLayer (pool_2x2 stride) in
   let* (l, out) := poolLayer_Forward l (Some 0%nat) true in
   Volume_SetGrad out 0 0 0 1 ;;
   let* l := poolLayer_Backward l in
   Volume_Gradients (pool_inVol l)) window_1523.

(** The same window inside a 3x3x1 input, at the positions (1,1),
    (2,1), (1,2), (2,2), which Forward scans with stride 1. *)
Definition window_in_3x3 : State float :=
  mkState [mkVolume (NewDimensions 3 3 1) [0; 0; 0; 0; 1; 5; 0; 2; 3]
             [0; 0; 0; 0; 0; 0; 0; 0; 0]] 0.

Definition pool_3x3 : LayerDef float :=
  plainDef Pool (NewDimensions 3 3 1) (NewDimensions 2 2 1)
    (poolConfig (mkPoolLayerConfig 2 2 1 0)).

(** The output values of Forward, and the input gradients after an
    output gradient of 1.0 at the first output position and Backward. *)
Definition pool_3x3_run : Res (list float * list float * State float) :=
  (let* l := NewPoolLayer pool_3x3 in
   let* (l, out) := poolLayer_Forward l (Some 0%nat) true in
   let* o := Volume_Weights out in
   Volume_SetGrad out 0 0 0 1 ;;
   let* l := poolLayer_Backward l in
   let* g := Volume_Gradients (pool_inVol l) in
   ret (o, g)) window_in_3x3.

End PoolWindow.

Section ConvNonSquare.
Local Existing Instance ones_source.
Local Open Scope float_scope.

(** A 3x2x1 input (width 3, height 2) at address 0. *)
Definition input_3x2 : State float :=
  mkState [mkVolume (NewDimensions 3 2 1) [1; 2; 3; 4; 5; 6] [0; 0; 0; 0; 0; 0]] 0.

(** One 1x1 filter, stride 1, padding 0; the filter weight drawn is 1. *)
Definition conv_1x1 : LayerDef float :=
  plainDef Conv (NewDimensions 3 2 1) (NewDimensions 3 2 1)
    (convConfig (mkConvLayerConfig 1 1 0 1 0 0 1 0)).

(** The weights of the output volume of Forward. *)
Definition conv_3x2_forward : Res (list float * State float) :=
  (let* l := NewConvLayer conv_1x1 in
   let* (l, out) := convLayer_Forward l (Some 0%nat) true in
   Volume_Weights out) input_3x2.

(** Forward, an output gradient of 1 everywhere, Backward: the input
    gradients and the filter gradients. *)
Definition conv_3x2_backward : Res (list float * list float * State float) :=
  (let* l := NewConvLayer conv_1x1 in
   let* (l, out) := convLayer_Forward l (Some 0%nat) true in
   for_range 6 (fun i _ => Volume_SetGradByIndex out i 1) tt ;;
   let* l := convLayer_Backward l in
   let* gin := Volume_Gradients (conv_inVol l) in
   let* f := filter_at (conv_filters l) 0 in
   let* gf := Volume_Gradients f in
   ret (gin, gf)) input_3x2.

End ConvNonSquare.

Section SmallNetworks.
Context `{Libm float}.
Local Existing Instance ones_source.
Local Open Scope float_scope.

(** The input [1,2,3,4] as a 1x1x4 volume at address 0. *)
Definition input_1234 : State float :=
  mkState [mkVolume (NewDimensions 1 1 4) [1; 2; 3; 4] [0; 0; 0; 0]] 0.

(** Input, one fully connected neuron, ReLU. *)
Definition defs_fc_relu : list (LayerDef float) :=
  [ plainDef Input zeroDimensions (NewDimensions 1 1 4) nilConfig;
    plainDef FullyConnected zeroDimensions (NewDimensions 1 1 1)
      (fullyConnConfig (mkFullyConnLayerConfig 1 0 1 0));
    plainDef ReLU zeroDimensions (NewDimensions 1 1 1) nilConfig ].

(** The weights of the tensor returned on the network built from
    [defs_fc_relu]: by Forward, or by the threaded pipeline of the
    specification. *)
Definition run_forward (threaded : bool) : Res (list float * State float) :=
  (let* r := NewNetwork defs_fc_relu in
   match r with
   | Value n =>
       let* (n, out) :=
         if threaded then Forward_threaded n (Some 0%nat) false
         else network_Forward n (Some 0%nat) false in
       Volume_Weights out
   | Error msg => panic msg
   end) input_1234.

(** Input, a fully connected layer of two neurons, SVM. *)
Definition svm_network : M (State float) (network float) :=
  let* i := NewInputLayer
              (plainDef Input zeroDimensions (NewDimensions 1 1 4) nilConfig) in
  let* f := NewFullyConnectedLayer
              (plainDef FullyConnected (NewDimensions 1 1 4) (NewDimensions 1 1 2)
                 (fullyConnConfig (mkFullyConnLayerConfig 2 0 1 0))) in
  let* l := NewSVMLayer
              (plainDef SVM (NewDimensions 1 1 2) (NewDimensions 1 1 2)
                 (svmConfig (mkSvmLayerConfig 2))) in
  ret (mkNetwork [inputL i; fullyConnL f; svmL l]).

Definition svm_forward_backward : Res (network float * float * State float) :=
  (let* net := svm_network in
   let* (net, out) := network_Forward net (Some 0%nat) true in
   network_Backward net 0) input_1234.

(** A loss function that reports the loss 0 and leaves the network as
    it is. *)
Definition constant_loss : LossFunc :=
  fun net => ret (net, 0).

(** [calls] calls of Train on the input at address 0. *)
Fixpoint train_calls (calls : nat) (t : trainer float)
  : M (State float) (trainer float) :=
  match calls with
  | O => ret t
  | S c =>
      let* (t, _) := trainer_Train t (Some 0%nat) constant_loss in
      train_calls c t
  end.

(** The accumulator lists [gsum] and [xsum] after [calls] calls of Train
    with the options [opts], on the network built from [defs_fc_relu]. *)
Definition accumulators_with
  (opts : list (TrainerOptions float -> TrainerOptions float)) (calls : nat)
  : Res (list (list float) * list (list float) * State float) :=
  (let* r := NewNetwork defs_fc_relu in
   match r with
   | Value net =>
       let* t := NewTrainer (Some net) opts in
       let* t := train_calls calls t in
       ret (gsum t, xsum t)
   | Error msg => panic msg
   end) input_1234.

(** With the default options (SGD, momentum 0.9, batch size 1). *)
Definition accumulators_after (calls : nat)
  : Res (list (list float) * list (list float) * State float) :=
  accumulators_with [] calls.

(** The number of parameter responses of that network. *)
Definition responses_count : Res (Z * State float) :=
  (let* r := NewNetwork defs_fc_relu in
   match r with
   | Value net =>
       let* pgList := network_GetResponse net in
       ret (len pgList)
   | Error msg => panic msg
   end) input_1234.

End SmallNetworks.


(** A random source over the reals whose draws are all 0. *)
Definition zero_source : GoRand R :=
  {| rand_NormFloat64 := fun _ => 0%R; rand_Float64 := fun _ => 0%R |}.

(** A store over the reals with the scores [1,3,0.5] as a 1x1x3 volume
    at address 0. *)
Definition scores_store (scores : list R) : State R :=
  mkState [mkVolume (NewDimensions 1 1 (len scores)) scores
             (map (fun _ => 0%R) scores)] 0.

(** A softmax layer of three classes, as NewSoftmaxLayer builds it. *)
Definition softmax_3 : softmaxLayer R :=
  mkSoftmaxLayer (mkSoftMaxLayerConfig 3) (NewDimensions 1 1 3)
    (NewDimensions 1 1 3) None None [].







(** Three definitions without a loss layer. *)
Definition defs_without_loss : list (LayerDef float) :=
  [ plainDef Input zeroDimensions (NewDimensions 1 1 4) nilConfig;
    plainDef ReLU zeroDimensions (NewDimensions 1 1 4) nilConfig;
    plainDef ReLU zeroDimensions (NewDimensions 1 1 4) nilConfig ].

(** "a loss-capable layer (SoftMax, SVM, or Regression) is present" *)
Definition is_loss_type (t : LayerType) : bool :=
  String.eqb t SoftMax || String.eqb t SVM || String.eqb t Regression.

Definition has_loss_layer {F} (defs : list (LayerDef F)) : bool :=
  existsb (fun d => is_loss_type (def_Type d)) defs.

(** A maxout definition with a group size of 2. *)
Definition maxout_def : LayerDef float :=
  plainDef Maxout (NewDimensions 1 1 4) (NewDimensions 1 1 2)
    (maxoutConfig (mkMaxoutLayerConfig 2)).

(** ** Definitions for the further properties *)

(** The coordinates [(x, y, z)] lie inside the dimensions [d]. *)
Definition in_bounds (d : Dimensions) (x y z : Z) : Prop :=
  0 <= x < Dim_X d /\ 0 <= y < Dim_Y d /\ 0 <= z < Dim_Z d.

(** Dimensions of a non-empty volume whose size fits Go's int. *)
Definition dims_ok (d : Dimensions) : Prop :=
  0 < Dim_X d /\ 0 < Dim_Y d /\ 0 < Dim_Z d
  /\ Dim_X d * Dim_Y d * Dim_Z d < 2 ^ 63.

(** Every volume of the store keeps the invariant of NewVolume. *)
Definition wf_state {F} (s : State F) : Prop := Forall wf_volume (heap s).

(** A 2x3x4 volume over the reals, the weights numbered from 0. *)
Definition dims_234 : Dimensions := NewDimensions 2 3 4.

Definition volume_234 : Volume R :=
  mkVolume dims_234 (map IZR (map Z.of_nat (seq 0 24))) (replicate 24 0%R).

Definition store_234 : State R := mkState [volume_234] 0.

(** The option functions of package volume. *)
Inductive volume_option {F} `{Float64 F} : OptionFunc F -> Prop :=
| option_WithInitialValue (value : F) : volume_option (WithInitialValue value)
| option_WithZeros : volume_option WithZeros
| option_WithWeights (ws : option (list F)) : volume_option (WithWeights ws).

(** ** Closed forms of the activation layers *)

Section LayerClosedForms.
Context {F : Type} `{Float64 F} `{GoRand F}.

(** What ReLU keeps of a value, and of the gradient of an output [o]. *)
Definition relu_value (x : F) : F := if fltb x f0 then f0 else x.

Definition relu_grad (o g : F) : F := if fleb o f0 then f0 else g.

(** The decisions of a training pass of dropout over [n] values, when
    the next draw of the source is draw number [from]. *)
Definition dropout_mask (p : F) (from n : nat) : list bool :=
  map (fun i => fltb (rand_Float64 (from + i)%nat) p) (seq 0 n).

Definition dropout_keep (d : bool) (x : F) : F := if d then f0 else x.

End LayerClosedForms.

(** A volume with weights of both signs, and the output of ReLU for it
    with gradients set. *)
Definition volume_signs : Volume float :=
  mkVolume (NewDimensions 1 1 4) [-1; 2; -3; 4]%float [0; 0; 0; 0]%float.

Definition relu_output_signs : Volume float :=
  mkVolume (NewDimensions 1 1 4) [0; 2; 0; 4]%float [5; 6; 7; 8]%float.

Definition store_signs : State float := mkState [volume_signs; relu_output_signs] 0.


(** A source of draws that alternates between 0.25 and 0.75. *)
Definition alternating_source : GoRand float :=
  {| rand_NormFloat64 := fun _ => 0%float;
     rand_Float64 := fun n => if Nat.even n then 0.25%float else 0.75%float |}.

Definition dropout_half : dropoutLayer float :=
  mkDropoutLayer (mkDropoutLayerConfig 0.5%float) (NewDimensions 1 1 4)
    (NewDimensions 1 1 4) [false; false; false; false] None None.


(** ** Closed forms of the fully connected and the regression layer *)

Section FullyConnClosedForms.
Context {F : Type} `{Float64 F}.

(** The sum that the inner loop of the fully connected layer
    accumulates, in its order, from 0. *)
Definition dot (xs ws : list F) : F :=
  fold_left (fun a xy => fadd a (fmul (fst xy) (snd xy))) (zip xs ws) f0.

Definition fullyConn_out (x : list F) (filters : list (Volume F)) (biases : list F)
  : list F :=
  zip_with (fun fv b => fadd (dot x (w fv)) b) filters biases.

(** The loss that the regression layer accumulates over the
    differences, in its order, from 0. *)
Definition squared_error_sum (diffs : list F) : F :=
  fold_left (fun loss dY => fadd loss (fmul (fmul (fdec 1 2) dY) dY)) diffs f0.

End FullyConnClosedForms.

(** A fully connected layer of two neurons over three inputs: the input
    [1,2,3] at address 0, the filters [1,0,-1] and [2,2,2] at 1 and 2,
    the biases [10,20] at 3. *)
Definition store_fc : State float :=
  mkState [ mkVolume (NewDimensions 1 1 3) [1; 2; 3]%float [0; 0; 0]%float;
            mkVolume (NewDimensions 1 1 3) [1; 0; -1]%float [0; 0; 0]%float;
            mkVolume (NewDimensions 1 1 3) [2; 2; 2]%float [0; 0; 0]%float;
            mkVolume (NewDimensions 1 1 2) [10; 20]%float [0; 0]%float ] 0.

Definition fc_2x3 : fullyConnLayer float :=
  mkFullyConnLayer (mkFullyConnLayerConfig 2 0%float 1%float 0%float)
    (NewDimensions 1 1 3) (NewDimensions 1 1 2) None None
    [Some 1%nat; Some 2%nat] (Some 3%nat).

Definition regression_3 (inVol : ptr) : regressionLayer :=
  mkRegressionLayer (mkRegressionLayerConfig 3) (NewDimensions 1 1 3)
    (NewDimensions 1 1 3) inVol inVol.


(** ** Closed forms of the sigmoid layer and of the prediction *)

Section PredictionClosedForms.
Context {F : Type} `{Float64 F}.



End PredictionClosedForms.



(** ** Definitions that ActivateLayers expands, and definitions that no
    constructor accepts *)

(** A definition that ActivateLayers copies as it is. *)
Definition plain_def {F} (d : LayerDef F) : Prop :=
  is_loss_type (def_Type d) = false
  /\ def_Activation d = ""%string
  /\ def_Dropout d = None.

(** A definition before or after which ActivateLayers inserts a fully
    connected or an activation definition. *)
Definition expanding_def {F} (d : LayerDef F) : Prop :=
  is_loss_type (def_Type d) = true \/ def_Activation d <> ""%string.

(** A definition without output depth of a type whose constructor
    requires one. *)
Definition needs_output (t : LayerType) : bool :=
  String.eqb t FullyConnected || String.eqb t ReLU || String.eqb t Sigmoid
  || String.eqb t Tanh || String.eqb t Maxout.

Definition without_output {F} (d : LayerDef F) : Prop :=
  Dim_Z (def_Output d) = 0 /\ needs_output (def_Type d) = true.

(** Whether a call of NewNetwork has returned a network. *)
Definition returns_network {F} (r : Res (WithError (network F) * State F)) : bool :=
  match r with
  | Ok (Value _, _) => true
  | _ => false
  end.

(** Definitions over the reals. *)
Definition realDef (t : LayerType) (input output : Dimensions)
  (conf : LayerConfig R) : LayerDef R :=
  mkLayerDef t input output ""%string None None conf.

Definition defs_svm : list (LayerDef R) :=
  [ realDef Input zeroDimensions (NewDimensions 1 1 4) nilConfig;
    realDef FullyConnected zeroDimensions (NewDimensions 1 1 2)
      (fullyConnConfig (mkFullyConnLayerConfig 2 0%R 1%R 0%R));
    realDef SVM zeroDimensions (NewDimensions 1 1 2)
      (svmConfig (mkSvmLayerConfig 2)) ].

Definition defs_plain : list (LayerDef R) :=
  [ realDef Input zeroDimensions (NewDimensions 1 1 4) nilConfig;
    realDef FullyConnected zeroDimensions (NewDimensions 1 1 2)
      (fullyConnConfig (mkFullyConnLayerConfig 2 0%R 1%R 0%R));
    realDef ReLU zeroDimensions (NewDimensions 1 1 2) nilConfig ].

(** A network that ends in a ReLU layer. *)
Definition network_relu : network R :=
  mkNetwork [ inputL (mkInputLayer (NewDimensions 1 1 4) None None);
              reluL (mkReluLayer (NewDimensions 1 1 4) None None) ].


(** ** Closed forms of the trainer's update *)

Section TrainerClosedForms.
Context {F : Type} `{Float64 F}.

(** The raw batch gradient of a parameter [p] with gradient [g]. *)
Definition sgd_gij (o : TrainerOptions F) (l1Decay l2Decay p g : F) : F :=
  let l1Grad := if fleb p f0 then fmul l1Decay (fofZ (-1)) else l1Decay in
  fdiv (fadd (fadd (fmul l2Decay p) l1Grad) g) (fofZ (BatchSize o)).

(** The parameter after a step of plain gradient descent. *)
Definition sgd_step (o : TrainerOptions F) (l1Decay l2Decay p g : F) : F :=
  fadd p (fmul (fneg (LearningRate o)) (sgd_gij o l1Decay l2Decay p g)).

(** The decay losses [(l1DecayLoss, l2DecayLoss)] accumulated over the
    parameters [ps]. *)
Definition decay_step (l1Decay l2Decay : F) (acc : F * F) (p : F) : F * F :=
  (fadd (fst acc) (fmul l1Decay (math_Abs p)),
   fadd (snd acc) (fdiv (fmul (fmul l2Decay p) p) (fofZ 2))).

Definition decay_losses (l1Decay l2Decay : F) (ps : list F) (acc : F * F) : F * F :=
  fold_left (decay_step l1Decay l2Decay) ps acc.

End TrainerClosedForms.

(** One fully connected neuron over two inputs: its filter at address
    0, with gradients, and its bias at address 1. *)
Definition store_params : State R :=
  mkState [ mkVolume (NewDimensions 1 1 2) [1; -2]%R [0.5; 0.25]%R;
            mkVolume (NewDimensions 1 1 1) [0]%R [1]%R ] 0.

Definition network_neuron : network R :=
  mkNetwork [ fullyConnL
                (mkFullyConnLayer (mkFullyConnLayerConfig 1 0%R 1%R 0%R)
                   (NewDimensions 1 1 2) (NewDimensions 1 1 1) None None
                   [Some 0%nat] (Some 1%nat)) ].

(** Trainers for it: Adagrad without momentum before its first update,
    plain gradient descent with its accumulators, and one with a batch
    size of 0. *)
Definition trainer_adagrad : trainer R :=
  mkTrainer network_neuron (WithMomentum 0%R (WithMethod Adagrad baseOpts))
    0 [] [] false.

Definition trainer_sgd : trainer R :=
  mkTrainer network_neuron (WithMomentum 0%R baseOpts) 1
    [[0; 0]; [0]]%R [[]; []] false.

Definition trainer_batch_0 : trainer R :=
  mkTrainer network_neuron (WithBatchSize 0 baseOpts) 0 [] [] false.

(** * Properties *)

(** ** Go integers *)

Lemma wrap_small (z : Z) : GoInt.in_range z -> GoInt.wrap z = z.
Proof.
  unfold GoInt.in_range, GoInt.wrap. intros Hz.
  rewrite Z.mod_small by lia. lia.
Qed.

Lemma len_nonneg {A} (l : list A) : 0 <= len l.
Proof. unfold len. lia. Qed.

(** ** The monad *)

Lemma bind_ok {St A B} (c : M St A) (k : A -> M St B) s a s' :
  c s = Ok (a, s') -> bind c k s = k a s'.
Proof. unfold bind. intros ->. reflexivity. Qed.

Lemma bind_panic {St A B} (c : M St A) (k : A -> M St B) s msg :
  c s = Panic msg -> bind c k s = Panic msg.
Proof. unfold bind. intros ->. reflexivity. Qed.

Lemma bind_inv_ok {St A B} (c : M St A) (k : A -> M St B) s b s2 :
  bind c k s = Ok (b, s2) ->
  exists a s1, c s = Ok (a, s1) /\ k a s1 = Ok (b, s2).
Proof.
  unfold bind. destruct (c s) as [[a s1]|msg]; intros Hk; [|discriminate].
  exists a, s1. split; [reflexivity|exact Hk].
Qed.

(** ** C4: the pool layer on the 2x2 window *)

(** C4 (code at the failing input).  On the 2x2 window [1,5,2,3] with a
    2x2 kernel and padding 0, Forward does not output 5.  With the
    default stride 2 the window that Forward scans starts at (2,2),
    outside the input: the output is the initial value -100000, the
    recorded position is (-1,-1), and Backward panics on the index of
    that position.  With stride 1 the scanned window starts at (1,1):
    the output is 3 and Backward routes the gradient to the position of
    the 3, giving [0,0,0,1]. *)
Theorem pool_2x2_window (rnd : GoRand float) :
  pool_2x2_forward 2 =
    Ok (mkPoolLayer (mkPoolLayerConfig 2 2 2 0) (NewDimensions 2 2 1)
          (NewDimensions 1 1 1) (Some 0%nat) (Some 1%nat) [-1] [-1],
        Some 1%nat,
        mkState [mkVolume (NewDimensions 2 2 1) [1; 5; 2; 3] [0; 0; 0; 0];
                 mkVolume (NewDimensions 1 1 1) [-100000] [0]]%float 0)
  /\ pool_2x2_backward 2 = Panic "index out of range"
  /\ (exists l s, pool_2x2_forward 1 = Ok (l, Some 1%nat, s)
        /\ heap s !! 1%nat = Some (mkVolume (NewDimensions 1 1 1) [3] [0])%float
        /\ pool_switchX l = [1] /\ pool_switchY l = [1])
  /\ (exists s, pool_2x2_backward 1 = Ok ([0; 0; 0; 1]%float, s)).
Proof.
  split; [vm_compute; reflexivity|].
  split; [vm_compute; reflexivity|].
  split.
  - eexists _, _. split; [vm_compute; reflexivity|].
    split; [reflexivity|]. split; reflexivity.
  - eexists. vm_compute. reflexivity.
Qed.

(** ** C3: the convolution layer on a non-square input *)

(** On a square input the two index expressions agree. *)
Lemma conv_index_square (vDim : Dimensions) (ox oy fz : Z) :
  Dim_X vDim = Dim_Y vDim ->
  conv_backwardIndex vDim ox oy fz = conv_forwardIndex vDim ox oy fz.
Proof.
  unfold conv_backwardIndex, conv_forwardIndex. intros ->. reflexivity.
Qed.

(** C3 (code at the failing input).  On the 3x2 input [1..6] with one
    1x1 filter of weight 1, Forward reads the input at the linear
    indices 4 and 5 (its outputs are the values 5 and 6 stored there),
    through [((vsx*oy)+ox)*depth+fz].  Backward computes the index with
    the height in place of the width, [((vsy*oy)+ox)*depth+fz]: for the
    same two positions it adds the input gradient at the indices 3 and
    4, and the filter gradient it accumulates is 4+5 = 9, not 5+6. *)
Theorem conv_backward_non_square :
  (exists s, conv_3x2_forward = Ok ([5; 6; 0; 0; 0; 0]%float, s))
  /\ conv_forwardIndex (NewDimensions 3 2 1) 1 1 0 = 4
  /\ conv_forwardIndex (NewDimensions 3 2 1) 2 1 0 = 5
  /\ conv_backwardIndex (NewDimensions 3 2 1) 1 1 0 = 3
  /\ conv_backwardIndex (NewDimensions 3 2 1) 2 1 0 = 4
  /\ (exists s, conv_3x2_backward = Ok ([0; 0; 0; 1; 1; 0]%float, [9]%float, s)).
Proof.
  split; [eexists; vm_compute; reflexivity|].
  do 4 (split; [vm_compute; reflexivity|]).
  eexists. vm_compute. reflexivity.
Qed.

(** ** C1: Network.Forward *)

(** C1 (code at the failing input).  On the network Input,
    FullyConnected (one neuron, weights 0.5), ReLU and the input
    [1,2,3,4], Forward hands the caller's input to the ReLU layer and
    returns its image [1,2,3,4]; threading the previous layer's output
    gives [5]. *)
Theorem network_Forward_not_threaded (L : Libm float) :
  (exists s, run_forward false = Ok ([1; 2; 3; 4]%float, s))
  /\ (exists s, run_forward true = Ok ([5]%float, s)).
Proof.
  split; eexists; vm_compute; reflexivity.
Qed.

(** ** C5: the accumulators of the trainer *)

(** C5 (code at the failing input).  With the default options (SGD,
    momentum 0.9, batch size 1) on a network with two parameter
    responses (the filter and the bias of its fully connected layer),
    the first call of Train leaves two accumulators in each list and
    the second call four: the lists are appended to on every update
    pass.  With the method Adagrad and the momentum 0 no accumulator is
    ever allocated, and the first update pass panics on [t.gsum[i]]. *)
Theorem accumulators_grow (L : Libm float) :
  (exists s, responses_count = Ok (2, s))
  /\ (exists s, accumulators_after 1 =
        Ok ([[0; 0; 0; 0]; [0]]%float, [[]; []], s))
  /\ (exists s, accumulators_after 2 =
        Ok ([[0; 0; 0; 0]; [0]; [0; 0; 0; 0]; [0]]%float, [[]; []; []; []], s))
  /\ accumulators_with [WithMethod Adagrad; WithMomentum 0%float] 1
     = Panic "index out of range".
Proof.
  split; [eexists; vm_compute; reflexivity|].
  split; [eexists; vm_compute; reflexivity|].
  split; [eexists; vm_compute; reflexivity|].
  vm_compute. reflexivity.
Qed.

(** ** C10: the first Forward of a maxout layer *)

Section MaxoutFacts.
Context {F : Type} `{Float64 F} `{GoRand F}.

Lemma NewMaxoutLayer_outVol (def : LayerDef F) s l s' :
  NewMaxoutLayer def s = Ok (l, s') -> maxout_outVol l = None.
Proof.
  unfold NewMaxoutLayer.
  destruct (negb (String.eqb (def_Type def) Maxout)); [discriminate|].
  destruct (Dim_Z (def_Output def) =? 0); [discriminate|].
  destruct (def_LayerConfig def) as [| | | | |conf| | | | |]; try discriminate.
  destruct (GroupSize conf <=? 0); [discriminate|].
  intros Hb. apply bind_inv_ok in Hb as (sw & s1 & _ & Hret).
  injection Hret as <- _. reflexivity.
Qed.

(** C10.  The first Forward on a maxout layer built by NewMaxoutLayer
    panics on the nil pointer [l.outVol], whatever the input volume, the
    mode and the store. *)
Theorem maxout_first_Forward_panics (def : LayerDef F) s l s'
  (vol : ptr) (training : bool) (s'' : State F) :
  NewMaxoutLayer def s = Ok (l, s') ->
  maxoutLayer_Forward l vol training s'' = Panic "nil pointer dereference".
Proof.
  intros Hnew. apply NewMaxoutLayer_outVol in Hnew.
  unfold maxoutLayer_Forward. rewrite Hnew. reflexivity.
Qed.

End MaxoutFacts.

Lemma maxout_first_Forward_panics_witness :
  @maxoutLayer_Forward float binary64 ones_source
    (mkMaxoutLayer (mkMaxoutLayerConfig 2) (NewDimensions 1 1 2) None None [0; 0])
    (Some 0%nat) true input_1234
  = Panic "nil pointer dereference".
Proof.
  apply (@maxout_first_Forward_panics float binary64 ones_source
           maxout_def input_1234 _ input_1234).
  vm_compute. reflexivity.
Defined.

(** ** Slices *)

Lemma slice_get_lookup {A} (l : list A) (i : Z) (a : A) :
  0 <= i -> l !! Z.to_nat i = Some a -> slice_get l i = Ok a.
Proof.
  intros Hi Hl. unfold slice_get.
  destruct (Z.ltb_spec i 0); [lia|]. rewrite Hl. reflexivity.
Qed.

Lemma slice_get_inv {A} (l : list A) (i : Z) (a : A) :
  slice_get l i = Ok a -> 0 <= i /\ l !! Z.to_nat i = Some a.
Proof.
  unfold slice_get. destruct (Z.ltb_spec i 0); [discriminate|].
  destruct (l !! Z.to_nat i) eqn:Hl; [|discriminate].
  intros [= ->]. split; [assumption|reflexivity].
Qed.

Lemma slice_get_out_of_range {A} (l : list A) (i : Z) :
  i < 0 \/ len l <= i -> slice_get l i = Panic "index out of range".
Proof.
  unfold slice_get, len. intros Hi.
  destruct (Z.ltb_spec i 0); [reflexivity|].
  destruct (l !! Z.to_nat i) eqn:Hl; [|reflexivity].
  apply lookup_lt_Some in Hl. lia.
Qed.

Lemma slice_set_inv {A} (l l' : list A) (i : Z) (a : A) :
  slice_set l i a = Ok l' ->
  0 <= i < len l /\ l' = <[Z.to_nat i := a]> l.
Proof.
  unfold slice_set, len. destruct (Z.ltb_spec i 0); [discriminate|].
  destruct (Nat.ltb_spec (Z.to_nat i) (length l)); [|discriminate].
  intros [= <-]. split; [lia|reflexivity].
Qed.

Lemma slice_set_ok {A} (l : list A) (i : Z) (a : A) :
  0 <= i < len l -> slice_set l i a = Ok (<[Z.to_nat i := a]> l).
Proof.
  unfold slice_set, len. intros Hi.
  destruct (Z.ltb_spec i 0); [lia|].
  destruct (Nat.ltb_spec (Z.to_nat i) (length l)); [reflexivity|lia].
Qed.

Lemma lift_inv_ok {St A} (r : Res A) (s s' : St) (a : A) :
  lift r s = Ok (a, s') -> r = Ok a /\ s' = s.
Proof.
  unfold lift. destruct r; [|discriminate]. intros [= -> ->]. split; reflexivity.
Qed.

(** ** C2: Network.Backward *)

Section NetworkFacts.
Context {F : Type} `{Float64 F} `{Libm F} `{GoRand F}.

Lemma backward_at_inv (n n' : network F) (index : Z) (s s' : State F) :
  backward_at n index s = Ok (n', s') ->
  exists l', 0 <= index /\ layers n' = <[Z.to_nat index := l']> (layers n).
Proof.
  unfold backward_at. intros Hb.
  apply bind_inv_ok in Hb as (l & s1 & _ & Hb).
  apply bind_inv_ok in Hb as (l' & s2 & _ & Hb).
  unfold set_layer in Hb.
  apply bind_inv_ok in Hb as (ls & s3 & Hset & Hret).
  apply lift_inv_ok in Hset as [Hset _].
  apply slice_set_inv in Hset as [Hi ->].
  injection Hret as <- _. exists l'. split; [lia|reflexivity].
Qed.

Lemma backward_at_input (n : network F) (l0 : inputLayer) rest (s : State F) :
  layers n = inputL l0 :: rest ->
  backward_at n 0 s = Panic "Unsupported operation".
Proof.
  intros Hl. unfold backward_at, layer_at. rewrite Hl. reflexivity.
Qed.

(** The loop of Backward runs down to the index 0, where the input
    layer refuses. *)
Lemma backward_loop_panics (cnt : nat) :
  forall (n : network F) (l0 : inputLayer) rest (s : State F),
    layers n = inputL l0 :: rest ->
    exists msg,
      for_down_loop (S cnt) (Z.of_nat cnt) (fun index n => backward_at n index) n s
      = Panic msg.
Proof.
  induction cnt as [|cnt IH]; intros n l0 rest s Hl.
  - exists "Unsupported operation"%string. simpl.
    apply bind_panic. eapply backward_at_input; eassumption.
  - change (for_down_loop (S (S cnt)) (Z.of_nat (S cnt))
              (fun index n => backward_at n index) n s)
      with (bind (backward_at n (Z.of_nat (S cnt)))
              (fun n' => for_down_loop (S cnt) (Z.of_nat (S cnt) - 1)
                           (fun index n => backward_at n index) n') s).
    destruct (backward_at n (Z.of_nat (S cnt)) s) as [[n' s']|msg] eqn:Hb.
    + rewrite (bind_ok _ _ _ _ _ Hb).
      apply backward_at_inv in Hb as (l' & _ & Hl').
      replace (Z.of_nat (S cnt) - 1) with (Z.of_nat cnt) by lia.
      rewrite Hl, Nat2Z.id in Hl'. simpl in Hl'.
      eapply IH; eassumption.
    + exists msg. apply bind_panic. assumption.
Qed.

(** C2 (what the code does).  On every network whose first layer is the
    input layer, Backward panics, whatever the label index and the
    store: with a single layer the loss layer is missing, otherwise the
    loss layer or a layer's Backward panics, or the loop reaches the
    index 0 and calls the Backward of the input layer, which panics
    with "Unsupported operation".  No loss value is ever returned. *)
Theorem network_Backward_panics (n : network F) (l0 : inputLayer) rest
  (index : Z) (s : State F) :
  layers n = inputL l0 :: rest ->
  len (layers n) < 2 ^ 63 ->
  exists msg, network_Backward n index s = Panic msg.
Proof.
  intros Hl Hlen. unfold network_Backward, network_Size.
  assert (Hpos : 1 <= len (layers n)).
  { rewrite Hl. unfold len. simpl. lia. }
  unfold GoInt.sub.
  rewrite (wrap_small (len (layers n) - 1)) by (unfold GoInt.in_range; lia).
  rewrite (wrap_small (len (layers n) - 2)) by (unfold GoInt.in_range; lia).
  destruct (layer_at n (len (layers n) - 1) s) as [[last s1]|msg] eqn:Hlast.
  2:{ exists msg. apply bind_panic. assumption. }
  rewrite (bind_ok _ _ _ _ _ Hlast).
  destruct (asLossLayer last) as [Loss|] eqn:Hloss.
  2:{ eexists. reflexivity. }
  destruct (Loss index s1) as [[loss s2]|msg] eqn:HL.
  2:{ exists msg. apply bind_panic. assumption. }
  rewrite (bind_ok _ _ _ _ _ HL).
  destruct (Z.eq_dec (len (layers n)) 1) as [Hone|Hmore].
  - (* a single layer: the last layer is the input layer *)
    exfalso. unfold layer_at in Hlast.
    apply lift_inv_ok in Hlast as [Hget _].
    apply slice_get_inv in Hget as [_ Hget].
    rewrite Hone, Hl in Hget. simpl in Hget.
    injection Hget as <-. discriminate.
  - unfold for_down.
    replace (Z.to_nat (len (layers n) - 2 + 1))
      with (S (Z.to_nat (len (layers n) - 2))) by lia.
    destruct (backward_loop_panics (Z.to_nat (len (layers n) - 2)) n l0 rest s2 Hl)
      as [msg Hmsg].
    rewrite Z2Nat.id in Hmsg by lia.
    exists msg. apply bind_panic. assumption.
Qed.

End NetworkFacts.

Lemma network_Backward_panics_witness :
  exists msg,
    @network_Backward R realnum realnum_libm
      (mkNetwork [inputL (mkInputLayer (NewDimensions 1 1 4) (Some 0%nat) (Some 0%nat));
                  svmL (mkSvmLayer (mkSvmLayerConfig 4) (NewDimensions 1 1 4)
                          (NewDimensions 1 1 4) (Some 0%nat) (Some 0%nat))])
      0 (mkState [mkVolume (NewDimensions 1 1 4) [1; 2; 3; 4]%R [0; 0; 0; 0]%R] 0)
    = Panic msg.
Proof.
  eapply (@network_Backward_panics R realnum realnum_libm).
  - reflexivity.
  - vm_compute. reflexivity.
Defined.

(** ** C6: the validation of NewNetwork *)

(** C6 (counterexample).  Three definitions Input, ReLU, ReLU contain no
    loss-capable layer, and NewNetwork returns a network for them. *)
Lemma NewNetwork_without_loss_layer :
  has_loss_layer defs_without_loss = false
  /\ exists n s,
       @NewNetwork float binary64 ones_source defs_without_loss input_1234
       = Ok (Value n, s).
Proof.
  split; [reflexivity|]. eexists _, _. vm_compute. reflexivity.
Qed.

Section NewNetworkFacts.
Context {F : Type} `{Float64 F} `{GoRand F}.

(** C6 (amended).  NewNetwork returns an error, and no network, for
    every list of fewer than three definitions and for every list whose
    first definition is not of the input type; the store is left as it
    was. *)
Theorem NewNetwork_validation (defs : list (LayerDef F)) (s : State F) :
  (len defs <= 2
   \/ exists d, defs !! 0%nat = Some d /\ String.eqb (def_Type d) Input = false) ->
  exists msg, NewNetwork defs s = Ok (Error msg, s).
Proof.
  intros Hbad. unfold NewNetwork.
  destruct (Z.leb_spec (len defs) 2) as [Hle|Hgt].
  - eexists. reflexivity.
  - destruct Hbad as [Hle|(d & Hd & Hty)]; [lia|].
    rewrite (bind_ok _ _ _ d s).
    + rewrite Hty. simpl. eexists. reflexivity.
    + unfold lift. rewrite (slice_get_lookup defs 0 d); [reflexivity|lia|exact Hd].
Qed.

End NewNetworkFacts.

Lemma NewNetwork_validation_witness :
  exists msg,
    @NewNetwork float binary64 ones_source
      [ plainDef ReLU zeroDimensions (NewDimensions 1 1 4) nilConfig;
        plainDef Input zeroDimensions (NewDimensions 1 1 4) nilConfig;
        plainDef SVM zeroDimensions (NewDimensions 1 1 4)
          (svmConfig (mkSvmLayerConfig 4)) ]
      input_1234
    = Ok (Error msg, input_1234).
Proof.
  apply (@NewNetwork_validation float binary64 ones_source).
  right. eexists. split; reflexivity.
Defined.

(** ** Loops and the store *)

(** A loop whose states are the sequence [f 0], [f 1], ... ends in
    [f cnt]. *)
Lemma for_loop_steps {St A} (body : Z -> A -> M St A) (f : nat -> A * St)
  (cnt : nat) :
  forall i0 : Z,
    (forall k, (k < cnt)%nat ->
       body (i0 + Z.of_nat k) (fst (f k)) (snd (f k)) = Ok (f (S k))) ->
    for_loop cnt i0 body (fst (f 0%nat)) (snd (f 0%nat)) = Ok (f cnt).
Proof.
  revert f. induction cnt as [|cnt IH]; intros f i0 Hstep.
  - simpl. unfold ret. destruct (f 0%nat); reflexivity.
  - simpl. unfold bind.
    specialize (Hstep 0%nat) as H0. rewrite Z.add_0_r in H0.
    rewrite H0 by lia.
    destruct (f 1%nat) as [a1 s1] eqn:Hf1.
    specialize (IH (fun k => f (S k)) (i0 + 1)). simpl in IH.
    rewrite Hf1 in IH. simpl in IH. apply IH.
    intros k Hk. replace (i0 + 1 + Z.of_nat k) with (i0 + Z.of_nat (S k)) by lia.
    apply Hstep. lia.
Qed.

Lemma for_range_steps {St A} (body : Z -> A -> M St A) (f : nat -> A * St)
  (n : Z) (acc : A) (s : St) :
  f 0%nat = (acc, s) ->
  (forall k, (k < Z.to_nat n)%nat ->
     body (Z.of_nat k) (fst (f k)) (snd (f k)) = Ok (f (S k))) ->
  for_range n body acc s = Ok (f (Z.to_nat n)).
Proof.
  intros H0 Hstep. unfold for_range.
  pose proof (for_loop_steps body f (Z.to_nat n) 0 Hstep) as Hl.
  rewrite H0 in Hl. exact Hl.
Qed.

(** Writing the [k]-th element of the target into a list that already
    holds its first [k] elements. *)
Lemma insert_take_drop {A} (target orig : list A) (k : nat) (x : A) :
  length target = length orig ->
  target !! k = Some x ->
  <[k := x]> (take k target ++ drop k orig) = take (S k) target ++ drop (S k) orig.
Proof.
  intros Hlen Hx.
  pose proof (lookup_lt_Some _ _ _ Hx) as Hk.
  rewrite insert_app_r_alt by (rewrite length_take; lia).
  rewrite length_take, Nat.min_l by lia. rewrite Nat.sub_diag.
  destruct (drop k orig) as [|y rest] eqn:Hd.
  { apply (f_equal length) in Hd. rewrite length_drop in Hd. simpl in Hd. lia. }
  simpl. rewrite (take_S_r _ _ _ Hx), <- app_assoc. simpl.
  f_equal. f_equal.
  assert (Hrest : drop 1 (drop k orig) = rest) by (rewrite Hd; reflexivity).
  rewrite drop_drop in Hrest. rewrite <- Hrest. f_equal. lia.
Qed.

Section StoreFacts.
Context {F : Type} `{Float64 F} `{GoRand F}.

Lemma deref_ok (s : State F) (a : nat) (v : Volume F) :
  heap s !! a = Some v -> deref (Some a) s = Ok (v, s).
Proof. unfold deref. intros ->. reflexivity. Qed.

Lemma assign_ok (s : State F) (a : nat) (v v' : Volume F) :
  heap s !! a = Some v -> assign (Some a) v' s = Ok (tt, set_vol s a v').
Proof.
  intros Hv. unfold assign.
  apply lookup_lt_Some in Hv.
  destruct (Nat.ltb_spec a (length (heap s))); [reflexivity|lia].
Qed.

Lemma set_vol_lookup (s : State F) (a : nat) (v v' : Volume F) :
  heap s !! a = Some v -> heap (set_vol s a v') !! a = Some v'.
Proof.
  intros Hv. unfold set_vol. simpl.
  apply list_lookup_insert_eq. eapply lookup_lt_Some; eassumption.
Qed.

Lemma set_vol_set_vol (s : State F) (a : nat) (v v' : Volume F) :
  set_vol (set_vol s a v) a v' = set_vol s a v'.
Proof. unfold set_vol. simpl. rewrite list_insert_insert_eq. reflexivity. Qed.

Lemma set_vol_id (s : State F) (a : nat) (v : Volume F) :
  heap s !! a = Some v -> set_vol s a v = s.
Proof.
  intros Hv. unfold set_vol. rewrite list_insert_id by assumption.
  destruct s; reflexivity.
Qed.

Lemma Volume_Size_ok (s : State F) (a : nat) (v : Volume F) :
  heap s !! a = Some v ->
  Volume_Size (Some a) s = Ok (Dimensions_Size (dim v), s).
Proof.
  intros Hv. unfold Volume_Size. rewrite (bind_ok _ _ _ _ _ (deref_ok _ _ _ Hv)).
  reflexivity.
Qed.

Lemma Volume_Weights_ok (s : State F) (a : nat) (v : Volume F) :
  heap s !! a = Some v -> Volume_Weights (Some a) s = Ok (w v, s).
Proof.
  intros Hv. unfold Volume_Weights.
  rewrite (bind_ok _ _ _ _ _ (deref_ok _ _ _ Hv)). reflexivity.
Qed.

Lemma Volume_GetByIndex_ok (s : State F) (a : nat) (v : Volume F) (i : nat) x :
  heap s !! a = Some v -> w v !! i = Some x ->
  Volume_GetByIndex (Some a) (Z.of_nat i) s = Ok (x, s).
Proof.
  intros Hv Hx. unfold Volume_GetByIndex.
  rewrite (bind_ok _ _ _ _ _ (deref_ok _ _ _ Hv)).
  unfold lift. rewrite (slice_get_lookup (w v) (Z.of_nat i) x); [reflexivity|lia|].
  rewrite Nat2Z.id. assumption.
Qed.

Lemma Volume_GetGradByIndex_ok (s : State F) (a : nat) (v : Volume F) (i : nat) x :
  heap s !! a = Some v -> dw v !! i = Some x ->
  Volume_GetGradByIndex (Some a) (Z.of_nat i) s = Ok (x, s).
Proof.
  intros Hv Hx. unfold Volume_GetGradByIndex.
  rewrite (bind_ok _ _ _ _ _ (deref_ok _ _ _ Hv)).
  unfold lift. rewrite (slice_get_lookup (dw v) (Z.of_nat i) x); [reflexivity|lia|].
  rewrite Nat2Z.id. assumption.
Qed.

Lemma Volume_SetByIndex_ok (s : State F) (a : nat) (v : Volume F) (i : nat) x :
  heap s !! a = Some v -> (i < length (w v))%nat ->
  Volume_SetByIndex (Some a) (Z.of_nat i) x s
  = Ok (tt, set_vol s a (mkVolume (dim v) (<[i := x]> (w v)) (dw v))).
Proof.
  intros Hv Hi. unfold Volume_SetByIndex.
  rewrite (bind_ok _ _ _ _ _ (deref_ok _ _ _ Hv)).
  rewrite (bind_ok _ _ _ (<[i := x]> (w v)) s).
  - eapply assign_ok; eassumption.
  - unfold lift. rewrite slice_set_ok by (unfold len; lia).
    rewrite Nat2Z.id. reflexivity.
Qed.

Lemma Volume_SetGradByIndex_ok (s : State F) (a : nat) (v : Volume F) (i : nat) x :
  heap s !! a = Some v -> (i < length (dw v))%nat ->
  Volume_SetGradByIndex (Some a) (Z.of_nat i) x s
  = Ok (tt, set_vol s a (with_dw v (<[i := x]> (dw v)))).
Proof.
  intros Hv Hi. unfold Volume_SetGradByIndex.
  rewrite (bind_ok _ _ _ _ _ (deref_ok _ _ _ Hv)).
  rewrite (bind_ok _ _ _ (<[i := x]> (dw v)) s).
  - eapply assign_ok; eassumption.
  - unfold lift. rewrite slice_set_ok by (unfold len; lia).
    rewrite Nat2Z.id. reflexivity.
Qed.


(** ZeroGrad on a well-formed volume: every gradient becomes 0. *)
Lemma Volume_ZeroGrad_ok (s : State F) (a : nat) (v : Volume F) :
  heap s !! a = Some v ->
  len (dw v) = Dimensions_Size (dim v) ->
  Volume_ZeroGrad (Some a) s = Ok (tt, set_vol s a (with_dw v (zeros (length (dw v))))).
Proof.
  intros Hv Hwf. unfold Volume_ZeroGrad.
  rewrite (bind_ok _ _ _ _ _ (Volume_Size_ok _ _ _ Hv)).
  rewrite <- Hwf.
  set (n := length (dw v)).
  rewrite (for_range_steps _
    (fun k => (tt, set_vol s a (with_dw v (take k (zeros n) ++ drop k (dw v)))))
    (len (dw v)) tt s).
  - unfold len. rewrite Nat2Z.id. fold n.
    rewrite take_ge by (unfold zeros; rewrite length_replicate; lia).
    rewrite drop_ge by (unfold n; lia). rewrite app_nil_r. reflexivity.
  - simpl. rewrite drop_0. unfold with_dw.
    rewrite set_vol_id; [reflexivity|]. destruct v; exact Hv.
  - intros k Hk. unfold len in Hk. rewrite Nat2Z.id in Hk. fold n in Hk. simpl.
    erewrite Volume_SetGradByIndex_ok.
    2:{ eapply set_vol_lookup; eassumption. }
    2:{ simpl. rewrite length_app, length_take, length_drop.
        unfold zeros. rewrite length_replicate. fold n. lia. }
    rewrite set_vol_set_vol. unfold with_dw. simpl.
    rewrite insert_take_drop; [reflexivity| |].
    + unfold zeros. rewrite length_replicate. reflexivity.
    + unfold zeros. apply lookup_replicate_2. assumption.
Qed.

End StoreFacts.

(** A loop that only reads the elements of [l] in turn is a fold. *)
Lemma for_range_fold {St A B} (l : list B) (f : A -> B -> A)
  (body : Z -> A -> M St A) (acc : A) (s : St) :
  (forall i b a st, l !! i = Some b -> body (Z.of_nat i) a st = Ok (f a b, st)) ->
  for_range (len l) body acc s = Ok (fold_left f l acc, s).
Proof.
  intros Hbody.
  rewrite (for_range_steps body (fun k => (fold_left f (take k l) acc, s))
             (len l) acc s).
  - unfold len. rewrite Nat2Z.id, firstn_all. reflexivity.
  - reflexivity.
  - intros k Hk. unfold len in Hk. rewrite Nat2Z.id in Hk. simpl.
    destruct (lookup_lt_is_Some_2 l k Hk) as [b Hb].
    rewrite (Hbody k b _ _ Hb).
    rewrite (take_S_r _ _ _ Hb), fold_left_app. reflexivity.
Qed.

Lemma Dimensions_Size_vector (n : Z) :
  GoInt.in_range n -> Dimensions_Size (NewDimensions 1 1 n) = n.
Proof.
  intros Hn. unfold Dimensions_Size, GoInt.mul. simpl.
  replace (GoInt.wrap (1 * 1)) with 1 by (vm_compute; reflexivity).
  replace (1 * n) with n by lia. apply wrap_small. assumption.
Qed.

Section NewVolumeFacts.
Context {F : Type} `{Float64 F} `{GoRand F}.

Lemma NewVolume_zeros (d : Dimensions) (s : State F) :
  0 <= Dimensions_Size d ->
  NewVolume d [WithZeros] s
  = Ok (Some (length (heap s)),
        mkState (heap s ++ [mkVolume d (zeros (Z.to_nat (Dimensions_Size d)))
                                       (zeros (Z.to_nat (Dimensions_Size d)))])
                (draws s)).
Proof.
  intros Hn. unfold NewVolume, make.
  destruct (Z.ltb_spec (Dimensions_Size d) 0); [lia|]. reflexivity.
Qed.

End NewVolumeFacts.

(** ** The softmax layer *)

Section SoftmaxFacts.
Context {F : Type} `{Float64 F} `{Libm F} `{GoRand F}.

Lemma fold_left_take_S (exps : list F) (k : nat) (e : F) :
  exps !! k = Some e ->
  fold_left fadd (take (S k) exps) f0 = fadd (fold_left fadd (take k exps) f0) e.
Proof.
  intros He. rewrite (take_S_r _ _ _ He), fold_left_app. reflexivity.
Qed.

(** Forward on a layer of [n] classes and an input of [n] values: the
    output volume and the stored list are the probabilities. *)
Lemma softmaxLayer_Forward_ok (l0 : softmaxLayer F) (a : nat) (v : Volume F)
  (training : bool) (s : State F) (n : nat) :
  softmax_outDim l0 = NewDimensions 1 1 (Z.of_nat n) ->
  Z.of_nat n < 2 ^ 63 ->
  heap s !! a = Some v ->
  length (w v) = n ->
  (1 <= n)%nat ->
  softmaxLayer_Forward l0 (Some a) training s
  = Ok (softmax_after l0 a (length (heap s)) (w v), Some (length (heap s)),
        mkState (heap s ++ [mkVolume (softmax_outDim l0) (softmax_probs (w v))
                                     (zeros n)]) (draws s)).
Proof.
  intros Hdim Hn Hv Hlen Hpos.
  assert (Hsize : Dimensions_Size (softmax_outDim l0) = Z.of_nat n).
  { rewrite Hdim. apply Dimensions_Size_vector. unfold GoInt.in_range. lia. }
  assert (Hnn : 0 <= Dimensions_Size (softmax_outDim l0)) by lia.
  unfold softmaxLayer_Forward.
  rewrite (bind_ok _ _ _ _ _ (NewVolume_zeros _ s Hnn)).
  rewrite Hsize, Nat2Z.id.
  set (V0 := mkVolume (softmax_outDim l0) (zeros n) (zeros n)).
  set (s1 := mkState (heap s ++ [V0]) (draws s)).
  set (out := length (heap s)).
  assert (Hv1 : heap s1 !! a = Some v).
  { simpl. rewrite lookup_app_l; [assumption|]. eapply lookup_lt_Some; eassumption. }
  assert (Hout : heap s1 !! out = Some V0).
  { simpl. unfold out. rewrite lookup_app_r by lia.
    rewrite Nat.sub_diag. reflexivity. }
  rewrite (bind_ok _ _ _ _ _ (Volume_Weights_ok _ _ _ Hv1)).
  destruct (w v) as [|a0 rest] eqn:Hw; [simpl in Hlen; lia|].
  rewrite <- Hw in *.
  rewrite (bind_ok _ _ _ a0 s1).
  2:{ unfold lift. rewrite (slice_get_lookup (w v) 0 a0); [reflexivity|lia|].
      rewrite Hw. reflexivity. }
  (* the maximum *)
  rewrite Hdim. simpl Dim_Z.
  replace (Z.of_nat n) with (len (w v)) by (unfold len; rewrite Hlen; reflexivity).
  rewrite (bind_ok _ _ _ (softmax_aMax (w v)) s1).
  2:{ rewrite (for_range_fold (w v)
                 (fun aMax a => if fgtb a aMax then a else aMax)).
      - unfold softmax_aMax. rewrite Hw at 3. reflexivity.
      - intros i b aM st Hb. unfold bind, lift.
        rewrite (slice_get_lookup (w v) (Z.of_nat i) b);
          [|lia|rewrite Nat2Z.id; assumption].
        destruct (fgtb b aM); reflexivity. }
  rewrite (bind_ok _ _ _ (zeros n) s1).
  2:{ unfold lift, make, len. destruct (Z.ltb_spec (Z.of_nat (length (w v))) 0); [lia|].
      rewrite Nat2Z.id, Hlen. reflexivity. }
  set (exps := softmax_exps (w v)).
  assert (Hexps : length exps = n).
  { unfold exps, softmax_exps. rewrite length_map. assumption. }
  (* the exponentials and their sum *)
  rewrite (bind_ok _ _ _ (softmax_esum (w v), exps) s1).
  2:{ rewrite (for_range_steps _
        (fun k => ((fold_left fadd (take k exps) f0,
                    take k exps ++ drop k (zeros n)), s1))).
      - unfold len. rewrite Nat2Z.id, Hlen.
        rewrite take_ge by lia.
        rewrite drop_ge by (unfold zeros; rewrite length_replicate; lia).
        rewrite app_nil_r. reflexivity.
      - simpl. rewrite drop_0. reflexivity.
      - intros k Hk. unfold len in Hk. rewrite Nat2Z.id, Hlen in Hk. simpl.
        destruct (lookup_lt_is_Some_2 (w v) k ltac:(lia)) as [ak Hak].
        assert (He : exps !! k = Some (math_Exp (fsub ak (softmax_aMax (w v))))).
        { unfold exps, softmax_exps. rewrite list_lookup_fmap, Hak. reflexivity. }
        unfold bind at 1. unfold lift at 1.
        rewrite (slice_get_lookup (w v) (Z.of_nat k) ak);
          [|lia|rewrite Nat2Z.id; assumption].
        unfold bind, lift.
        rewrite slice_set_ok.
        2:{ unfold len. rewrite length_app, length_take, length_drop.
            unfold zeros. rewrite length_replicate. lia. }
        rewrite Nat2Z.id.
        rewrite insert_take_drop;
          [|unfold zeros; rewrite length_replicate; lia|exact He].
        rewrite (fold_left_take_S _ _ _ He). reflexivity. }
  set (probs := softmax_probs (w v)).
  assert (Hprobs : length probs = n).
  { unfold probs, softmax_probs. rewrite length_map. assumption. }
  (* the normalization *)
  rewrite (bind_ok _ _ _ probs
             (set_vol s1 out (mkVolume (softmax_outDim l0) probs (zeros n)))).
  2:{ rewrite (for_range_steps _
        (fun k => (take k probs ++ drop k exps,
                   set_vol s1 out
                     (mkVolume (softmax_outDim l0)
                        (take k probs ++ drop k (zeros n)) (zeros n))))).
      - unfold len. rewrite Nat2Z.id, Hlen.
        rewrite !take_ge by lia.
        rewrite !drop_ge by (try (unfold zeros; rewrite length_replicate); lia).
        rewrite !app_nil_r. reflexivity.
      - simpl. rewrite !drop_0. fold V0.
        rewrite set_vol_id; [reflexivity|assumption].
      - intros k Hk. unfold len in Hk. rewrite Nat2Z.id, Hlen in Hk. simpl.
        destruct (lookup_lt_is_Some_2 exps k ltac:(lia)) as [ek Hek].
        assert (Hp : probs !! k = Some (fdiv ek (softmax_esum (w v)))).
        { unfold probs, softmax_probs. fold exps.
          rewrite list_lookup_fmap, Hek. reflexivity. }
        assert (Hget : (take k probs ++ drop k exps) !! k = Some ek).
        { rewrite lookup_app_r by (rewrite length_take; lia).
          rewrite length_take, Nat.min_l by lia.
          rewrite Nat.sub_diag, lookup_drop, Nat.add_0_r. assumption. }
        unfold bind at 1. unfold lift at 1.
        rewrite (slice_get_lookup _ (Z.of_nat k) ek);
          [|lia|rewrite Nat2Z.id; assumption].
        unfold bind at 1. unfold lift at 1.
        rewrite slice_set_ok.
        2:{ unfold len. rewrite length_app, length_take, length_drop. lia. }
        rewrite Nat2Z.id.
        rewrite insert_take_drop; [|lia|exact Hp].
        assert (Hget' : (take (S k) probs ++ drop (S k) exps) !! k
                        = Some (fdiv ek (softmax_esum (w v)))).
        { rewrite lookup_app_l by (rewrite length_take; lia).
          rewrite lookup_take_lt by lia. assumption. }
        unfold bind at 1. unfold lift at 1.
        rewrite (slice_get_lookup _ (Z.of_nat k) _ ltac:(lia)
                   ltac:(rewrite Nat2Z.id; exact Hget')).
        unfold bind.
        erewrite Volume_SetByIndex_ok.
        2:{ eapply set_vol_lookup; eassumption. }
        2:{ simpl. rewrite length_app, length_take, length_drop.
            unfold zeros. rewrite length_replicate. lia. }
        simpl. rewrite set_vol_set_vol.
        rewrite insert_take_drop;
          [|unfold zeros; rewrite length_replicate; lia|exact Hp].
        reflexivity. }
  assert (Hd : softmax_outDim l0 = NewDimensions 1 1 (len (w v))).
  { rewrite Hdim. unfold len. rewrite Hlen. reflexivity. }
  unfold ret, softmax_after, set_vol, s1, V0, out. fold probs. simpl.
  rewrite insert_app_r_alt by lia. rewrite Nat.sub_diag. simpl.
  rewrite Hd. reflexivity.
Qed.

End SoftmaxFacts.

Section SoftmaxLossFacts.
Context {F : Type} `{Float64 F} `{Libm F} `{GoRand F}.

Lemma softmaxLayer_Loss_out_of_range (l : softmaxLayer F) (index : Z)
  (s : State F) (n : nat) :
  softmax_outDim l = NewDimensions 1 1 (Z.of_nat n) ->
  Z.of_nat n < 2 ^ 63 ->
  index < 0 \/ Z.of_nat n <= index ->
  softmaxLayer_Loss l index s = Panic "Invalid dimension index".
Proof.
  intros Hdim Hn Hi. unfold softmaxLayer_Loss.
  rewrite Hdim, Dimensions_Size_vector by (unfold GoInt.in_range; lia).
  destruct (Z.ltb_spec index 0); [reflexivity|].
  destruct (Z.leb_spec (Z.of_nat n) index); [reflexivity|lia].
Qed.

Lemma softmaxLayer_Loss_ok (l : softmaxLayer F) (index : Z) (s : State F)
  (n a : nat) (v : Volume F) (p : F) :
  softmax_outDim l = NewDimensions 1 1 (Z.of_nat n) ->
  Z.of_nat n < 2 ^ 63 ->
  softmax_inVol l = Some a ->
  length (softmax_es l) = n ->
  heap s !! a = Some v ->
  len (dw v) = Dimensions_Size (dim v) ->
  length (dw v) = n ->
  0 <= index < Z.of_nat n ->
  softmax_es l !! Z.to_nat index = Some p ->
  softmaxLayer_Loss l index s
  = Ok (fneg (math_Log p),
        set_vol s a (with_dw v (softmax_grads (softmax_es l) index))).
Proof.
  intros Hdim Hn Hin Hes Hv Hwf Hdw Hi Hp. unfold softmaxLayer_Loss.
  rewrite Hdim, Dimensions_Size_vector by (unfold GoInt.in_range; lia).
  destruct (Z.ltb_spec index 0); [lia|].
  destruct (Z.leb_spec (Z.of_nat n) index); [lia|].
  change (false || false) with false. cbv iota.
  rewrite Hin.
  rewrite (bind_ok _ _ _ _ _ (Volume_ZeroGrad_ok _ _ _ Hv Hwf)).
  rewrite Hdw. simpl Dim_Z.
  set (grads := softmax_grads (softmax_es l) index).
  assert (Hg : length grads = n).
  { unfold grads, softmax_grads. rewrite length_imap. assumption. }
  rewrite (bind_ok _ _ _ tt (set_vol s a (with_dw v grads))).
  - unfold bind, lift.
    rewrite (slice_get_lookup _ index p); [reflexivity|lia|assumption].
  - rewrite (for_range_steps _
      (fun k => (tt, set_vol s a (with_dw v (take k grads ++ drop k (zeros n)))))).
    + rewrite Nat2Z.id. rewrite take_ge by lia.
      rewrite drop_ge by (unfold zeros; rewrite length_replicate; lia).
      rewrite app_nil_r. reflexivity.
    + simpl. rewrite drop_0. reflexivity.
    + intros k Hk. rewrite Nat2Z.id in Hk. simpl.
      destruct (lookup_lt_is_Some_2 (softmax_es l) k ltac:(lia)) as [pk Hpk].
      unfold bind at 1. unfold lift at 1.
      rewrite (slice_get_lookup _ (Z.of_nat k) pk);
        [|lia|rewrite Nat2Z.id; assumption].
      erewrite Volume_SetGradByIndex_ok.
      2:{ eapply set_vol_lookup; eassumption. }
      2:{ simpl. rewrite length_app, length_take, length_drop.
          unfold zeros. rewrite length_replicate. lia. }
      rewrite set_vol_set_vol. unfold with_dw. simpl.
      rewrite insert_take_drop; [reflexivity| |].
      * unfold zeros. rewrite length_replicate. lia.
      * unfold grads, softmax_grads. rewrite list_lookup_imap, Hpk. reflexivity.
Qed.

(** C7.  On a softmax layer of [n >= 1] classes, Forward over an input
    of [n] values succeeds and stores the probabilities; after it, Loss
    panics when the index is outside [0, n), and otherwise returns
    [-log(probability[index])] and leaves, as the gradient of the input
    volume, [-(indicator(i == index) - probability[i])] at every class
    [i] (the whole gradient array: nothing of its earlier content is
    left). *)
Theorem softmax_Loss_after_Forward (l0 : softmaxLayer F) (a : nat)
  (v : Volume F) (training : bool) (s : State F) (n : nat) (index : Z) :
  softmax_outDim l0 = NewDimensions 1 1 (Z.of_nat n) ->
  Z.of_nat n < 2 ^ 63 ->
  heap s !! a = Some v ->
  wf_volume v ->
  length (w v) = n ->
  (1 <= n)%nat ->
  exists l out s',
    softmaxLayer_Forward l0 (Some a) training s = Ok (l, Some out, s')
    /\ softmax_es l = softmax_probs (w v)
    /\ (exists vout, heap s' !! out = Some vout /\ w vout = softmax_probs (w v))
    /\ (index < 0 \/ Z.of_nat n <= index ->
         softmaxLayer_Loss l index s' = Panic "Invalid dimension index")
    /\ (0 <= index < Z.of_nat n ->
         exists p,
           softmax_probs (w v) !! Z.to_nat index = Some p
           /\ softmaxLayer_Loss l index s'
               = Ok (fneg (math_Log p),
                     set_vol s' a
                       (with_dw v (softmax_grads (softmax_probs (w v)) index)))).
Proof.
  intros Hdim Hn Hv [Hw Hdw] Hlen Hpos.
  eexists _, _, _. split.
  { eapply softmaxLayer_Forward_ok; eassumption. }
  assert (Hprobs : length (softmax_probs (w v)) = n).
  { unfold softmax_probs, softmax_exps. rewrite !length_map. assumption. }
  assert (Hv' : (heap s ++ [mkVolume (softmax_outDim l0) (softmax_probs (w v))
                              (zeros n)]) !! a = Some v).
  { rewrite lookup_app_l; [assumption|]. eapply lookup_lt_Some; eassumption. }
  split; [reflexivity|]. split.
  { eexists. split.
    - simpl. rewrite lookup_app_r by lia. rewrite Nat.sub_diag. reflexivity.
    - reflexivity. }
  split.
  - intros Hout. eapply softmaxLayer_Loss_out_of_range; eassumption.
  - intros Hi.
    destruct (lookup_lt_is_Some_2 (softmax_probs (w v)) (Z.to_nat index)
                ltac:(lia)) as [p Hp].
    exists p. split; [assumption|].
    apply (softmaxLayer_Loss_ok (softmax_after l0 a (length (heap s)) (w v))
             index _ n a v p); try assumption; try reflexivity.
    unfold len in *. lia.
Qed.

End SoftmaxLossFacts.

Lemma softmax_Loss_after_Forward_witness :
  exists l out s',
    @softmaxLayer_Forward R realnum realnum_libm zero_source softmax_3
      (Some 0%nat) true (scores_store [1; 3; 0.5]%R) = Ok (l, Some out, s')
    /\ softmax_es l = softmax_probs [1; 3; 0.5]%R
    /\ (exists vout, heap s' !! out = Some vout
                     /\ w vout = softmax_probs [1; 3; 0.5]%R)
    /\ (1 < 0 \/ Z.of_nat 3 <= 1 ->
         softmaxLayer_Loss l 1 s' = Panic "Invalid dimension index")
    /\ (0 <= 1 < Z.of_nat 3 ->
         exists p,
           softmax_probs [1; 3; 0.5]%R !! Z.to_nat 1 = Some p
           /\ softmaxLayer_Loss l 1 s'
               = Ok (fneg (math_Log p),
                     set_vol s' 0
                       (with_dw (mkVolume (NewDimensions 1 1 3) [1; 3; 0.5]%R
                                   [0; 0; 0]%R)
                          (softmax_grads (softmax_probs [1; 3; 0.5]%R) 1)))).
Proof.
  apply (@softmax_Loss_after_Forward R realnum realnum_libm zero_source
           softmax_3 0%nat
           (mkVolume (NewDimensions 1 1 3) [1; 3; 0.5]%R [0; 0; 0]%R)
           true (scores_store [1; 3; 0.5]%R) 3%nat 1).
  - reflexivity.
  - lia.
  - reflexivity.
  - split; vm_compute; reflexivity.
  - reflexivity.
  - lia.
Defined.

(** ** C8: the softmax output over the reals *)

Section SoftmaxReal.
Local Open Scope R_scope.











Context `{GoRand R}.


End SoftmaxReal.


(** ** C9: the SVM loss *)

Section SvmFacts.
Context {F : Type} `{Float64 F}.









End SvmFacts.

Section SvmLossFacts.
Context {F : Type} `{Float64 F}.


End SvmLossFacts.

Section SvmReal.
Local Open Scope R_scope.







End SvmReal.


(** ** Supporting runs *)

(** On the network Input, FullyConnected, SVM, Backward after Forward
    ends in the panic of the input layer. *)
Lemma svm_network_Backward_run (L : Libm float) :
  svm_forward_backward = Panic "Unsupported operation".
Proof. vm_compute. reflexivity. Qed.

(** ** The initialization of the accumulators *)

Section TrainerFacts.
Context {F : Type} `{Float64 F}.

(** With a positive momentum the accumulators are held to be needed,
    whatever the method and whether or not they exist already. *)
Lemma accumulators_needed_momentum (t : trainer F) :
  fgtb (Momentum (t_opts t)) f0 = true -> accumulators_needed t = true.
Proof. intros Hm. unfold accumulators_needed. rewrite Hm. apply orb_true_r. Qed.

(** Whenever the accumulators are held to be needed, the initialization
    appends one entry per response to both lists. *)
Lemma init_accumulators_appends (t : trainer F) (pgList : list (LayerResponse F))
  (s : State F) :
  accumulators_needed t = true ->
  (forall i pg, pgList !! i = Some pg ->
     exists a v, resp_vol pg = Some a /\ heap s !! a = Some v) ->
  init_accumulators t pgList s
  = Ok (with_acc t (gsum t ++ new_gsum s pgList) (xsum t ++ new_xsum t s pgList), s).
Proof.
  intros Hneed Hvalid. unfold init_accumulators. rewrite Hneed.
  rewrite (for_range_steps _
    (fun k => (with_acc t (gsum t ++ take k (new_gsum s pgList))
                          (xsum t ++ take k (new_xsum t s pgList)), s))).
  - unfold len. rewrite Nat2Z.id.
    rewrite !take_ge by (unfold new_gsum, new_xsum; rewrite length_map; lia).
    reflexivity.
  - simpl. rewrite !app_nil_r. destruct t; reflexivity.
  - intros k Hk. unfold len in Hk. rewrite Nat2Z.id in Hk. simpl fst. simpl snd.
    destruct (lookup_lt_is_Some_2 pgList k Hk) as [pg Hpg].
    destruct (Hvalid k pg Hpg) as (a & v & Ha & Hv).
    unfold bind at 1. unfold lift at 1.
    rewrite (slice_get_lookup pgList (Z.of_nat k) pg);
      [|lia|rewrite Nat2Z.id; assumption].
    rewrite Ha. rewrite (bind_ok _ _ _ _ _ (Volume_Weights_ok _ _ _ Hv)).
    assert (Hmake : forall st : State F,
              lift (make f0 (len (w v))) st = Ok (zeros (length (w v)), st)).
    { intros st. unfold lift, make, len.
      destruct (Z.ltb_spec (Z.of_nat (length (w v))) 0); [lia|].
      rewrite Nat2Z.id. reflexivity. }
    rewrite (bind_ok _ _ _ _ _ (Hmake s)).
    assert (Hwl : weights_len s pg = length (w v)).
    { unfold weights_len. rewrite Ha, Hv. reflexivity. }
    assert (Hg : new_gsum s pgList !! k = Some (zeros (length (w v)))).
    { unfold new_gsum. rewrite list_lookup_fmap, Hpg. simpl. rewrite Hwl.
      reflexivity. }
    assert (Hx : new_xsum t s pgList !! k
                 = Some (if String.eqb (Method (t_opts t)) Adam
                            || String.eqb (Method (t_opts t)) Adadelta
                         then zeros (length (w v)) else [])).
    { unfold new_xsum. rewrite list_lookup_fmap, Hpg. simpl. rewrite Hwl.
      reflexivity. }
    rewrite (take_S_r _ _ _ Hg), (take_S_r _ _ _ Hx), !app_assoc.
    simpl t_opts.
    destruct (String.eqb (Method (t_opts t)) Adam
              || String.eqb (Method (t_opts t)) Adadelta).
    + rewrite (bind_ok _ _ _ _ _ (Hmake s)). reflexivity.
    + reflexivity.
Qed.

End TrainerFacts.

(** Where the window that Forward scans lies inside the input, the
    pool layer outputs the maximum 5 of the window [1,5,2,3] and
    Backward routes the gradient to its position alone. *)
Lemma pool_window_inside_run (rnd : GoRand float) :
  exists s,
    pool_3x3_run
    = Ok ([5; 5; 3; 3]%float, [0; 0; 0; 0; 0; 1; 0; 0; 0]%float, s).
Proof. eexists. vm_compute. reflexivity. Qed.

(** ** The invariants behind the hypotheses *)

(** A property that every successful iteration preserves holds after a
    successful loop. *)
Lemma for_loop_invariant {St A} (P : A -> St -> Prop) (body : Z -> A -> M St A) :
  (forall i a st a' st', P a st -> body i a st = Ok (a', st') -> P a' st') ->
  forall (cnt : nat) (i : Z) acc s acc' s',
    P acc s -> for_loop cnt i body acc s = Ok (acc', s') -> P acc' s'.
Proof.
  intros Hbody. induction cnt as [|cnt IH]; intros i acc s acc' s' HP Hloop.
  - simpl in Hloop. injection Hloop as <- <-. assumption.
  - simpl in Hloop. apply bind_inv_ok in Hloop as (a1 & s1 & Hb & Hrest).
    eapply IH; [|exact Hrest]. eapply Hbody; eassumption.
Qed.

Section Invariants.
Context {F : Type} `{Float64 F} `{GoRand F}.

Lemma make_inv {A} (z : A) (n : Z) (l : list A) :
  make z n = Ok l -> 0 <= n /\ len l = n.
Proof.
  unfold make, len. destruct (Z.ltb_spec n 0); [discriminate|].
  intros [= <-]. rewrite length_replicate. lia.
Qed.

(** Every volume that NewVolume returns has both arrays of the length
    [size]. *)
Lemma NewVolume_wf (d : Dimensions) (optFuncs : list (OptionFunc F))
  (s s' : State F) (p : ptr) :
  NewVolume d optFuncs s = Ok (p, s') ->
  exists a v, p = Some a /\ heap s' !! a = Some v /\ dim v = d /\ wf_volume v.
Proof.
  unfold NewVolume. intros Hnew.
  apply bind_inv_ok in Hnew as (w0 & s1 & Hw0 & Hnew).
  apply lift_inv_ok in Hw0 as [Hw0 ->].
  apply bind_inv_ok in Hnew as (dw0 & s1 & Hdw0 & Hnew).
  apply lift_inv_ok in Hdw0 as [Hdw0 ->].
  apply make_inv in Hw0 as [Hn Hw0]. apply make_inv in Hdw0 as [_ Hdw0].
  apply bind_inv_ok in Hnew as (w1 & s1 & Hw1 & Halloc).
  assert (Hlen1 : len w1 = Dimensions_Size d).
  { set (opts := fold_left (fun o optFn => optFn o) optFuncs
                   (mkOptions false false f0 None)) in Hw1.
    destruct (HasInitialValue opts).
    - destruct (negb (Zero opts)).
      + unfold for_range in Hw1.
        eapply (for_loop_invariant (fun wi _ => len wi = Dimensions_Size d));
          [|exact Hw0|exact Hw1].
        intros i a st a' st' Ha Hset.
        apply lift_inv_ok in Hset as [Hset _].
        apply slice_set_inv in Hset as [_ ->].
        unfold len in *. rewrite length_insert. assumption.
      + injection Hw1 as <- _. assumption.
    - destruct (Weights opts) as [ws|].
      + destruct (negb (len ws =? Dim_Z d)); [discriminate|].
        destruct (negb (Dim_X d =? 1)); [discriminate|].
        destruct (negb (Dim_Y d =? 1)); [discriminate|].
        injection Hw1 as <- _. unfold copy, len in *.
        rewrite length_app, length_take, length_drop. lia.
      + unfold for_range in Hw1.
        eapply (for_loop_invariant (fun wi _ => len wi = Dimensions_Size d));
          [|exact Hw0|exact Hw1].
        intros i a st a' st' Ha Hstep.
        apply bind_inv_ok in Hstep as (r & st1 & _ & Hset).
        apply lift_inv_ok in Hset as [Hset _].
        apply slice_set_inv in Hset as [_ ->].
        unfold len in *. rewrite length_insert. assumption. }
  unfold alloc in Halloc. injection Halloc as <- <-.
  eexists _, _. split; [reflexivity|]. split.
  { simpl. rewrite lookup_app_r by lia. rewrite Nat.sub_diag. reflexivity. }
  split; [reflexivity|]. split; simpl; assumption.
Qed.

(** The layers that NewSoftmaxLayer and NewSVMLayer return have an
    output of dimensions 1 x 1 x n, with n the size of their input. *)
Lemma NewSoftmaxLayer_outDim (def : LayerDef F) (s s' : State F)
  (l : softmaxLayer F) :
  NewSoftmaxLayer def s = Ok (l, s') ->
  softmax_outDim l = NewDimensions 1 1 (Dimensions_Size (def_Input def))
  /\ softmax_inVol l = None.
Proof.
  unfold NewSoftmaxLayer.
  destruct (negb (String.eqb (def_Type def) SoftMax)); [discriminate|].
  destruct (def_LayerConfig def); try discriminate.
  intros [= <- _]. split; reflexivity.
Qed.

Lemma NewSVMLayer_outDim (def : LayerDef F) (s s' : State F) (l : svmLayer) :
  NewSVMLayer def s = Ok (l, s') ->
  svm_outDim l = NewDimensions 1 1 (Dimensions_Size (def_Input def)).
Proof.
  unfold NewSVMLayer.
  destruct (negb (String.eqb (def_Type def) SVM)); [discriminate|].
  destruct (def_LayerConfig def); try discriminate.
  intros [= <- _]. reflexivity.
Qed.

End Invariants.

(** * Further properties *)

(** ** The index of a position *)

Lemma Dimensions_Size_exact (d : Dimensions) :
  dims_ok d -> Dimensions_Size d = Dim_X d * Dim_Y d * Dim_Z d.
Proof.
  intros (HX & HY & HZ & Hsize). unfold Dimensions_Size, GoInt.mul.
  assert (Hxy : 0 < Dim_X d * Dim_Y d) by nia.
  assert (Hxy' : Dim_X d * Dim_Y d <= Dim_X d * Dim_Y d * Dim_Z d) by nia.
  rewrite (wrap_small (Dim_X d * Dim_Y d)) by (unfold GoInt.in_range; lia).
  apply wrap_small. unfold GoInt.in_range. lia.
Qed.

Lemma getIndex_exact (d : Dimensions) (x y z : Z) :
  dims_ok d -> in_bounds d x y z ->
  getIndex d x y z = (Dim_X d * y + x) * Dim_Z d + z
  /\ 0 <= getIndex d x y z < Dim_X d * Dim_Y d * Dim_Z d.
Proof.
  intros (HX & HY & HZ & Hsize) (Hx & Hy & Hz).
  assert (H1 : 0 <= Dim_X d * y <= Dim_X d * (Dim_Y d - 1)) by nia.
  assert (H2 : 0 <= Dim_X d * y + x <= Dim_X d * Dim_Y d - 1) by nia.
  assert (H3 : 0 <= (Dim_X d * y + x) * Dim_Z d
               <= (Dim_X d * Dim_Y d - 1) * Dim_Z d) by nia.
  assert (H4 : (Dim_X d * Dim_Y d - 1) * Dim_Z d + Dim_Z d
               = Dim_X d * Dim_Y d * Dim_Z d) by ring.
  assert (H5 : Dim_X d * Dim_Y d <= Dim_X d * Dim_Y d * Dim_Z d) by nia.
  unfold getIndex, GoInt.add, GoInt.mul.
  rewrite (wrap_small (Dim_X d * y)) by (unfold GoInt.in_range; lia).
  rewrite (wrap_small (Dim_X d * y + x)) by (unfold GoInt.in_range; lia).
  rewrite (wrap_small ((Dim_X d * y + x) * Dim_Z d))
    by (unfold GoInt.in_range; lia).
  rewrite wrap_small by (unfold GoInt.in_range; lia).
  split; [reflexivity|lia].
Qed.

(** Inside the dimensions the index is in range, and two positions with
    the same index are the same. *)
Lemma getIndex_in_range (d : Dimensions) (x y z : Z) :
  dims_ok d -> in_bounds d x y z ->
  0 <= getIndex d x y z < Dimensions_Size d.
Proof.
  intros Hd Hb. rewrite (Dimensions_Size_exact d Hd).
  apply (getIndex_exact d x y z Hd Hb).
Qed.

Lemma getIndex_injective (d : Dimensions) (x y z x' y' z' : Z) :
  dims_ok d ->
  in_bounds d x y z -> in_bounds d x' y' z' ->
  getIndex d x y z = getIndex d x' y' z' -> x = x' /\ y = y' /\ z = z'.
Proof.
  intros Hd Hb Hb' Heq. pose proof Hd as (HX & HY & HZ & Hfit).
  destruct (getIndex_exact d x y z Hd Hb) as [E _].
  destruct (getIndex_exact d x' y' z' Hd Hb') as [E' _].
  rewrite E, E' in Heq. destruct Hb as (Hx & Hy & Hz), Hb' as (Hx' & Hy' & Hz').
  assert (Hxy : Dim_X d * y + x = Dim_X d * y' + x').
  { assert (Hq : ((Dim_X d * y + x) * Dim_Z d + z) / Dim_Z d
                 = ((Dim_X d * y' + x') * Dim_Z d + z') / Dim_Z d)
      by (rewrite Heq; reflexivity).
    rewrite !Z.div_add_l, !Z.div_small, !Z.add_0_r in Hq by lia.
    exact Hq. }
  assert (Hzz : z = z') by lia.
  assert (Hyy : y = y').
  { assert (Hq : (x + y * Dim_X d) / Dim_X d = (x' + y' * Dim_X d) / Dim_X d).
    { f_equal. lia. }
    rewrite !Z.div_add, !Z.div_small, !Z.add_0_l in Hq by lia.
    exact Hq. }
  subst y'. split; [lia|]. split; [reflexivity|assumption].
Qed.

(** X1.  On dimensions of a non-empty volume whose size fits an int,
    getIndex maps the positions inside the dimensions one-to-one onto
    the indices [0, size): the index of a position is in that range,
    two positions with the same index are the same, and every index of
    the range is the index of a position. *)
Theorem getIndex_bijection (d : Dimensions) :
  dims_ok d ->
  (forall x y z, in_bounds d x y z -> 0 <= getIndex d x y z < Dimensions_Size d)
  /\ (forall x y z x' y' z',
        in_bounds d x y z -> in_bounds d x' y' z' ->
        getIndex d x y z = getIndex d x' y' z' -> x = x' /\ y = y' /\ z = z')
  /\ (forall i, 0 <= i < Dimensions_Size d ->
        exists x y z, in_bounds d x y z /\ getIndex d x y z = i).
Proof.
  intros Hd. pose proof (Dimensions_Size_exact d Hd) as Hsize.
  pose proof Hd as (HX & HY & HZ & Hfit).
  split; [|split].
  - intros x y z Hb. apply getIndex_in_range; assumption.
  - intros x y z x' y' z' Hb Hb' Heq.
    apply (getIndex_injective d x y z x' y' z'); assumption.
  - intros i Hi. rewrite Hsize in Hi.
    set (q := i / Dim_Z d).
    assert (Hq : 0 <= q < Dim_X d * Dim_Y d).
    { unfold q. split; [apply Z.div_pos; lia|].
      apply Z.div_lt_upper_bound; lia. }
    assert (Hb : in_bounds d (q mod Dim_X d) (q / Dim_X d) (i mod Dim_Z d)).
    { unfold in_bounds. split; [apply Z.mod_pos_bound; lia|].
      split; [|apply Z.mod_pos_bound; lia].
      split; [apply Z.div_pos; lia|].
      apply Z.div_lt_upper_bound; lia. }
    exists (q mod Dim_X d), (q / Dim_X d), (i mod Dim_Z d).
    split; [exact Hb|].
    destruct (getIndex_exact d _ _ _ Hd Hb) as [E _]. rewrite E.
    rewrite <- (Z.div_mod q (Dim_X d)) by lia. unfold q.
    rewrite Z.mul_comm. symmetry. apply Z.div_mod. lia.
Qed.

Lemma getIndex_bijection_witness :
  (forall x y z, in_bounds dims_234 x y z ->
     0 <= getIndex dims_234 x y z < Dimensions_Size dims_234)
  /\ (forall x y z x' y' z',
        in_bounds dims_234 x y z -> in_bounds dims_234 x' y' z' ->
        getIndex dims_234 x y z = getIndex dims_234 x' y' z' ->
        x = x' /\ y = y' /\ z = z')
  /\ (forall i, 0 <= i < Dimensions_Size dims_234 ->
        exists x y z, in_bounds dims_234 x y z /\ getIndex dims_234 x y z = i).
Proof.
  apply (getIndex_bijection dims_234).
  unfold dims_ok. simpl. lia.
Defined.

(** ** Reading and writing a volume *)

Section VolumeAccess.
Context {F : Type} `{Float64 F}.

Lemma Volume_getIndex_ok (s : State F) (a : nat) (v : Volume F) (x y z : Z) :
  heap s !! a = Some v ->
  Volume_getIndex (Some a) x y z s = Ok (getIndex (dim v) x y z, s).
Proof.
  intros Hv. unfold Volume_getIndex.
  rewrite (bind_ok _ _ _ _ _ (deref_ok _ _ _ Hv)). reflexivity.
Qed.

Lemma wf_volume_lengths (v : Volume F) :
  wf_volume v -> 0 <= Dimensions_Size (dim v)
  /\ length (w v) = Z.to_nat (Dimensions_Size (dim v))
  /\ length (dw v) = Z.to_nat (Dimensions_Size (dim v)).
Proof. intros [Hw Hdw]. unfold len in *. lia. Qed.

(** X2.  On a well-formed, non-empty volume, Set at a position inside
    the dimensions succeeds; Get at that position then returns the
    value set, Get at every other position inside the dimensions
    returns what it returned before, and the gradients are
    untouched. *)
Theorem Volume_Set_Get (s : State F) (a : nat) (v : Volume F) (x y z : Z)
  (val : F) :
  heap s !! a = Some v ->
  wf_volume v ->
  dims_ok (dim v) ->
  in_bounds (dim v) x y z ->
  exists s',
    Volume_Set (Some a) x y z val s = Ok (tt, s')
    /\ Volume_Get (Some a) x y z s' = Ok (val, s')
    /\ (forall x' y' z',
          in_bounds (dim v) x' y' z' -> (x', y', z') <> (x, y, z) ->
          exists old,
            Volume_Get (Some a) x' y' z' s = Ok (old, s)
            /\ Volume_Get (Some a) x' y' z' s' = Ok (old, s'))
    /\ Volume_Gradients (Some a) s' = Ok (dw v, s').
Proof.
  intros Hv Hwf Hd Hb.
  pose proof (fun x y z => getIndex_in_range (dim v) x y z Hd) as Hrange.
  pose proof (fun x y z x' y' z' => getIndex_injective (dim v) x y z x' y' z' Hd)
    as Hinj.
  destruct (wf_volume_lengths v Hwf) as (Hsz & Hlw & Hldw).
  pose proof (Hrange x y z Hb) as Hi.
  set (i := getIndex (dim v) x y z) in *.
  set (v' := mkVolume (dim v) (<[Z.to_nat i := val]> (w v)) (dw v)).
  assert (Hv' : heap (set_vol s a v') !! a = Some v').
  { eapply set_vol_lookup; eassumption. }
  exists (set_vol s a v'). split; [|split; [|split]].
  - unfold Volume_Set.
    rewrite (bind_ok _ _ _ _ _ (Volume_getIndex_ok _ _ _ x y z Hv)). fold i.
    replace i with (Z.of_nat (Z.to_nat i)) at 1 by lia.
    apply Volume_SetByIndex_ok; [assumption|lia].
  - unfold Volume_Get.
    rewrite (bind_ok _ _ _ _ _ (Volume_getIndex_ok _ _ _ x y z Hv')).
    simpl dim. fold i.
    replace i with (Z.of_nat (Z.to_nat i)) at 1 by lia.
    eapply Volume_GetByIndex_ok; [exact Hv'|].
    simpl. apply list_lookup_insert_eq. lia.
  - intros x' y' z' Hb' Hne.
    pose proof (Hrange x' y' z' Hb') as Hi'.
    set (i' := getIndex (dim v) x' y' z') in *.
    assert (Hii : i' <> i).
    { intros Heq. apply Hne.
      destruct (Hinj x' y' z' x y z Hb' Hb Heq) as (-> & -> & ->). reflexivity. }
    destruct (lookup_lt_is_Some_2 (w v) (Z.to_nat i') ltac:(lia)) as [old Hold].
    exists old. split.
    + unfold Volume_Get.
      rewrite (bind_ok _ _ _ _ _ (Volume_getIndex_ok _ _ _ x' y' z' Hv)).
      fold i'. replace i' with (Z.of_nat (Z.to_nat i')) at 1 by lia.
      eapply Volume_GetByIndex_ok; eassumption.
    + unfold Volume_Get.
      rewrite (bind_ok _ _ _ _ _ (Volume_getIndex_ok _ _ _ x' y' z' Hv')).
      simpl dim. fold i'. replace i' with (Z.of_nat (Z.to_nat i')) at 1 by lia.
      eapply Volume_GetByIndex_ok; [exact Hv'|].
      simpl. rewrite list_lookup_insert_ne by lia. assumption.
  - unfold Volume_Gradients.
    rewrite (bind_ok _ _ _ _ _ (deref_ok _ _ _ Hv')). reflexivity.
Qed.

(** X3.  On a well-formed volume the accesses by linear index panic
    when the index is outside [0, size), and succeed inside it. *)
Theorem Volume_ByIndex_bounds (s : State F) (a : nat) (v : Volume F)
  (index : Z) (val : F) :
  heap s !! a = Some v ->
  wf_volume v ->
  (index < 0 \/ Dimensions_Size (dim v) <= index ->
   Volume_GetByIndex (Some a) index s = Panic "index out of range"
   /\ Volume_SetByIndex (Some a) index val s = Panic "index out of range"
   /\ Volume_GetGradByIndex (Some a) index s = Panic "index out of range"
   /\ Volume_SetGradByIndex (Some a) index val s = Panic "index out of range")
  /\ (0 <= index < Dimensions_Size (dim v) ->
      (exists x, Volume_GetByIndex (Some a) index s = Ok (x, s))
      /\ (exists s', Volume_SetByIndex (Some a) index val s = Ok (tt, s'))
      /\ (exists x, Volume_GetGradByIndex (Some a) index s = Ok (x, s))
      /\ (exists s', Volume_SetGradByIndex (Some a) index val s = Ok (tt, s'))).
Proof.
  intros Hv Hwf. destruct (wf_volume_lengths v Hwf) as (Hsz & Hlw & Hldw).
  split.
  - intros Hout.
    assert (Hgw : slice_get (w v) index = Panic "index out of range").
    { apply slice_get_out_of_range. unfold len. lia. }
    assert (Hgd : slice_get (dw v) index = Panic "index out of range").
    { apply slice_get_out_of_range. unfold len. lia. }
    assert (Hsw : slice_set (w v) index val = Panic "index out of range").
    { unfold slice_set. destruct (Z.ltb_spec index 0); [reflexivity|].
      destruct (Nat.ltb_spec (Z.to_nat index) (length (w v))); [lia|reflexivity]. }
    assert (Hsd : slice_set (dw v) index val = Panic "index out of range").
    { unfold slice_set. destruct (Z.ltb_spec index 0); [reflexivity|].
      destruct (Nat.ltb_spec (Z.to_nat index) (length (dw v))); [lia|reflexivity]. }
    unfold Volume_GetByIndex, Volume_SetByIndex, Volume_GetGradByIndex,
      Volume_SetGradByIndex.
    rewrite !(bind_ok _ _ _ _ _ (deref_ok _ _ _ Hv)).
    unfold bind, lift. rewrite Hgw, Hgd, Hsw, Hsd. repeat split.
  - intros Hin.
    destruct (lookup_lt_is_Some_2 (w v) (Z.to_nat index) ltac:(lia)) as [x Hx].
    destruct (lookup_lt_is_Some_2 (dw v) (Z.to_nat index) ltac:(lia)) as [g Hg].
    replace index with (Z.of_nat (Z.to_nat index)) by lia.
    split; [exists x; eapply Volume_GetByIndex_ok; eassumption|].
    split; [eexists; eapply Volume_SetByIndex_ok; [eassumption|lia]|].
    split; [exists g; eapply Volume_GetGradByIndex_ok; eassumption|].
    eexists; eapply Volume_SetGradByIndex_ok; [eassumption|lia].
Qed.

(** X4.  The positional accessors do not check the coordinates against
    the dimensions, only the linear index against the arrays: Get at
    x = width, one past the end of a row, does not panic and reads the
    first element of the next row. *)
Theorem Volume_Get_past_row_end (s : State F) (a : nat) (v : Volume F)
  (y z : Z) :
  heap s !! a = Some v ->
  wf_volume v ->
  dims_ok (dim v) ->
  0 <= y -> y + 1 < Dim_Y (dim v) -> 0 <= z < Dim_Z (dim v) ->
  exists val,
    Volume_Get (Some a) (Dim_X (dim v)) y z s = Ok (val, s)
    /\ Volume_Get (Some a) 0 (y + 1) z s = Ok (val, s).
Proof.
  intros Hv Hwf Hd Hy Hy1 Hz.
  destruct (wf_volume_lengths v Hwf) as (Hsz & Hlw & Hldw).
  pose proof (Dimensions_Size_exact _ Hd) as Hsize.
  assert (Hb : in_bounds (dim v) 0 (y + 1) z).
  { destruct Hd as (HX & _). unfold in_bounds. lia. }
  destruct (getIndex_exact _ _ _ _ Hd Hb) as [E Hr].
  assert (Hsame : getIndex (dim v) (Dim_X (dim v)) y z
                  = getIndex (dim v) 0 (y + 1) z).
  { rewrite E. destruct Hd as (HX & HY & HZ & Hfit).
    assert (H1 : 0 <= Dim_X (dim v) * y <= Dim_X (dim v) * Dim_Y (dim v)) by nia.
    assert (H2 : 0 <= Dim_X (dim v) * y + Dim_X (dim v)
                 <= Dim_X (dim v) * Dim_Y (dim v)) by nia.
    assert (H5 : Dim_X (dim v) * Dim_Y (dim v)
                 <= Dim_X (dim v) * Dim_Y (dim v) * Dim_Z (dim v)) by nia.
    assert (H3 : 0 <= (Dim_X (dim v) * y + Dim_X (dim v)) * Dim_Z (dim v) + z
                 < Dim_X (dim v) * Dim_Y (dim v) * Dim_Z (dim v)).
    { replace ((Dim_X (dim v) * y + Dim_X (dim v)) * Dim_Z (dim v) + z)
        with ((Dim_X (dim v) * (y + 1) + 0) * Dim_Z (dim v) + z) by ring.
      lia. }
    unfold getIndex, GoInt.add, GoInt.mul.
    rewrite (wrap_small (Dim_X (dim v) * y)) by (unfold GoInt.in_range; lia).
    rewrite (wrap_small (Dim_X (dim v) * y + Dim_X (dim v)))
      by (unfold GoInt.in_range; lia).
    rewrite (wrap_small ((Dim_X (dim v) * y + Dim_X (dim v)) * Dim_Z (dim v)))
      by (unfold GoInt.in_range; nia).
    rewrite wrap_small by (unfold GoInt.in_range; lia). ring. }
  set (i := getIndex (dim v) 0 (y + 1) z) in *.
  destruct (lookup_lt_is_Some_2 (w v) (Z.to_nat i) ltac:(lia)) as [val Hval].
  exists val. unfold Volume_Get.
  rewrite !(bind_ok _ _ _ _ _ (Volume_getIndex_ok _ _ _ _ _ _ Hv)).
  rewrite Hsame. fold i. replace i with (Z.of_nat (Z.to_nat i)) by lia.
  split; eapply Volume_GetByIndex_ok; eassumption.
Qed.

End VolumeAccess.

Lemma Volume_Set_Get_witness :
  exists s',
    Volume_Set (Some 0%nat) 1 2 3 7%R store_234 = Ok (tt, s')
    /\ Volume_Get (Some 0%nat) 1 2 3 s' = Ok (7%R, s')
    /\ (forall x' y' z',
          in_bounds (dim volume_234) x' y' z' -> (x', y', z') <> (1, 2, 3) ->
          exists old,
            Volume_Get (Some 0%nat) x' y' z' store_234 = Ok (old, store_234)
            /\ Volume_Get (Some 0%nat) x' y' z' s' = Ok (old, s'))
    /\ Volume_Gradients (Some 0%nat) s' = Ok (dw volume_234, s').
Proof.
  apply (Volume_Set_Get store_234 0%nat volume_234 1 2 3 7%R).
  - reflexivity.
  - split; reflexivity.
  - unfold dims_ok. simpl. lia.
  - unfold in_bounds. simpl. lia.
Defined.

Lemma Volume_ByIndex_bounds_witness :
  (24 < 0 \/ Dimensions_Size (dim volume_234) <= 24 ->
   Volume_GetByIndex (Some 0%nat) 24 store_234 = Panic "index out of range"
   /\ Volume_SetByIndex (Some 0%nat) 24 7%R store_234 = Panic "index out of range"
   /\ Volume_GetGradByIndex (Some 0%nat) 24 store_234 = Panic "index out of range"
   /\ Volume_SetGradByIndex (Some 0%nat) 24 7%R store_234
      = Panic "index out of range")
  /\ (0 <= 24 < Dimensions_Size (dim volume_234) ->
      (exists x, Volume_GetByIndex (Some 0%nat) 24 store_234 = Ok (x, store_234))
      /\ (exists s', Volume_SetByIndex (Some 0%nat) 24 7%R store_234 = Ok (tt, s'))
      /\ (exists x, Volume_GetGradByIndex (Some 0%nat) 24 store_234
                    = Ok (x, store_234))
      /\ (exists s', Volume_SetGradByIndex (Some 0%nat) 24 7%R store_234
                     = Ok (tt, s'))).
Proof.
  apply (Volume_ByIndex_bounds store_234 0%nat volume_234 24 7%R).
  - reflexivity.
  - split; reflexivity.
Defined.

Lemma Volume_Get_past_row_end_witness :
  exists val,
    Volume_Get (Some 0%nat) (Dim_X (dim volume_234)) 1 2 store_234
    = Ok (val, store_234)
    /\ Volume_Get (Some 0%nat) 0 (1 + 1) 2 store_234 = Ok (val, store_234).
Proof.
  apply (Volume_Get_past_row_end store_234 0%nat volume_234 1 2).
  - reflexivity.
  - split; reflexivity.
  - unfold dims_ok. simpl. lia.
  - lia.
  - simpl. lia.
  - simpl. lia.
Defined.

(** ** The invariant of the volumes *)

Section VolumeInvariant.
Context {F : Type} `{Float64 F} `{GoRand F}.

Lemma deref_inv (p : ptr) (s s' : State F) (v : Volume F) :
  deref p s = Ok (v, s') ->
  s' = s /\ exists a, p = Some a /\ heap s !! a = Some v.
Proof.
  unfold deref. destruct p as [a|]; [|discriminate].
  destruct (heap s !! a) as [v0|] eqn:Hv; [|discriminate].
  intros [= -> ->]. split; [reflexivity|]. exists a. split; [reflexivity|assumption].
Qed.

Lemma assign_inv (p : ptr) (v : Volume F) (s s' : State F) (u : unit) :
  assign p v s = Ok (u, s') ->
  exists a, p = Some a /\ (a < length (heap s))%nat /\ s' = set_vol s a v.
Proof.
  unfold assign. destruct p as [a|]; [|discriminate].
  destruct (Nat.ltb_spec a (length (heap s))); [|discriminate].
  intros [= _ <-]. exists a. split; [reflexivity|]. split; [assumption|reflexivity].
Qed.

Lemma wf_state_lookup (s : State F) (a : nat) (v : Volume F) :
  wf_state s -> heap s !! a = Some v -> wf_volume v.
Proof. unfold wf_state. intros Hs Hv. eapply Forall_lookup_1; eassumption. Qed.

Lemma wf_state_set_vol (s : State F) (a : nat) (v : Volume F) :
  wf_state s -> wf_volume v -> wf_state (set_vol s a v).
Proof. unfold wf_state, set_vol. simpl. intros Hs Hv. apply Forall_insert; assumption. Qed.

Lemma copy_length (dst src : list F) : length (copy dst src) = length dst.
Proof. unfold copy. rewrite length_app, length_take, length_drop. lia. Qed.

Lemma getIndex_state (p : ptr) (x y z i : Z) (s s' : State F) :
  Volume_getIndex p x y z s = Ok (i, s') -> s' = s.
Proof.
  unfold Volume_getIndex. intros Hb.
  apply bind_inv_ok in Hb as (v & s1 & Hd & Hr).
  apply deref_inv in Hd as [-> _]. injection Hr as _ <-. reflexivity.
Qed.

Lemma GetByIndex_state (p : ptr) (i : Z) (x : F) (s s' : State F) :
  Volume_GetByIndex p i s = Ok (x, s') -> s' = s.
Proof.
  unfold Volume_GetByIndex. intros Hb.
  apply bind_inv_ok in Hb as (v & s1 & Hd & Hr).
  apply deref_inv in Hd as [-> _]. apply lift_inv_ok in Hr as [_ ->]. reflexivity.
Qed.

Lemma GetGradByIndex_state (p : ptr) (i : Z) (x : F) (s s' : State F) :
  Volume_GetGradByIndex p i s = Ok (x, s') -> s' = s.
Proof.
  unfold Volume_GetGradByIndex. intros Hb.
  apply bind_inv_ok in Hb as (v & s1 & Hd & Hr).
  apply deref_inv in Hd as [-> _]. apply lift_inv_ok in Hr as [_ ->]. reflexivity.
Qed.

Lemma Size_state (p : ptr) (n : Z) (s s' : State F) :
  Volume_Size p s = Ok (n, s') -> s' = s.
Proof.
  unfold Volume_Size. intros Hb.
  apply bind_inv_ok in Hb as (v & s1 & Hd & Hr).
  apply deref_inv in Hd as [-> _]. injection Hr as _ <-. reflexivity.
Qed.

Lemma SetByIndex_keeps (p : ptr) (i : Z) (x : F) (s s' : State F) (u : unit) :
  wf_state s -> Volume_SetByIndex p i x s = Ok (u, s') -> wf_state s'.
Proof.
  intros Hs Hb. unfold Volume_SetByIndex in Hb.
  apply bind_inv_ok in Hb as (v & s1 & Hd & Hb).
  apply deref_inv in Hd as [-> (a & -> & Hv)].
  apply bind_inv_ok in Hb as (w' & s1 & Hset & Hb).
  apply lift_inv_ok in Hset as [Hset ->].
  apply slice_set_inv in Hset as [_ ->].
  apply assign_inv in Hb as (a' & [= <-] & _ & ->).
  apply wf_state_set_vol; [assumption|].
  destruct (wf_state_lookup _ _ _ Hs Hv) as [Hw Hdw].
  split; simpl; [|assumption]. unfold len in *. rewrite length_insert. assumption.
Qed.

Lemma SetGradByIndex_keeps (p : ptr) (i : Z) (x : F) (s s' : State F) (u : unit) :
  wf_state s -> Volume_SetGradByIndex p i x s = Ok (u, s') -> wf_state s'.
Proof.
  intros Hs Hb. unfold Volume_SetGradByIndex in Hb.
  apply bind_inv_ok in Hb as (v & s1 & Hd & Hb).
  apply deref_inv in Hd as [-> (a & -> & Hv)].
  apply bind_inv_ok in Hb as (w' & s1 & Hset & Hb).
  apply lift_inv_ok in Hset as [Hset ->].
  apply slice_set_inv in Hset as [_ ->].
  apply assign_inv in Hb as (a' & [= <-] & _ & ->).
  apply wf_state_set_vol; [assumption|].
  destruct (wf_state_lookup _ _ _ Hs Hv) as [Hw Hdw].
  split; simpl; [assumption|]. unfold len in *. rewrite length_insert. assumption.
Qed.

Lemma AddGradByIndex_keeps (p : ptr) (i : Z) (x : F) (s s' : State F) (u : unit) :
  wf_state s -> Volume_AddGradByIndex p i x s = Ok (u, s') -> wf_state s'.
Proof.
  intros Hs Hb. unfold Volume_AddGradByIndex in Hb.
  apply bind_inv_ok in Hb as (old & s1 & Hg & Hb).
  apply GetGradByIndex_state in Hg as ->.
  eapply SetGradByIndex_keeps; eassumption.
Qed.

Lemma MultByIndex_keeps (p : ptr) (i : Z) (x : F) (s s' : State F) (u : unit) :
  wf_state s -> Volume_MultByIndex p i x s = Ok (u, s') -> wf_state s'.
Proof.
  intros Hs Hb. unfold Volume_MultByIndex in Hb.
  apply bind_inv_ok in Hb as (old & s1 & Hg & Hb).
  apply GetByIndex_state in Hg as ->.
  eapply SetByIndex_keeps; eassumption.
Qed.

(** A loop over a volume keeps the invariant when its body does. *)
Lemma for_range_keeps {A} (n : Z) (body : Z -> A -> M (State F) A) (acc acc' : A)
  (s s' : State F) :
  (forall i a st a' st', wf_state st -> body i a st = Ok (a', st') -> wf_state st') ->
  wf_state s -> for_range n body acc s = Ok (acc', s') -> wf_state s'.
Proof.
  intros Hbody Hs Hloop. unfold for_range in Hloop.
  eapply (for_loop_invariant (fun _ st => wf_state st)); [|exact Hs|exact Hloop].
  intros i a st a' st' Hst Hb. eapply Hbody; eassumption.
Qed.

(** What NewVolume returns: a fresh address after the volumes of the
    store, which are left as they were, holding a well-formed volume of
    the dimensions asked for, with zero gradients. *)
Lemma NewVolume_inv (d : Dimensions) (optFuncs : list (OptionFunc F))
  (s s' : State F) (p : ptr) :
  NewVolume d optFuncs s = Ok (p, s') ->
  exists v,
    p = Some (length (heap s)) /\ heap s' = heap s ++ [v]
    /\ dim v = d /\ wf_volume v
    /\ dw v = zeros (Z.to_nat (Dimensions_Size d)).
Proof.
  unfold NewVolume. intros Hnew.
  apply bind_inv_ok in Hnew as (w0 & s1 & Hw0 & Hnew).
  apply lift_inv_ok in Hw0 as [Hw0 ->].
  apply bind_inv_ok in Hnew as (dw0 & s1 & Hdw0 & Hnew).
  apply lift_inv_ok in Hdw0 as [Hdw0 ->].
  assert (Hdwz : dw0 = zeros (Z.to_nat (Dimensions_Size d))).
  { unfold make in Hdw0. destruct (Dimensions_Size d <? 0); [discriminate|].
    injection Hdw0 as <-. reflexivity. }
  apply make_inv in Hw0 as [Hn Hw0]. apply make_inv in Hdw0 as [_ Hdw0].
  apply bind_inv_ok in Hnew as (w1 & s1 & Hw1 & Halloc).
  assert (Hlen1 : len w1 = Dimensions_Size d /\ heap s1 = heap s).
  { set (opts := fold_left (fun o optFn => optFn o) optFuncs
                   (mkOptions false false f0 None)) in Hw1.
    destruct (HasInitialValue opts).
    - destruct (negb (Zero opts)).
      + unfold for_range in Hw1.
        eapply (for_loop_invariant
                  (fun wi st => len wi = Dimensions_Size d /\ heap st = heap s));
          [|split; [exact Hw0|reflexivity]|exact Hw1].
        intros i a st a' st' [Ha Hst] Hset.
        apply lift_inv_ok in Hset as [Hset ->].
        apply slice_set_inv in Hset as [_ ->].
        unfold len in *. rewrite length_insert. split; assumption.
      + injection Hw1 as <- <-. split; [assumption|reflexivity].
    - destruct (Weights opts) as [ws|].
      + destruct (negb (len ws =? Dim_Z d)); [discriminate|].
        destruct (negb (Dim_X d =? 1)); [discriminate|].
        destruct (negb (Dim_Y d =? 1)); [discriminate|].
        injection Hw1 as <- <-. unfold len in *. rewrite copy_length.
        split; [assumption|reflexivity].
      + unfold for_range in Hw1.
        eapply (for_loop_invariant
                  (fun wi st => len wi = Dimensions_Size d /\ heap st = heap s));
          [|split; [exact Hw0|reflexivity]|exact Hw1].
        intros i a st a' st' [Ha Hst] Hstep.
        apply bind_inv_ok in Hstep as (r & st1 & Hdraw & Hset).
        unfold draw_NormFloat64 in Hdraw. injection Hdraw as _ <-.
        apply lift_inv_ok in Hset as [Hset ->].
        apply slice_set_inv in Hset as [_ ->].
        unfold len in *. rewrite length_insert. split; assumption. }
  destruct Hlen1 as [Hlen1 Hheap].
  unfold alloc in Halloc. injection Halloc as <- <-. simpl. rewrite Hheap.
  eexists. split; [reflexivity|]. split; [reflexivity|].
  split; [reflexivity|]. split; [split; simpl; assumption|]. simpl. assumption.
Qed.

Lemma NewVolume_keeps (d : Dimensions) (optFuncs : list (OptionFunc F))
  (s s' : State F) (p : ptr) :
  wf_state s -> NewVolume d optFuncs s = Ok (p, s') -> wf_state s'.
Proof.
  intros Hs Hnew. apply NewVolume_inv in Hnew as (v & _ & Hheap & _ & Hwf & _).
  unfold wf_state. rewrite Hheap. apply Forall_app. split; [assumption|].
  apply Forall_cons. split; [assumption|apply Forall_nil_2].
Qed.

Lemma Clone_keeps (v : ptr) (s s' : State F) (p : ptr) :
  wf_state s -> Volume_Clone v s = Ok (p, s') -> wf_state s'.
Proof.
  intros Hs Hb. unfold Volume_Clone in Hb.
  apply bind_inv_ok in Hb as (vol0 & s1 & Hd & Hb).
  apply deref_inv in Hd as [-> _].
  apply bind_inv_ok in Hb as (q & s1 & Hnew & Hb).
  pose proof (NewVolume_keeps _ _ _ _ _ Hs Hnew) as Hs1.
  apply bind_inv_ok in Hb as (vol & s2 & Hd & Hb).
  apply deref_inv in Hd as [-> (a & -> & Hvol)].
  apply bind_inv_ok in Hb as (src & s2 & Hd & Hb).
  apply deref_inv in Hd as [-> _].
  apply bind_inv_ok in Hb as (u & s2 & Hass & Hret).
  apply assign_inv in Hass as (a' & _ & _ & ->).
  injection Hret as _ <-.
  apply wf_state_set_vol; [assumption|].
  destruct (wf_state_lookup _ _ _ Hs1 Hvol) as [Hw Hdw].
  split; simpl; [|assumption]. unfold len in *. rewrite copy_length. assumption.
Qed.

(** X5.  NewVolume returns a fresh address: no volume of the store
    lives there, and every volume of the store is afterwards found
    where it was, unchanged; exactly one volume is added.  The volume
    at the new address has the dimensions asked for, both its arrays
    have the length [size], and its gradients are zero, whatever the
    options. *)
Theorem NewVolume_allocates (d : Dimensions) (optFuncs : list (OptionFunc F))
  (s s' : State F) (p : ptr) :
  NewVolume d optFuncs s = Ok (p, s') ->
  (forall a v0, heap s !! a = Some v0 ->
                p <> Some a /\ heap s' !! a = Some v0)
  /\ length (heap s') = S (length (heap s))
  /\ exists v,
       deref p s' = Ok (v, s') /\ dim v = d /\ wf_volume v
       /\ dw v = zeros (Z.to_nat (Dimensions_Size d)).
Proof.
  intros Hnew.
  destruct (NewVolume_inv _ _ _ _ _ Hnew) as (v & -> & Hheap & Hdim & Hwf & Hdw).
  split; [|split].
  - intros a v0 Ha. pose proof (lookup_lt_Some _ _ _ Ha) as Hlt. split.
    + intros Heq. injection Heq as Heq. lia.
    + rewrite Hheap, lookup_app_l by assumption. assumption.
  - rewrite Hheap, length_app. simpl. lia.
  - exists v. split; [|auto].
    apply deref_ok. rewrite Hheap, lookup_app_r by lia.
    rewrite Nat.sub_diag. reflexivity.
Qed.

(** X6.  Every operation of a volume keeps the invariant of the store
    (in each volume both arrays have the length [size]): the writes by
    index and by position, ZeroGrad, SetConst, AddFrom, AddFromScaled,
    and the allocations by NewVolume, Clone and CloneAndZero. *)
Theorem volume_operations_keep_invariant (s : State F) :
  wf_state s ->
  (forall p i x u s', Volume_SetByIndex p i x s = Ok (u, s') -> wf_state s')
  /\ (forall p i x u s', Volume_SetGradByIndex p i x s = Ok (u, s') -> wf_state s')
  /\ (forall p i x u s', Volume_AddGradByIndex p i x s = Ok (u, s') -> wf_state s')
  /\ (forall p i x u s', Volume_MultByIndex p i x s = Ok (u, s') -> wf_state s')
  /\ (forall p x y z val u s', Volume_Set p x y z val s = Ok (u, s') -> wf_state s')
  /\ (forall p x y z val u s', Volume_Add p x y z val s = Ok (u, s') -> wf_state s')
  /\ (forall p x y z val u s', Volume_Mult p x y z val s = Ok (u, s') -> wf_state s')
  /\ (forall p x y z val u s', Volume_SetGrad p x y z val s = Ok (u, s') -> wf_state s')
  /\ (forall p x y z val u s', Volume_AddGrad p x y z val s = Ok (u, s') -> wf_state s')
  /\ (forall p u s', Volume_ZeroGrad p s = Ok (u, s') -> wf_state s')
  /\ (forall p val u s', Volume_SetConst p val s = Ok (u, s') -> wf_state s')
  /\ (forall p q u s', Volume_AddFrom p q s = Ok (u, s') -> wf_state s')
  /\ (forall p q scale u s', Volume_AddFromScaled p q scale s = Ok (u, s') ->
        wf_state s')
  /\ (forall d opts p s', NewVolume d opts s = Ok (p, s') -> wf_state s')
  /\ (forall v p s', Volume_Clone v s = Ok (p, s') -> wf_state s')
  /\ (forall v p s', Volume_CloneAndZero v s = Ok (p, s') -> wf_state s').
Proof.
  intros Hs.
  split; [intros; eapply SetByIndex_keeps; eassumption|].
  split; [intros; eapply SetGradByIndex_keeps; eassumption|].
  split; [intros; eapply AddGradByIndex_keeps; eassumption|].
  split; [intros; eapply MultByIndex_keeps; eassumption|].
  split.
  { intros p x y z val u s' Hb. unfold Volume_Set in Hb.
    apply bind_inv_ok in Hb as (i & s1 & Hi & Hb).
    apply getIndex_state in Hi as ->. eapply SetByIndex_keeps; eassumption. }
  split.
  { intros p x y z val u s' Hb. unfold Volume_Add in Hb.
    apply bind_inv_ok in Hb as (i & s1 & Hi & Hb).
    apply getIndex_state in Hi as ->.
    apply bind_inv_ok in Hb as (old & s1 & Hg & Hb).
    apply GetByIndex_state in Hg as ->. eapply SetByIndex_keeps; eassumption. }
  split.
  { intros p x y z val u s' Hb. unfold Volume_Mult in Hb.
    apply bind_inv_ok in Hb as (i & s1 & Hi & Hb).
    apply getIndex_state in Hi as ->. eapply MultByIndex_keeps; eassumption. }
  split.
  { intros p x y z val u s' Hb. unfold Volume_SetGrad in Hb.
    apply bind_inv_ok in Hb as (i & s1 & Hi & Hb).
    apply getIndex_state in Hi as ->. eapply SetGradByIndex_keeps; eassumption. }
  split.
  { intros p x y z val u s' Hb. unfold Volume_AddGrad in Hb.
    apply bind_inv_ok in Hb as (i & s1 & Hi & Hb).
    apply getIndex_state in Hi as ->. eapply AddGradByIndex_keeps; eassumption. }
  split.
  { intros p u s' Hb. unfold Volume_ZeroGrad in Hb.
    apply bind_inv_ok in Hb as (n & s1 & Hn & Hb).
    apply Size_state in Hn as ->.
    eapply for_range_keeps; [|exact Hs|exact Hb].
    intros i a st a' st' Hst Hstep. cbv beta in Hstep.
    eapply SetGradByIndex_keeps; eassumption. }
  split.
  { intros p val u s' Hb. unfold Volume_SetConst in Hb.
    apply bind_inv_ok in Hb as (n & s1 & Hn & Hb).
    apply Size_state in Hn as ->.
    eapply for_range_keeps; [|exact Hs|exact Hb].
    intros i a st a' st' Hst Hstep. cbv beta in Hstep.
    eapply SetByIndex_keeps; eassumption. }
  split.
  { intros p q u s' Hb. unfold Volume_AddFrom in Hb.
    apply bind_inv_ok in Hb as (n & s1 & Hn & Hb).
    apply Size_state in Hn as ->.
    eapply for_range_keeps; [|exact Hs|exact Hb].
    intros i a st a' st' Hst Hstep. cbv beta in Hstep.
    apply bind_inv_ok in Hstep as (x & st1 & Hx & Hstep).
    apply GetByIndex_state in Hx as ->.
    apply bind_inv_ok in Hstep as (y & st1 & Hy & Hstep).
    apply GetByIndex_state in Hy as ->.
    eapply SetByIndex_keeps; eassumption. }
  split.
  { intros p q scale u s' Hb. unfold Volume_AddFromScaled in Hb.
    apply bind_inv_ok in Hb as (n & s1 & Hn & Hb).
    apply Size_state in Hn as ->.
    eapply for_range_keeps; [|exact Hs|exact Hb].
    intros i a st a' st' Hst Hstep. cbv beta in Hstep.
    apply bind_inv_ok in Hstep as (x & st1 & Hx & Hstep).
    apply GetByIndex_state in Hx as ->.
    apply bind_inv_ok in Hstep as (y & st1 & Hy & Hstep).
    apply GetByIndex_state in Hy as ->.
    eapply SetByIndex_keeps; eassumption. }
  split; [intros; eapply NewVolume_keeps; eassumption|].
  split; [intros; eapply Clone_keeps; eassumption|].
  intros v p s' Hb. unfold Volume_CloneAndZero in Hb.
  apply bind_inv_ok in Hb as (vol & s1 & Hd & Hb).
  apply deref_inv in Hd as [-> _]. eapply NewVolume_keeps; eassumption.
Qed.

End VolumeInvariant.

Lemma NewVolume_allocates_witness :
  (forall a v0, heap input_1234 !! a = Some v0 ->
     Some 1%nat <> Some a
     /\ heap (mkState [mkVolume (NewDimensions 1 1 4) [1; 2; 3; 4]
                         [0; 0; 0; 0];
                       mkVolume (NewDimensions 1 1 2) [3; 3] [0; 0]]%float 0)
          !! a = Some v0)
  /\ length (heap (mkState [mkVolume (NewDimensions 1 1 4) [1; 2; 3; 4]
                              [0; 0; 0; 0];
                            mkVolume (NewDimensions 1 1 2) [3; 3] [0; 0]]%float 0))
     = S (length (heap input_1234))
  /\ exists v,
       deref (Some 1%nat)
         (mkState [mkVolume (NewDimensions 1 1 4) [1; 2; 3; 4] [0; 0; 0; 0];
                   mkVolume (NewDimensions 1 1 2) [3; 3] [0; 0]]%float 0)
       = Ok (v, mkState [mkVolume (NewDimensions 1 1 4) [1; 2; 3; 4]
                           [0; 0; 0; 0];
                         mkVolume (NewDimensions 1 1 2) [3; 3] [0; 0]]%float 0)
       /\ dim v = NewDimensions 1 1 2 /\ wf_volume v
       /\ dw v = zeros (Z.to_nat (Dimensions_Size (NewDimensions 1 1 2))).
Proof.
  apply (@NewVolume_allocates float binary64 ones_source (NewDimensions 1 1 2)
           [WithInitialValue 3%float] input_1234).
  vm_compute. reflexivity.
Defined.

Lemma volume_operations_keep_invariant_witness :
  (forall p i x u s', Volume_SetByIndex p i x store_234 = Ok (u, s') -> wf_state s')
  /\ (forall p i x u s',
        Volume_SetGradByIndex p i x store_234 = Ok (u, s') -> wf_state s')
  /\ (forall p i x u s',
        Volume_AddGradByIndex p i x store_234 = Ok (u, s') -> wf_state s')
  /\ (forall p i x u s', Volume_MultByIndex p i x store_234 = Ok (u, s') -> wf_state s')
  /\ (forall p x y z val u s',
        Volume_Set p x y z val store_234 = Ok (u, s') -> wf_state s')
  /\ (forall p x y z val u s',
        Volume_Add p x y z val store_234 = Ok (u, s') -> wf_state s')
  /\ (forall p x y z val u s',
        Volume_Mult p x y z val store_234 = Ok (u, s') -> wf_state s')
  /\ (forall p x y z val u s',
        Volume_SetGrad p x y z val store_234 = Ok (u, s') -> wf_state s')
  /\ (forall p x y z val u s',
        Volume_AddGrad p x y z val store_234 = Ok (u, s') -> wf_state s')
  /\ (forall p u s', Volume_ZeroGrad p store_234 = Ok (u, s') -> wf_state s')
  /\ (forall p val u s', Volume_SetConst p val store_234 = Ok (u, s') -> wf_state s')
  /\ (forall p q u s', Volume_AddFrom p q store_234 = Ok (u, s') -> wf_state s')
  /\ (forall p q scale u s',
        Volume_AddFromScaled p q scale store_234 = Ok (u, s') -> wf_state s')
  /\ (forall d opts p s',
        @NewVolume R realnum zero_source d opts store_234 = Ok (p, s') ->
        wf_state s')
  /\ (forall v p s',
        @Volume_Clone R realnum zero_source v store_234 = Ok (p, s') -> wf_state s')
  /\ (forall v p s',
        @Volume_CloneAndZero R realnum zero_source v store_234 = Ok (p, s') ->
        wf_state s').
Proof.
  apply (@volume_operations_keep_invariant R realnum zero_source store_234).
  unfold wf_state. simpl. apply Forall_cons. split.
  - split; reflexivity.
  - apply Forall_nil_2.
Defined.

(** ** The initialization modes of NewVolume *)

Section NewVolumeModes.
Context {F : Type} `{Float64 F} `{GoRand F}.

Lemma apply_options_sticky (optFuncs : list (OptionFunc F)) :
  Forall volume_option optFuncs ->
  forall o : Options F,
    Zero o = true -> HasInitialValue o = true ->
    Zero (fold_left (fun o optFn => optFn o) optFuncs o) = true
    /\ HasInitialValue (fold_left (fun o optFn => optFn o) optFuncs o) = true.
Proof.
  induction 1 as [|f fs Hf _ IH]; intros o HZ HI; simpl.
  - split; assumption.
  - apply IH; destruct Hf; simpl; try assumption; reflexivity.
Qed.

Lemma apply_options_app (fs gs : list (OptionFunc F)) (o : Options F) :
  fold_left (fun o optFn => optFn o) (fs ++ gs) o
  = fold_left (fun o optFn => optFn o) gs
      (fold_left (fun o optFn => optFn o) fs o).
Proof. apply fold_left_app. Qed.

(** X7.  WithInitialValue fills every weight with the value: NewVolume
    returns a volume whose weights are [size] copies of it, with zero
    gradients; a negative size panics in make. *)
Theorem NewVolume_WithInitialValue (d : Dimensions) (value : F) (s : State F) :
  (0 <= Dimensions_Size d ->
   NewVolume d [WithInitialValue value] s
   = Ok (Some (length (heap s)),
         mkState (heap s ++ [mkVolume d
                               (replicate (Z.to_nat (Dimensions_Size d)) value)
                               (zeros (Z.to_nat (Dimensions_Size d)))])
                 (draws s)))
  /\ (Dimensions_Size d < 0 ->
      NewVolume d [WithInitialValue value] s = Panic "makeslice: len out of range").
Proof.
  split.
  - intros Hn. unfold NewVolume, make.
    destruct (Z.ltb_spec (Dimensions_Size d) 0); [lia|].
    unfold bind at 1. unfold lift at 1. unfold bind at 1. unfold lift at 1.
    simpl fold_left. simpl HasInitialValue. simpl Zero. simpl InitialValue.
    cbv iota. simpl negb. cbv iota.
    set (n := Z.to_nat (Dimensions_Size d)).
    rewrite (bind_ok _ _ _ (replicate n value) s); [reflexivity|].
    rewrite (for_range_steps _
      (fun k => (take k (replicate n value) ++ drop k (replicate n f0), s))).
    + fold n. rewrite take_ge by (rewrite length_replicate; lia).
      rewrite drop_ge by (rewrite length_replicate; lia).
      rewrite app_nil_r. reflexivity.
    + simpl. rewrite drop_0. reflexivity.
    + intros k Hk. fold n in Hk. simpl. unfold lift.
      rewrite slice_set_ok.
      2:{ unfold len. rewrite length_app, length_take, length_drop,
            !length_replicate. lia. }
      rewrite Nat2Z.id, insert_take_drop; [reflexivity| |].
      * rewrite !length_replicate. reflexivity.
      * apply lookup_replicate_2. assumption.
  - intros Hn. unfold NewVolume, make.
    destruct (Z.ltb_spec (Dimensions_Size d) 0); [reflexivity|lia].
Qed.

(** X8.  Once WithZeros is among the options of the package, the
    volume is all zero, whatever the other options and their order: an
    initial value given before or after it is ignored, and explicit
    weights are neither checked nor copied. *)
Theorem NewVolume_WithZeros_wins (d : Dimensions)
  (before after : list (OptionFunc F)) (s : State F) :
  Forall volume_option before ->
  Forall volume_option after ->
  0 <= Dimensions_Size d ->
  NewVolume d (before ++ WithZeros :: after) s
  = Ok (Some (length (heap s)),
        mkState (heap s ++ [mkVolume d (zeros (Z.to_nat (Dimensions_Size d)))
                                       (zeros (Z.to_nat (Dimensions_Size d)))])
                (draws s)).
Proof.
  intros Hb Ha Hn. unfold NewVolume, make.
  destruct (Z.ltb_spec (Dimensions_Size d) 0); [lia|].
  unfold bind at 1. unfold lift at 1. unfold bind at 1. unfold lift at 1.
  rewrite apply_options_app. simpl fold_left.
  destruct (apply_options_sticky after Ha
              (WithZeros (fold_left (fun o optFn => optFn o) before
                            (mkOptions false false f0 None))))
    as [HZ HI]; [reflexivity|reflexivity|].
  rewrite HI, HZ. reflexivity.
Qed.

(** X9.  With explicit weights alone, NewVolume panics when their
    count differs from the depth, or the width or the height is not 1;
    otherwise the volume holds exactly these weights, with zero
    gradients. *)
Theorem NewVolume_WithWeights (d : Dimensions) (ws : list F) (s : State F) :
  0 <= Dimensions_Size d ->
  (len ws <> Dim_Z d ->
   NewVolume d [WithWeights (Some ws)] s
   = Panic "Invalid input weights: depth inconsistencies")
  /\ (len ws = Dim_Z d -> Dim_X d <> 1 ->
      NewVolume d [WithWeights (Some ws)] s
      = Panic "Invalid volume dimensions: X must equal 1 when weights are given")
  /\ (len ws = Dim_Z d -> Dim_X d = 1 -> Dim_Y d <> 1 ->
      NewVolume d [WithWeights (Some ws)] s
      = Panic "Invalid volume dimensions: Y must equal 1 when weights are given")
  /\ (len ws = Dim_Z d -> Dim_X d = 1 -> Dim_Y d = 1 -> len ws < 2 ^ 63 ->
      NewVolume d [WithWeights (Some ws)] s
      = Ok (Some (length (heap s)),
            mkState (heap s ++ [mkVolume d ws (zeros (length ws))]) (draws s))).
Proof.
  intros Hn.
  assert (Hstart : forall k : list F -> M (State F) ptr,
            (let* w0 := lift (make f0 (Dimensions_Size d)) in
             let* dw0 := lift (make f0 (Dimensions_Size d)) in k dw0) s
            = k (zeros (Z.to_nat (Dimensions_Size d))) s).
  { intros k. unfold make. destruct (Z.ltb_spec (Dimensions_Size d) 0); [lia|].
    reflexivity. }
  split; [|split; [|split]].
  - intros Hlen. unfold NewVolume, make.
    destruct (Z.ltb_spec (Dimensions_Size d) 0); [lia|].
    unfold bind at 1. unfold lift at 1. unfold bind at 1. unfold lift at 1.
    simpl fold_left. simpl HasInitialValue. cbv iota. simpl Weights. cbv iota.
    destruct (Z.eqb_spec (len ws) (Dim_Z d)); [contradiction|]. reflexivity.
  - intros Hlen HX. unfold NewVolume, make.
    destruct (Z.ltb_spec (Dimensions_Size d) 0); [lia|].
    unfold bind at 1. unfold lift at 1. unfold bind at 1. unfold lift at 1.
    simpl fold_left. simpl HasInitialValue. cbv iota. simpl Weights. cbv iota.
    destruct (Z.eqb_spec (len ws) (Dim_Z d)); [|contradiction].
    destruct (Z.eqb_spec (Dim_X d) 1); [contradiction|]. reflexivity.
  - intros Hlen HX HY. unfold NewVolume, make.
    destruct (Z.ltb_spec (Dimensions_Size d) 0); [lia|].
    unfold bind at 1. unfold lift at 1. unfold bind at 1. unfold lift at 1.
    simpl fold_left. simpl HasInitialValue. cbv iota. simpl Weights. cbv iota.
    destruct (Z.eqb_spec (len ws) (Dim_Z d)); [|contradiction].
    destruct (Z.eqb_spec (Dim_X d) 1); [|contradiction].
    destruct (Z.eqb_spec (Dim_Y d) 1); [contradiction|]. reflexivity.
  - intros Hlen HX HY Hfit.
    assert (Hsize : Dimensions_Size d = len ws).
    { destruct d as [X Y Z0]. simpl in *. subst X Y. rewrite <- Hlen.
      apply Dimensions_Size_vector. unfold GoInt.in_range, len in *. lia. }
    unfold NewVolume, make.
    destruct (Z.ltb_spec (Dimensions_Size d) 0); [lia|].
    unfold bind at 1. unfold lift at 1. unfold bind at 1. unfold lift at 1.
    simpl fold_left. simpl HasInitialValue. cbv iota. simpl Weights. cbv iota.
    destruct (Z.eqb_spec (len ws) (Dim_Z d)); [|contradiction].
    destruct (Z.eqb_spec (Dim_X d) 1); [|contradiction].
    destruct (Z.eqb_spec (Dim_Y d) 1); [|contradiction].
    simpl negb. cbv iota. unfold bind, ret, alloc.
    rewrite Hsize. unfold len. rewrite Nat2Z.id.
    unfold copy. rewrite length_replicate, firstn_all, drop_ge
      by (rewrite length_replicate; lia).
    rewrite app_nil_r. reflexivity.
Qed.

(** The store after Clone of a well-formed volume: one more volume, with
    the dimensions and the weights of the cloned one and with zero
    gradients. *)
Lemma Volume_Clone_ok (s : State F) (a : nat) (v : Volume F) :
  heap s !! a = Some v ->
  wf_volume v ->
  Volume_Clone (Some a) s
  = Ok (Some (length (heap s)),
        mkState (heap s ++ [mkVolume (dim v) (w v) (zeros (length (w v)))])
                (draws s)).
Proof.
  intros Hv Hwf. destruct (wf_volume_lengths v Hwf) as (Hsz & Hlw & Hldw).
  unfold Volume_Clone.
  rewrite (bind_ok _ _ _ _ _ (deref_ok _ _ _ Hv)).
  rewrite (bind_ok _ _ _ _ _ (NewVolume_zeros _ s Hsz)).
  rewrite <- Hlw.
  set (V0 := mkVolume (dim v) (zeros (length (w v))) (zeros (length (w v)))).
  set (s1 := mkState (heap s ++ [V0]) (draws s)).
  assert (Hnew : heap s1 !! length (heap s) = Some V0).
  { simpl. rewrite lookup_app_r by lia. rewrite Nat.sub_diag. reflexivity. }
  assert (Hold : heap s1 !! a = Some v).
  { simpl. rewrite lookup_app_l; [assumption|]. eapply lookup_lt_Some; eassumption. }
  rewrite (bind_ok _ _ _ _ _ (deref_ok _ _ _ Hnew)).
  rewrite (bind_ok _ _ _ _ _ (deref_ok _ _ _ Hold)).
  erewrite (bind_ok _ _ _ tt); [|eapply assign_ok; exact Hnew].
  unfold ret, set_vol, s1, V0. simpl.
  rewrite insert_app_r_alt by lia. rewrite Nat.sub_diag. simpl.
  unfold copy, zeros. rewrite length_replicate, firstn_all, drop_ge
    by (rewrite length_replicate; lia).
  rewrite app_nil_r. reflexivity.
Qed.

End NewVolumeModes.

Lemma NewVolume_WithZeros_wins_witness :
  @NewVolume float binary64 ones_source (NewDimensions 1 1 2)
    ([WithWeights (Some [7]%float)] ++ WithZeros :: [WithInitialValue 3%float])
    input_1234
  = Ok (Some (length (heap input_1234)),
        mkState (heap input_1234
                 ++ [mkVolume (NewDimensions 1 1 2)
                       (zeros (Z.to_nat (Dimensions_Size (NewDimensions 1 1 2))))
                       (zeros (Z.to_nat (Dimensions_Size (NewDimensions 1 1 2))))])
                (draws input_1234)).
Proof.
  apply (@NewVolume_WithZeros_wins float binary64 ones_source).
  - apply Forall_cons. split; [apply option_WithWeights|apply Forall_nil_2].
  - apply Forall_cons. split; [apply option_WithInitialValue|apply Forall_nil_2].
  - vm_compute. discriminate.
Defined.

Lemma NewVolume_WithWeights_witness :
  (len [7; 8]%float <> Dim_Z (NewDimensions 1 1 2) ->
   @NewVolume float binary64 ones_source (NewDimensions 1 1 2)
     [WithWeights (Some [7; 8]%float)] input_1234
   = Panic "Invalid input weights: depth inconsistencies")
  /\ (len [7; 8]%float = Dim_Z (NewDimensions 1 1 2) ->
      Dim_X (NewDimensions 1 1 2) <> 1 ->
      @NewVolume float binary64 ones_source (NewDimensions 1 1 2)
        [WithWeights (Some [7; 8]%float)] input_1234
      = Panic "Invalid volume dimensions: X must equal 1 when weights are given")
  /\ (len [7; 8]%float = Dim_Z (NewDimensions 1 1 2) ->
      Dim_X (NewDimensions 1 1 2) = 1 -> Dim_Y (NewDimensions 1 1 2) <> 1 ->
      @NewVolume float binary64 ones_source (NewDimensions 1 1 2)
        [WithWeights (Some [7; 8]%float)] input_1234
      = Panic "Invalid volume dimensions: Y must equal 1 when weights are given")
  /\ (len [7; 8]%float = Dim_Z (NewDimensions 1 1 2) ->
      Dim_X (NewDimensions 1 1 2) = 1 -> Dim_Y (NewDimensions 1 1 2) = 1 ->
      len [7; 8]%float < 2 ^ 63 ->
      @NewVolume float binary64 ones_source (NewDimensions 1 1 2)
        [WithWeights (Some [7; 8]%float)] input_1234
      = Ok (Some (length (heap input_1234)),
            mkState (heap input_1234
                     ++ [mkVolume (NewDimensions 1 1 2) [7; 8]%float
                           (zeros (length [7; 8]%float))])
                    (draws input_1234))).
Proof.
  apply (@NewVolume_WithWeights float binary64 ones_source).
  vm_compute. discriminate.
Defined.

Lemma NewVolume_WithInitialValue_witness :
  @NewVolume float binary64 ones_source (NewDimensions 1 1 2)
    [WithInitialValue 3%float] input_1234
  = Ok (Some (length (heap input_1234)),
        mkState (heap input_1234
                 ++ [mkVolume (NewDimensions 1 1 2)
                       (replicate (Z.to_nat (Dimensions_Size (NewDimensions 1 1 2)))
                          3%float)
                       (zeros (Z.to_nat (Dimensions_Size (NewDimensions 1 1 2))))])
                (draws input_1234)).
Proof.
  apply (proj1 (@NewVolume_WithInitialValue float binary64 ones_source
                  (NewDimensions 1 1 2) 3%float input_1234)).
  vm_compute. discriminate.
Defined.

(** ** Loops over the weights and the gradients of one volume *)

Section LoopsOverVolumes.
Context {F : Type} `{Float64 F} `{GoRand F}.

Lemma lookup_take_drop {A} (t l : list A) (k : nat) :
  length t = length l -> (k < length l)%nat ->
  (take k t ++ drop k l) !! k = l !! k.
Proof.
  intros Hlen Hk. rewrite lookup_app_r by (rewrite length_take; lia).
  rewrite length_take, Nat.min_l by lia. rewrite Nat.sub_diag, lookup_drop.
  rewrite Nat.add_0_r. reflexivity.
Qed.

(** A loop whose [k]-th step writes the [k]-th element of [t] into the
    weights of the volume at [c], and keeps its accumulator, leaves [t]
    as the weights. *)
Lemma weights_loop {A} (s : State F) (c : nat) (v : Volume F) (t : list F)
  (body : Z -> A -> M (State F) A) (acc : A) :
  heap s !! c = Some v ->
  length t = length (w v) ->
  (forall k x, t !! k = Some x ->
     body (Z.of_nat k) acc
       (set_vol s c (mkVolume (dim v) (take k t ++ drop k (w v)) (dw v)))
     = Ok (acc, set_vol s c (mkVolume (dim v)
                               (<[k := x]> (take k t ++ drop k (w v))) (dw v)))) ->
  for_range (len (w v)) body acc s
  = Ok (acc, set_vol s c (mkVolume (dim v) t (dw v))).
Proof.
  intros Hv Hlen Hbody.
  rewrite (for_range_steps _
    (fun k => (acc, set_vol s c (mkVolume (dim v) (take k t ++ drop k (w v)) (dw v))))).
  - unfold len. rewrite Nat2Z.id. rewrite take_ge by lia.
    rewrite drop_ge by lia. rewrite app_nil_r. reflexivity.
  - simpl. rewrite drop_0. rewrite set_vol_id; [reflexivity|]. destruct v; exact Hv.
  - intros k Hk. unfold len in Hk. rewrite Nat2Z.id in Hk. simpl.
    destruct (lookup_lt_is_Some_2 t k) as [x Hx]; [lia|].
    rewrite (Hbody k x Hx). rewrite insert_take_drop by assumption. reflexivity.
Qed.

(** The same for the gradients. *)
Lemma grads_loop (s : State F) (c : nat) (v : Volume F) (t : list F)
  (body : Z -> unit -> M (State F) unit) :
  heap s !! c = Some v ->
  length t = length (dw v) ->
  (forall k x, t !! k = Some x ->
     body (Z.of_nat k) tt (set_vol s c (with_dw v (take k t ++ drop k (dw v))))
     = Ok (tt, set_vol s c (with_dw v (<[k := x]> (take k t ++ drop k (dw v)))))) ->
  for_range (len (dw v)) body tt s = Ok (tt, set_vol s c (with_dw v t)).
Proof.
  intros Hv Hlen Hbody.
  rewrite (for_range_steps _
    (fun k => (tt, set_vol s c (with_dw v (take k t ++ drop k (dw v)))))).
  - unfold len. rewrite Nat2Z.id. rewrite take_ge by lia.
    rewrite drop_ge by lia. rewrite app_nil_r. reflexivity.
  - simpl. rewrite drop_0. unfold with_dw.
    rewrite set_vol_id; [reflexivity|]. destruct v; exact Hv.
  - intros k Hk. unfold len in Hk. rewrite Nat2Z.id in Hk. simpl.
    destruct (lookup_lt_is_Some_2 t k) as [x Hx]; [lia|].
    rewrite (Hbody k x Hx). rewrite insert_take_drop by assumption. reflexivity.
Qed.

Lemma set_vol_lookup_ne (s : State F) (a b : nat) (v : Volume F) :
  a <> b -> heap (set_vol s a v) !! b = heap s !! b.
Proof. intros Hne. unfold set_vol. simpl. apply list_lookup_insert_ne. assumption. Qed.

Lemma alloc_lookup_new (s : State F) (v : Volume F) :
  (heap s ++ [v]) !! length (heap s) = Some v.
Proof. rewrite lookup_app_r by lia. rewrite Nat.sub_diag. reflexivity. Qed.

Lemma alloc_lookup_old (s : State F) (a : nat) (v v' : Volume F) :
  heap s !! a = Some v -> (heap s ++ [v']) !! a = Some v.
Proof.
  intros Hv. rewrite lookup_app_l; [assumption|]. eapply lookup_lt_Some; eassumption.
Qed.

Lemma set_vol_new (s : State F) (v v' : Volume F) :
  set_vol (mkState (heap s ++ [v]) (draws s)) (length (heap s)) v'
  = mkState (heap s ++ [v']) (draws s).
Proof.
  unfold set_vol. simpl. rewrite insert_app_r_alt by lia.
  rewrite Nat.sub_diag. reflexivity.
Qed.

End LoopsOverVolumes.

(** ** Clone, ReLU and dropout *)

Section ActivationLayers.
Context {F : Type} `{Float64 F} `{GoRand F}.

(** X10.  Clone is a deep copy: the clone lives at a fresh address, has
    the dimensions and the weights of the cloned volume and zero
    gradients; the cloned volume is left as it was, and a later write
    into the clone does not reach it. *)
Theorem Volume_Clone_copies (s : State F) (a : nat) (v : Volume F) :
  heap s !! a = Some v ->
  wf_volume v ->
  exists s1,
    let c := Some (length (heap s)) in
    Volume_Clone (Some a) s = Ok (c, s1)
    /\ c <> Some a
    /\ Volume_Dimensions c s1 = Ok (dim v, s1)
    /\ Volume_Weights c s1 = Ok (w v, s1)
    /\ Volume_Gradients c s1 = Ok (zeros (length (w v)), s1)
    /\ deref (Some a) s1 = Ok (v, s1)
    /\ (forall i x u s2,
          Volume_SetByIndex c i x s1 = Ok (u, s2) -> deref (Some a) s2 = Ok (v, s2)).
Proof.
  intros Hv Hwf. pose proof (lookup_lt_Some _ _ _ Hv) as Hlt.
  set (V0 := mkVolume (dim v) (w v) (zeros (length (w v)))).
  set (s1 := mkState (heap s ++ [V0]) (draws s)).
  assert (Hc : heap s1 !! length (heap s) = Some V0) by apply alloc_lookup_new.
  assert (Ha : heap s1 !! a = Some v) by (apply alloc_lookup_old; assumption).
  exists s1. cbv zeta. split; [apply Volume_Clone_ok; assumption|].
  split; [intros Heq; injection Heq as Heq; lia|].
  split; [unfold Volume_Dimensions; erewrite bind_ok by (apply deref_ok; exact Hc);
          reflexivity|].
  split; [apply (Volume_Weights_ok _ _ V0); exact Hc|].
  split; [unfold Volume_Gradients; erewrite bind_ok by (apply deref_ok; exact Hc);
          reflexivity|].
  split; [apply deref_ok; exact Ha|].
  intros i x u s2 Hset. unfold Volume_SetByIndex in Hset.
  apply bind_inv_ok in Hset as (v1 & s1' & Hd & Hset).
  rewrite (deref_ok _ _ _ Hc) in Hd. injection Hd as <- <-.
  apply bind_inv_ok in Hset as (w1 & s1' & Hw1 & Hset).
  apply lift_inv_ok in Hw1 as [_ ->].
  erewrite assign_ok in Hset by exact Hc. injection Hset as _ <-.
  apply deref_ok. rewrite set_vol_lookup_ne by lia. exact Ha.
Qed.

(** X11.  ReLU's Forward clones its input and replaces every negative
    weight of the clone by 0: the output is a new volume with the
    weights [relu_value x] and zero gradients, the input is untouched
    and the layer remembers both. *)
Theorem reluLayer_Forward_closed (l : reluLayer) (s : State F) (a : nat)
  (v : Volume F) (training : bool) :
  heap s !! a = Some v ->
  wf_volume v ->
  reluLayer_Forward l (Some a) training s
  = Ok ((mkReluLayer (relu_output l) (Some a) (Some (length (heap s))),
         Some (length (heap s))),
        mkState (heap s ++ [mkVolume (dim v) (map relu_value (w v))
                                     (zeros (length (w v)))])
                (draws s)).
Proof.
  intros Hv Hwf. pose proof Hwf as [Hw Hdw].
  unfold reluLayer_Forward.
  rewrite (bind_ok _ _ _ _ _ (Volume_Clone_ok _ _ _ Hv Hwf)).
  set (c := length (heap s)).
  set (V0 := mkVolume (dim v) (w v) (zeros (length (w v)))).
  set (s1 := mkState (heap s ++ [V0]) (draws s)).
  assert (Hc : heap s1 !! c = Some V0) by apply alloc_lookup_new.
  assert (Ha : heap s1 !! a = Some v) by (apply alloc_lookup_old; assumption).
  rewrite (bind_ok _ _ _ _ _ (Volume_Size_ok _ _ _ Ha)).
  rewrite <- Hw.
  rewrite (bind_ok _ _ _ tt
             (set_vol s1 c (mkVolume (dim V0) (map relu_value (w v)) (dw V0)))).
  - unfold s1, c. rewrite set_vol_new. reflexivity.
  - apply (weights_loop s1 c V0); [assumption|apply length_map|].
    intros k x Hx. simpl.
    rewrite list_lookup_fmap in Hx.
    destruct (w v !! k) as [xk|] eqn:Hxk; [|discriminate]. injection Hx as <-.
    pose proof (lookup_lt_Some _ _ _ Hxk) as Hk.
    assert (Hcur : (take k (map relu_value (w v)) ++ drop k (w v)) !! k = Some xk).
    { rewrite lookup_take_drop; [assumption|apply length_map|assumption]. }
    erewrite bind_ok.
    2:{ eapply Volume_GetByIndex_ok; [eapply set_vol_lookup; exact Hc|exact Hcur]. }
    unfold relu_value. destruct (fltb xk f0).
    + erewrite Volume_SetByIndex_ok.
      2:{ eapply set_vol_lookup; exact Hc. }
      2:{ simpl. eapply lookup_lt_Some; exact Hcur. }
      rewrite set_vol_set_vol. reflexivity.
    + rewrite list_insert_id by exact Hcur. reflexivity.
Qed.

(** X12.  ReLU's Backward overwrites the gradients of its input: where
    the output is positive the gradient of the output is copied, and
    everywhere else the gradient is 0; nothing else changes. *)
Theorem reluLayer_Backward_closed (d : Dimensions) (s : State F) (a b : nat)
  (v o : Volume F) :
  heap s !! a = Some v ->
  heap s !! b = Some o ->
  a <> b ->
  wf_volume v -> wf_volume o -> dim o = dim v ->
  reluLayer_Backward (mkReluLayer d (Some a) (Some b)) s
  = Ok (mkReluLayer d (Some a) (Some b),
        set_vol s a (with_dw v (zip_with relu_grad (w o) (dw o)))).
Proof.
  intros Hv Ho Hab [Hw Hdw] [How Hodw] Hdim. rewrite Hdim in How, Hodw.
  unfold reluLayer_Backward. simpl relu_inVol. simpl relu_outVol.
  rewrite (bind_ok _ _ _ _ _ (Volume_Size_ok _ _ _ Hv)).
  rewrite (bind_ok _ _ _ _ _ (Volume_ZeroGrad_ok _ _ _ Hv Hdw)).
  set (v0 := with_dw v (zeros (length (dw v)))).
  set (s1 := set_vol s a v0).
  assert (Ha1 : heap s1 !! a = Some v0) by (eapply set_vol_lookup; exact Hv).
  assert (Hlen : length (zip_with relu_grad (w o) (dw o)) = length (dw v0)).
  { rewrite length_zip_with. unfold v0, zeros. simpl. rewrite length_replicate.
    unfold len in *. lia. }
  assert (Hn : Dimensions_Size (dim v) = len (dw v0)).
  { unfold v0, zeros, len. simpl. rewrite length_replicate. symmetry. exact Hdw. }
  rewrite Hn.
  rewrite (bind_ok _ _ _ tt
             (set_vol s1 a (with_dw v0 (zip_with relu_grad (w o) (dw o))))).
  - unfold ret, s1. rewrite set_vol_set_vol. reflexivity.
  - apply (grads_loop s1 a v0); [assumption|assumption|].
    intros k x Hx. rewrite lookup_zip_with in Hx.
    destruct (w o !! k) as [ok|] eqn:Hok; [|discriminate]. simpl in Hx.
    destruct (dw o !! k) as [gk|] eqn:Hgk; [|discriminate]. simpl in Hx.
    injection Hx as <-.
    set (cur := take k (zip_with relu_grad (w o) (dw o)) ++ drop k (dw v0)).
    assert (Hob : heap (set_vol s1 a (with_dw v0 cur)) !! b = Some o).
    { rewrite set_vol_lookup_ne by assumption. unfold s1.
      rewrite set_vol_lookup_ne by assumption. exact Ho. }
    assert (Hk : (k < length cur)%nat).
    { unfold cur. rewrite length_app, length_take, length_drop.
      pose proof (lookup_lt_Some _ _ _ Hgk). unfold len in *. lia. }
    erewrite bind_ok by (eapply Volume_GetByIndex_ok; [exact Hob|exact Hok]).
    unfold relu_grad. destruct (fleb ok f0).
    + erewrite Volume_SetGradByIndex_ok.
      2:{ eapply set_vol_lookup; exact Ha1. }
      2:{ exact Hk. }
      rewrite set_vol_set_vol. reflexivity.
    + erewrite bind_ok by (eapply Volume_GetGradByIndex_ok; [exact Hob|exact Hgk]).
      erewrite Volume_SetGradByIndex_ok.
      2:{ eapply set_vol_lookup; exact Ha1. }
      2:{ exact Hk. }
      rewrite set_vol_set_vol. reflexivity.
Qed.

End ActivationLayers.

Lemma Volume_Clone_copies_witness :
  exists s1,
    let c := Some (length (heap store_signs)) in
    @Volume_Clone float binary64 ones_source (Some 0%nat) store_signs = Ok (c, s1)
    /\ c <> Some 0%nat
    /\ Volume_Dimensions c s1 = Ok (dim volume_signs, s1)
    /\ Volume_Weights c s1 = Ok (w volume_signs, s1)
    /\ Volume_Gradients c s1 = Ok (zeros (length (w volume_signs)), s1)
    /\ deref (Some 0%nat) s1 = Ok (volume_signs, s1)
    /\ (forall i x u s2,
          Volume_SetByIndex c i x s1 = Ok (u, s2) ->
          deref (Some 0%nat) s2 = Ok (volume_signs, s2)).
Proof.
  apply (@Volume_Clone_copies float binary64 ones_source store_signs 0%nat
           volume_signs).
  - reflexivity.
  - split; reflexivity.
Defined.

Lemma reluLayer_Forward_closed_witness :
  @reluLayer_Forward float binary64 ones_source
    (mkReluLayer (NewDimensions 1 1 4) None None) (Some 0%nat) false store_signs
  = Ok ((mkReluLayer (NewDimensions 1 1 4) (Some 0%nat)
           (Some (length (heap store_signs))),
         Some (length (heap store_signs))),
        mkState (heap store_signs
                 ++ [mkVolume (dim volume_signs) (map relu_value (w volume_signs))
                       (zeros (length (w volume_signs)))])
                (draws store_signs)).
Proof.
  apply (@reluLayer_Forward_closed float binary64 ones_source
           (mkReluLayer (NewDimensions 1 1 4) None None) store_signs 0%nat
           volume_signs false).
  - reflexivity.
  - split; reflexivity.
Defined.

Lemma reluLayer_Backward_closed_witness :
  @reluLayer_Backward float binary64
    (mkReluLayer (NewDimensions 1 1 4) (Some 0%nat) (Some 1%nat)) store_signs
  = Ok (mkReluLayer (NewDimensions 1 1 4) (Some 0%nat) (Some 1%nat),
        set_vol store_signs 0
          (with_dw volume_signs
             (zip_with relu_grad (w relu_output_signs) (dw relu_output_signs)))).
Proof.
  apply (@reluLayer_Backward_closed float binary64
           (NewDimensions 1 1 4) store_signs 0%nat 1%nat volume_signs
           relu_output_signs).
  - reflexivity.
  - reflexivity.
  - discriminate.
  - split; reflexivity.
  - split; reflexivity.
  - reflexivity.
Defined.


(** ** Dropout *)

Section DropoutFacts.
Context {F : Type} `{Float64 F} `{GoRand F}.

Lemma set_vol_last (h : list (Volume F)) (n : nat) (v v' : Volume F) :
  set_vol (mkState (h ++ [v]) n) (length h) v' = mkState (h ++ [v']) n.
Proof.
  unfold set_vol. simpl. rewrite insert_app_r_alt by lia.
  rewrite Nat.sub_diag. reflexivity.
Qed.

Lemma dropout_mask_lookup (p : F) (from n k : nat) :
  (k < n)%nat ->
  dropout_mask p from n !! k = Some (fltb (rand_Float64 (from + k)%nat) p).
Proof.
  intros Hk. unfold dropout_mask.
  rewrite list_lookup_fmap, lookup_seq_lt by assumption. reflexivity.
Qed.

Lemma dropout_mask_length (p : F) (from n : nat) :
  length (dropout_mask p from n) = n.
Proof. unfold dropout_mask. rewrite length_map, length_seq. reflexivity. Qed.

(** X13.  Outside training, dropout's Forward returns a clone of its
    input in which every weight is multiplied by the dropout
    probability itself; no random number is drawn, the flags of the
    layer and the input are left as they were. *)
Theorem dropoutLayer_Forward_inference (l : dropoutLayer F) (s : State F)
  (a : nat) (v : Volume F) :
  heap s !! a = Some v ->
  wf_volume v ->
  dropoutLayer_Forward l (Some a) false s
  = Ok ((mkDropoutLayer (dropout_config l) (dropout_input l) (dropout_output l)
           (dropout_dropped l) (Some a) (Some (length (heap s))),
         Some (length (heap s))),
        mkState (heap s
                 ++ [mkVolume (dim v)
                       (map (fun x => fmul x (DropoutProbability (dropout_config l)))
                            (w v))
                       (zeros (length (w v)))])
                (draws s)).
Proof.
  intros Hv Hwf. pose proof Hwf as [Hw Hdw].
  unfold dropoutLayer_Forward. cbv zeta.
  rewrite (bind_ok _ _ _ _ _ (Volume_Clone_ok _ _ _ Hv Hwf)).
  set (c := length (heap s)).
  set (p := DropoutProbability (dropout_config l)).
  set (V0 := mkVolume (dim v) (w v) (zeros (length (w v)))).
  set (s1 := mkState (heap s ++ [V0]) (draws s)).
  assert (Hc : heap s1 !! c = Some V0) by apply alloc_lookup_new.
  assert (Ha : heap s1 !! a = Some v) by (apply alloc_lookup_old; assumption).
  rewrite (bind_ok _ _ _ _ _ (Volume_Size_ok _ _ _ Ha)).
  rewrite <- Hw.
  rewrite (bind_ok _ _ _ (dropout_dropped l)
             (set_vol s1 c (mkVolume (dim V0) (map (fun x => fmul x p) (w v))
                                     (dw V0)))).
  - unfold s1, c. rewrite set_vol_new. reflexivity.
  - apply (weights_loop s1 c V0); [assumption|apply length_map|].
    intros k x Hx. simpl.
    rewrite list_lookup_fmap in Hx.
    destruct (w v !! k) as [xk|] eqn:Hxk; [|discriminate]. injection Hx as <-.
    pose proof (lookup_lt_Some _ _ _ Hxk) as Hk.
    assert (Hcur : (take k (map (fun x => fmul x p) (w v)) ++ drop k (w v)) !! k
                   = Some xk).
    { rewrite lookup_take_drop; [assumption|apply length_map|assumption]. }
    unfold Volume_MultByIndex.
    erewrite bind_ok.
    2:{ erewrite bind_ok.
        2:{ eapply Volume_GetByIndex_ok; [eapply set_vol_lookup; exact Hc|exact Hcur]. }
        erewrite Volume_SetByIndex_ok.
        2:{ eapply set_vol_lookup; exact Hc. }
        2:{ simpl. eapply lookup_lt_Some; exact Hcur. }
        rewrite set_vol_set_vol. reflexivity. }
    reflexivity.
Qed.

(** X14.  In training, dropout's Forward draws one number per weight, in
    order; the weight is dropped (set to 0 in the output, flag set)
    exactly when its draw is below the dropout probability, and kept
    unscaled otherwise.  The flags of the layer are overwritten and the
    source has advanced by the number of weights. *)
Theorem dropoutLayer_Forward_training (l : dropoutLayer F) (s : State F)
  (a : nat) (v : Volume F) :
  heap s !! a = Some v ->
  wf_volume v ->
  length (dropout_dropped l) = length (w v) ->
  let mask := dropout_mask (DropoutProbability (dropout_config l)) (draws s)
                (length (w v)) in
  dropoutLayer_Forward l (Some a) true s
  = Ok ((mkDropoutLayer (dropout_config l) (dropout_input l) (dropout_output l)
           mask (Some a) (Some (length (heap s))),
         Some (length (heap s))),
        mkState (heap s
                 ++ [mkVolume (dim v) (zip_with dropout_keep mask (w v))
                       (zeros (length (w v)))])
                (draws s + length (w v))).
Proof.
  intros Hv Hwf Hdr mask. pose proof Hwf as [Hw Hdw].
  unfold dropoutLayer_Forward. cbv zeta.
  rewrite (bind_ok _ _ _ _ _ (Volume_Clone_ok _ _ _ Hv Hwf)).
  set (c := length (heap s)).
  set (p := DropoutProbability (dropout_config l)) in *.
  set (n := length (w v)) in *.
  set (V0 := mkVolume (dim v) (w v) (zeros n)).
  set (s1 := mkState (heap s ++ [V0]) (draws s)).
  assert (Ha : heap s1 !! a = Some v) by (apply alloc_lookup_old; assumption).
  rewrite (bind_ok _ _ _ _ _ (Volume_Size_ok _ _ _ Ha)).
  rewrite <- Hw.
  set (t := zip_with dropout_keep mask (w v)).
  assert (Hmask : length mask = n) by apply dropout_mask_length.
  assert (Ht : length t = n).
  { unfold t. rewrite length_zip_with. fold n. lia. }
  rewrite (bind_ok _ _ _ mask
             (mkState (heap s ++ [mkVolume (dim v) t (zeros n)]) (draws s + n))).
  - reflexivity.
  - rewrite (for_range_steps _
      (fun k => (take k mask ++ drop k (dropout_dropped l),
                 mkState (heap s ++ [mkVolume (dim v) (take k t ++ drop k (w v))
                                       (zeros n)])
                         (draws s + k)))).
    + unfold len. rewrite Nat2Z.id. fold n.
      rewrite !take_ge, !drop_ge by lia. rewrite !app_nil_r. reflexivity.
    + simpl. rewrite !drop_0, Nat.add_0_r. reflexivity.
    + intros k Hk. unfold len in Hk. rewrite Nat2Z.id in Hk. fold n in Hk.
      cbv beta. simpl fst. simpl snd.
      destruct (lookup_lt_is_Some_2 (w v) k) as [xk Hxk]; [fold n; lia|].
      pose proof (dropout_mask_lookup p (draws s) n k Hk) as Hmk. fold mask in Hmk.
      assert (Htk : t !! k
                    = Some (dropout_keep (fltb (rand_Float64 (draws s + k)%nat) p) xk)).
      { unfold t. rewrite lookup_zip_with, Hmk, Hxk. reflexivity. }
      assert (Hcur : (take k t ++ drop k (w v)) !! k = Some xk).
      { rewrite lookup_take_drop; [assumption|fold n; lia|fold n; lia]. }
      replace (draws s + S k)%nat with (S (draws s + k)) by lia.
      unfold bind at 1. unfold draw_Float64. cbn [draws heap].
      assert (Hflag : forall b : bool,
                slice_set (take k mask ++ drop k (dropout_dropped l)) (Z.of_nat k) b
                = Ok (<[k := b]> (take k mask ++ drop k (dropout_dropped l)))).
      { intros b. rewrite slice_set_ok.
        - rewrite Nat2Z.id. reflexivity.
        - unfold len. rewrite length_app, length_take, length_drop. lia. }
      destruct (fltb (rand_Float64 (draws s + k)%nat) p) eqn:Hdraw.
      * erewrite bind_ok.
        2:{ eapply Volume_SetByIndex_ok.
            - apply alloc_lookup_new.
            - simpl. eapply lookup_lt_Some; exact Hcur. }
        unfold lift. rewrite Hflag. simpl dim. simpl dw.
        fold c. unfold c. rewrite set_vol_last.
        rewrite (insert_take_drop mask) by (try lia; rewrite Hmk; reflexivity).
        cbn [w]. rewrite (insert_take_drop t) by (try (fold n; lia); exact Htk).
        reflexivity.
      * unfold lift. rewrite Hflag.
        rewrite (insert_take_drop mask) by (try lia; rewrite Hmk; reflexivity).
        rewrite <- (insert_take_drop t (w v) k xk) by (try (fold n; lia); exact Htk).
        rewrite list_insert_id by exact Hcur. reflexivity.
Qed.

(** X15.  The dropout layer that NewNetwork builds from the definition
    inserted by ActivateLayers has no flags at all, since that
    definition has no output dimensions: it is built without panic, and
    its Forward in training panics on every non-empty input. *)
Theorem dropout_after_activation_panics (conf : DropoutLayerConfig F)
  (input : Dimensions) (s0 : State F) :
  exists l,
    NewDropoutLayer (with_Input (typeDef Dropout (dropoutConfig conf)) input) s0
    = Ok (l, s0)
    /\ dropout_dropped l = []
    /\ forall (s : State F) (a : nat) (v : Volume F),
         heap s !! a = Some v -> wf_volume v -> w v <> [] ->
         dropoutLayer_Forward l (Some a) true s = Panic "index out of range".
Proof.
  exists (mkDropoutLayer conf input zeroDimensions [] None None).
  split; [vm_compute; reflexivity|]. split; [reflexivity|].
  intros s a v Hv Hwf Hne. pose proof Hwf as [Hw Hdw].
  unfold dropoutLayer_Forward. cbv zeta.
  rewrite (bind_ok _ _ _ _ _ (Volume_Clone_ok _ _ _ Hv Hwf)).
  set (V0 := mkVolume (dim v) (w v) (zeros (length (w v)))).
  set (s1 := mkState (heap s ++ [V0]) (draws s)).
  assert (Ha : heap s1 !! a = Some v) by (apply alloc_lookup_old; assumption).
  rewrite (bind_ok _ _ _ _ _ (Volume_Size_ok _ _ _ Ha)).
  rewrite <- Hw. apply bind_panic. simpl dropout_dropped.
  unfold for_range, len. rewrite Nat2Z.id.
  destruct (w v) as [|x0 ws] eqn:Hwv; [contradiction|]. simpl length.
  simpl for_loop. apply bind_panic.
  unfold bind at 1. unfold draw_Float64.
  destruct (fltb _ _).
  - erewrite bind_ok.
    2:{ apply (Volume_SetByIndex_ok _ (length (heap s)) V0 0).
        - apply alloc_lookup_new.
        - unfold V0. simpl. lia. }
    reflexivity.
  - reflexivity.
Qed.

End DropoutFacts.

Lemma dropoutLayer_Forward_inference_witness :
  @dropoutLayer_Forward float binary64 alternating_source dropout_half
    (Some 0%nat) false store_signs
  = Ok ((mkDropoutLayer (dropout_config dropout_half) (dropout_input dropout_half)
           (dropout_output dropout_half) (dropout_dropped dropout_half)
           (Some 0%nat) (Some (length (heap store_signs))),
         Some (length (heap store_signs))),
        mkState (heap store_signs
                 ++ [mkVolume (dim volume_signs)
                       (map (fun x => fmul x (DropoutProbability
                                                (dropout_config dropout_half)))
                            (w volume_signs))
                       (zeros (length (w volume_signs)))])
                (draws store_signs)).
Proof.
  apply (@dropoutLayer_Forward_inference float binary64 alternating_source
           dropout_half store_signs 0%nat volume_signs).
  - reflexivity.
  - split; reflexivity.
Defined.

Lemma dropoutLayer_Forward_training_witness :
  let mask := @dropout_mask float binary64 alternating_source
                (DropoutProbability (dropout_config dropout_half))
                (draws store_signs) (length (w volume_signs)) in
  @dropoutLayer_Forward float binary64 alternating_source dropout_half
    (Some 0%nat) true store_signs
  = Ok ((mkDropoutLayer (dropout_config dropout_half) (dropout_input dropout_half)
           (dropout_output dropout_half) mask
           (Some 0%nat) (Some (length (heap store_signs))),
         Some (length (heap store_signs))),
        mkState (heap store_signs
                 ++ [mkVolume (dim volume_signs)
                       (zip_with dropout_keep mask (w volume_signs))
                       (zeros (length (w volume_signs)))])
                (draws store_signs + length (w volume_signs))).
Proof.
  apply (@dropoutLayer_Forward_training float binary64 alternating_source
           dropout_half store_signs 0%nat volume_signs).
  - reflexivity.
  - split; reflexivity.
  - reflexivity.
Defined.

Lemma dropout_after_activation_panics_witness :
  exists l,
    @NewDropoutLayer float
      (with_Input (typeDef Dropout (dropoutConfig (mkDropoutLayerConfig 0.5%float)))
         (NewDimensions 1 1 4)) store_signs
    = Ok (l, store_signs)
    /\ dropout_dropped l = []
    /\ @dropoutLayer_Forward float binary64 alternating_source l (Some 0%nat) true
         store_signs
       = Panic "index out of range".
Proof.
  destruct (@dropout_after_activation_panics float binary64 alternating_source
              (mkDropoutLayerConfig 0.5%float) (NewDimensions 1 1 4) store_signs)
    as (l & Hnew & Hflags & Hpanic).
  exists l. split; [exact Hnew|]. split; [exact Hflags|].
  apply (Hpanic store_signs 0%nat volume_signs).
  - reflexivity.
  - split; reflexivity.
  - discriminate.
Defined.


(** ** The fully connected layer *)

Section FullyConnFacts.
Context {F : Type} `{Float64 F} `{GoRand F}.

(** The inner loop of Forward: the products of the inputs and the
    weights of one filter, summed from 0. *)
Lemma fullyConn_inner_loop (xs ws : list F) (st : State F) :
  length ws = length xs ->
  for_range (len xs) (fun d a =>
    let* x := lift (slice_get xs d) in
    let* y := lift (slice_get ws d) in
    ret (fadd a (fmul x y))) f0 st
  = Ok (dot xs ws, st).
Proof.
  intros Hlen.
  assert (Hz : len xs = len (zip xs ws)).
  { unfold len. rewrite length_zip_with. lia. }
  rewrite Hz. unfold dot.
  apply (for_range_fold (zip xs ws)
           (fun a xy => fadd a (fmul (fst xy) (snd xy)))).
  intros i [x y] a st' Hxy. rewrite lookup_zip_with in Hxy.
  destruct (xs !! i) as [x'|] eqn:Hx; [|discriminate]. simpl in Hxy.
  destruct (ws !! i) as [y'|] eqn:Hy; [|discriminate]. simpl in Hxy.
  injection Hxy as -> ->.
  unfold bind, lift.
  rewrite (slice_get_lookup xs (Z.of_nat i) x) by (try lia; rewrite Nat2Z.id; exact Hx).
  rewrite (slice_get_lookup ws (Z.of_nat i) y) by (try lia; rewrite Nat2Z.id; exact Hy).
  reflexivity.
Qed.

(** X16.  Forward of the fully connected layer allocates the output
    volume and sets its [i]-th weight to the sum, from 0 and in the
    order of the inputs, of the products of the inputs and the weights
    of the [i]-th filter, plus the [i]-th bias.  The input, the filters
    and the biases are not written. *)
Theorem fullyConnLayer_Forward_closed (l : fullyConnLayer F) (s : State F)
  (a b : nat) (v bv : Volume F) (addrs : list nat) (fvs : list (Volume F))
  (training : bool) :
  heap s !! a = Some v ->
  fc_filters l = map Some addrs ->
  Forall2 (fun fa fv => heap s !! fa = Some fv /\ length (w fv) = length (w v))
          addrs fvs ->
  fc_biases l = Some b ->
  heap s !! b = Some bv ->
  length (w bv) = length fvs ->
  Dimensions_Size (fc_input l) = len (w v) ->
  Dimensions_Size (fc_output l) = len fvs ->
  fullyConnLayer_Forward l (Some a) training s
  = Ok ((mkFullyConnLayer (fc_conf l) (fc_input l) (fc_output l) (Some a)
           (Some (length (heap s))) (fc_filters l) (fc_biases l),
         Some (length (heap s))),
        mkState (heap s ++ [mkVolume (fc_output l)
                              (fullyConn_out (w v) fvs (w bv))
                              (zeros (length fvs))])
                (draws s)).
Proof.
  intros Hv Hfl Hfs Hbp Hbv Hbl Hin Hout.
  unfold fullyConnLayer_Forward.
  rewrite (bind_ok _ _ _ _ _ (NewVolume_zeros (fc_output l) s
                                ltac:(rewrite Hout; unfold len; lia))).
  replace (Z.to_nat (Dimensions_Size (fc_output l))) with (length fvs)
    by (rewrite Hout; unfold len; lia).
  rewrite Hout.
  set (m := length fvs).
  set (c := length (heap s)).
  set (A0 := mkVolume (fc_output l) (zeros m) (zeros m)).
  set (s1 := mkState (heap s ++ [A0]) (draws s)).
  assert (Hc : heap s1 !! c = Some A0) by apply alloc_lookup_new.
  assert (Hold : forall x vx, heap s !! x = Some vx -> heap s1 !! x = Some vx).
  { intros x vx Hx. apply alloc_lookup_old. exact Hx. }
  rewrite (bind_ok _ _ _ _ _ (Volume_Weights_ok _ _ _ (Hold _ _ Hv))).
  set (t := fullyConn_out (w v) fvs (w bv)).
  assert (Ht : length t = m).
  { unfold t, fullyConn_out. rewrite length_zip_with. fold m. lia. }
  rewrite (bind_ok _ _ _ tt (set_vol s1 c (mkVolume (dim A0) t (dw A0)))).
  - unfold s1, c. rewrite set_vol_new. reflexivity.
  - replace (len fvs) with (len (w A0))
      by (unfold A0, zeros, len; simpl; rewrite length_replicate; reflexivity).
    apply (weights_loop s1 c A0);
      [assumption
      |unfold A0, zeros; simpl; rewrite length_replicate; exact Ht|].
    intros k x Hx. cbn [dim w dw A0].
    set (cur := take k t ++ drop k (zeros m)).
    set (st := set_vol s1 c (mkVolume (fc_output l) cur (zeros m))).
    unfold t, fullyConn_out in Hx. rewrite lookup_zip_with in Hx.
    destruct (fvs !! k) as [fv|] eqn:Hfv; [|discriminate]. simpl in Hx.
    destruct (w bv !! k) as [bk|] eqn:Hbk; [|discriminate]. simpl in Hx.
    injection Hx as <-.
    destruct (Forall2_lookup_r _ _ _ _ _ Hfs Hfv) as (fa & Hfa & Hfah & Hfal).
    assert (Hst : forall y vy, heap s !! y = Some vy -> heap st !! y = Some vy).
    { intros y vy Hy. unfold st. rewrite set_vol_lookup_ne.
      - apply Hold. exact Hy.
      - apply lookup_lt_Some in Hy. unfold c. lia. }
    assert (Hstc : heap st !! c = Some (mkVolume (fc_output l) cur (zeros m))).
    { unfold st. eapply set_vol_lookup. exact Hc. }
    rewrite (bind_ok _ _ _ (Some fa) st).
    2:{ unfold filter_at, lift. rewrite Hfl.
        rewrite (slice_get_lookup _ _ (Some fa)); [reflexivity|lia|].
        rewrite Nat2Z.id, list_lookup_fmap, Hfa. reflexivity. }
    rewrite (bind_ok _ _ _ _ _ (Volume_Weights_ok _ _ _ (Hst _ _ Hfah))).
    rewrite Hin.
    rewrite (bind_ok _ _ _ _ _ (fullyConn_inner_loop (w v) (w fv) st Hfal)).
    rewrite Hbp.
    rewrite (bind_ok _ _ _ _ _ (Volume_GetByIndex_ok _ _ _ _ _ (Hst _ _ Hbv) Hbk)).
    erewrite Volume_SetByIndex_ok.
    2:{ exact Hstc. }
    2:{ simpl. unfold cur. rewrite length_app, length_take, length_drop.
        unfold zeros. rewrite length_replicate.
        apply lookup_lt_Some in Hfv. fold m in Hfv. lia. }
    unfold st. rewrite set_vol_set_vol. reflexivity.
Qed.

End FullyConnFacts.

(** ** The regression layer *)

Section RegressionFacts.
Context {F : Type} `{Float64 F} `{GoRand F}.

Lemma squared_error_sum_take_S (diffs : list F) (k : nat) (dY : F) :
  diffs !! k = Some dY ->
  squared_error_sum (take (S k) diffs)
  = fadd (squared_error_sum (take k diffs)) (fmul (fmul (fdec 1 2) dY) dY).
Proof.
  intros Hd. unfold squared_error_sum.
  rewrite (take_S_r _ _ _ Hd), fold_left_app. reflexivity.
Qed.

(** X17.  MultiDimensionalLoss panics unless it is given as many targets
    as the layer has outputs.  Given them, it overwrites the gradients
    of its input by the differences (prediction minus target) and
    returns the sum of half their squares, accumulated in order from
    0; the predictions are not changed. *)
Theorem regressionLayer_MultiDimensionalLoss_closed (l : regressionLayer)
  (s : State F) (a : nat) (v : Volume F) (y : list F) :
  regression_inVol l = Some a ->
  heap s !! a = Some v ->
  wf_volume v ->
  (len y <> Dimensions_Size (regression_outDim l) ->
   exists msg, regressionLayer_MultiDimensionalLoss l y s = Panic msg)
  /\ (len y = Dimensions_Size (regression_outDim l) ->
      length y = length (w v) ->
      regressionLayer_MultiDimensionalLoss l y s
      = Ok (squared_error_sum (zip_with fsub (w v) y),
            set_vol s a (with_dw v (zip_with fsub (w v) y)))).
Proof.
  intros Hin Hv [Hw Hdw]. unfold regressionLayer_MultiDimensionalLoss. split.
  - intros Hne. destruct (Z.eqb_spec (len y) (Dimensions_Size (regression_outDim l)));
      [contradiction|]. eexists. reflexivity.
  - intros Hlen Hyw.
    destruct (Z.eqb_spec (len y) (Dimensions_Size (regression_outDim l)));
      [|contradiction]. change (negb true) with false. cbv iota.
    rewrite Hin.
    rewrite (bind_ok _ _ _ _ _ (Volume_ZeroGrad_ok _ _ _ Hv Hdw)).
    set (n := length (dw v)).
    assert (Hn : n = length (w v)) by (unfold n, len in *; lia).
    set (v0 := with_dw v (zeros n)).
    set (s1 := set_vol s a v0).
    set (diffs := zip_with fsub (w v) y).
    assert (Hdl : length diffs = n).
    { unfold diffs. rewrite length_zip_with. lia. }
    rewrite <- Hlen.
    rewrite (for_range_steps _
      (fun k => (squared_error_sum (take k diffs),
                 set_vol s a (with_dw v (take k diffs ++ drop k (zeros n)))))).
    + unfold len. rewrite Nat2Z.id.
      rewrite take_ge by lia.
      rewrite drop_ge by (unfold zeros; rewrite length_replicate; lia).
      rewrite app_nil_r. reflexivity.
    + simpl. rewrite drop_0. reflexivity.
    + intros k Hk. unfold len in Hk. rewrite Nat2Z.id in Hk. cbv beta.
      simpl fst. simpl snd.
      destruct (lookup_lt_is_Some_2 (w v) k) as [pk Hpk]; [lia|].
      destruct (lookup_lt_is_Some_2 y k) as [yk Hyk]; [lia|].
      assert (Hdk : diffs !! k = Some (fsub pk yk)).
      { unfold diffs. rewrite lookup_zip_with, Hpk, Hyk. reflexivity. }
      set (cur := take k diffs ++ drop k (zeros n)).
      assert (Hcur : heap (set_vol s a (with_dw v cur)) !! a = Some (with_dw v cur)).
      { eapply set_vol_lookup. exact Hv. }
      erewrite bind_ok.
      2:{ eapply Volume_GetByIndex_ok; [exact Hcur|exact Hpk]. }
      unfold lift at 1. unfold bind at 1.
      rewrite (slice_get_lookup y (Z.of_nat k) yk)
        by (try lia; rewrite Nat2Z.id; exact Hyk).
      erewrite bind_ok.
      2:{ eapply Volume_SetGradByIndex_ok; [exact Hcur|].
          simpl. unfold cur. rewrite length_app, length_take, length_drop.
          unfold zeros. rewrite length_replicate. lia. }
      unfold ret. rewrite set_vol_set_vol. unfold with_dw. cbn [dim w dw].
      unfold cur. rewrite insert_take_drop.
      * rewrite (squared_error_sum_take_S diffs k _ Hdk). reflexivity.
      * unfold zeros. rewrite length_replicate. exact Hdl.
      * exact Hdk.
Qed.

(** X18.  DimensionalLoss panics for an index outside the outputs of the
    layer.  For an index inside, it zeroes all gradients of its input,
    sets the gradient at the index to the difference (prediction minus
    value) and returns half its square, added to 0. *)
Theorem regressionLayer_DimensionalLoss_closed (l : regressionLayer)
  (s : State F) (a : nat) (v : Volume F) (index : Z) (value : F) :
  regression_inVol l = Some a ->
  heap s !! a = Some v ->
  wf_volume v ->
  (index < 0 \/ Dimensions_Size (regression_outDim l) <= index ->
   exists msg, regressionLayer_DimensionalLoss l index value s = Panic msg)
  /\ (forall p,
        0 <= index < Dimensions_Size (regression_outDim l) ->
        w v !! Z.to_nat index = Some p ->
        regressionLayer_DimensionalLoss l index value s
        = Ok (fadd f0 (fmul (fmul (fdec 1 2) (fsub p value)) (fsub p value)),
              set_vol s a (with_dw v (<[Z.to_nat index := fsub p value]>
                                        (zeros (length (dw v))))))).
Proof.
  intros Hin Hv [Hw Hdw]. unfold regressionLayer_DimensionalLoss. split.
  - intros Hout.
    destruct (Z.ltb_spec index 0); [eexists; reflexivity|].
    destruct (Z.leb_spec (Dimensions_Size (regression_outDim l)) index);
      [eexists; reflexivity|lia].
  - intros p Hidx Hp.
    destruct (Z.ltb_spec index 0); [lia|].
    destruct (Z.leb_spec (Dimensions_Size (regression_outDim l)) index); [lia|].
    change (false || false) with false. cbv iota. rewrite Hin.
    rewrite (bind_ok _ _ _ _ _ (Volume_ZeroGrad_ok _ _ _ Hv Hdw)).
    set (v0 := with_dw v (zeros (length (dw v)))).
    assert (Hv0 : heap (set_vol s a v0) !! a = Some v0)
      by (eapply set_vol_lookup; exact Hv).
    remember (Z.to_nat index) as i eqn:Hi.
    replace index with (Z.of_nat i) by lia.
    erewrite bind_ok.
    2:{ eapply Volume_GetByIndex_ok; [exact Hv0|exact Hp]. }
    erewrite bind_ok.
    2:{ eapply Volume_SetGradByIndex_ok; [exact Hv0|].
        simpl. unfold zeros. rewrite length_replicate.
        apply lookup_lt_Some in Hp. unfold len in *. lia. }
    unfold ret. rewrite set_vol_set_vol. reflexivity.
Qed.

End RegressionFacts.

Lemma fullyConnLayer_Forward_closed_witness :
  @fullyConnLayer_Forward float binary64 ones_source fc_2x3 (Some 0%nat) false
    store_fc
  = Ok ((mkFullyConnLayer (fc_conf fc_2x3) (fc_input fc_2x3) (fc_output fc_2x3)
           (Some 0%nat) (Some (length (heap store_fc))) (fc_filters fc_2x3)
           (fc_biases fc_2x3),
         Some (length (heap store_fc))),
        mkState (heap store_fc
                 ++ [mkVolume (fc_output fc_2x3)
                       (fullyConn_out [1; 2; 3]%float
                          [mkVolume (NewDimensions 1 1 3) [1; 0; -1]%float
                             [0; 0; 0]%float;
                           mkVolume (NewDimensions 1 1 3) [2; 2; 2]%float
                             [0; 0; 0]%float]
                          [10; 20]%float)
                       (zeros 2)])
                (draws store_fc)).
Proof.
  apply (@fullyConnLayer_Forward_closed float binary64 ones_source fc_2x3 store_fc
           0%nat 3%nat
           (mkVolume (NewDimensions 1 1 3) [1; 2; 3]%float [0; 0; 0]%float)
           (mkVolume (NewDimensions 1 1 2) [10; 20]%float [0; 0]%float)
           [1%nat; 2%nat]
           [mkVolume (NewDimensions 1 1 3) [1; 0; -1]%float [0; 0; 0]%float;
            mkVolume (NewDimensions 1 1 3) [2; 2; 2]%float [0; 0; 0]%float]
           false).
  - reflexivity.
  - reflexivity.
  - repeat constructor.
  - reflexivity.
  - reflexivity.
  - reflexivity.
  - reflexivity.
  - reflexivity.
Defined.

Lemma regressionLayer_MultiDimensionalLoss_closed_witness :
  (len [1; 1; 1]%float <> Dimensions_Size (regression_outDim (regression_3 (Some 0%nat))) ->
   exists msg,
     @regressionLayer_MultiDimensionalLoss float binary64
       (regression_3 (Some 0%nat)) [1; 1; 1]%float store_fc = Panic msg)
  /\ (len [1; 1; 1]%float
      = Dimensions_Size (regression_outDim (regression_3 (Some 0%nat))) ->
      length [1; 1; 1]%float = length [1; 2; 3]%float ->
      @regressionLayer_MultiDimensionalLoss float binary64
        (regression_3 (Some 0%nat)) [1; 1; 1]%float store_fc
      = Ok (squared_error_sum (zip_with fsub [1; 2; 3]%float [1; 1; 1]%float),
            set_vol store_fc 0
              (with_dw (mkVolume (NewDimensions 1 1 3) [1; 2; 3]%float
                          [0; 0; 0]%float)
                 (zip_with fsub [1; 2; 3]%float [1; 1; 1]%float)))).
Proof.
  apply (@regressionLayer_MultiDimensionalLoss_closed float binary64
           (regression_3 (Some 0%nat)) store_fc 0%nat
           (mkVolume (NewDimensions 1 1 3) [1; 2; 3]%float [0; 0; 0]%float)
           [1; 1; 1]%float).
  - reflexivity.
  - reflexivity.
  - split; reflexivity.
Defined.

Lemma regressionLayer_DimensionalLoss_closed_witness :
  (1 < 0 \/ Dimensions_Size (regression_outDim (regression_3 (Some 0%nat))) <= 1 ->
   exists msg,
     @regressionLayer_DimensionalLoss float binary64
       (regression_3 (Some 0%nat)) 1 5%float store_fc = Panic msg)
  /\ (forall p,
        0 <= 1 < Dimensions_Size (regression_outDim (regression_3 (Some 0%nat))) ->
        [1; 2; 3]%float !! Z.to_nat 1 = Some p ->
        @regressionLayer_DimensionalLoss float binary64
          (regression_3 (Some 0%nat)) 1 5%float store_fc
        = Ok (fadd f0 (fmul (fmul (fdec 1 2) (fsub p 5%float)) (fsub p 5%float)),
              set_vol store_fc 0
                (with_dw (mkVolume (NewDimensions 1 1 3) [1; 2; 3]%float
                            [0; 0; 0]%float)
                   (<[Z.to_nat 1 := fsub p 5%float]> (zeros 3))))).
Proof.
  apply (@regressionLayer_DimensionalLoss_closed float binary64
           (regression_3 (Some 0%nat)) store_fc 0%nat
           (mkVolume (NewDimensions 1 1 3) [1; 2; 3]%float [0; 0; 0]%float)
           1 5%float).
  - reflexivity.
  - reflexivity.
  - split; reflexivity.
Defined.


(** ** The sigmoid layer *)

Section SigmoidFacts.
Context {F : Type} `{Float64 F} `{Libm F} `{GoRand F}.


End SigmoidFacts.




(** ** GetSoftMaxPrediction *)

Section PredictionFacts.
Context {F : Type} `{Float64 F} `{GoRand F}.



End PredictionFacts.





(** ** ActivateLayers *)

Section ActivateFacts.
Context {F : Type} `{Float64 F} `{GoRand F}.


Lemma is_loss_type_false (t : LayerType) :
  is_loss_type t = false ->
  String.eqb t SoftMax = false /\ String.eqb t SVM = false
  /\ String.eqb t Regression = false.
Proof.
  unfold is_loss_type. intros Hl.
  apply orb_false_elim in Hl as [Hl Hr]. apply orb_false_elim in Hl as [Hs Hv].
  auto.
Qed.

(** One step of ActivateLayers on a plain definition appends it. *)
Lemma activateLayer_plain (newDefs : list (LayerDef F)) (d : LayerDef F)
  (s : State F) :
  plain_def d -> activateLayer newDefs d s = Ok (newDefs ++ [d], s).
Proof.
  intros (Hloss & Hact & Hdrop).
  destruct (is_loss_type_false _ Hloss) as (Hs & Hv & Hr).
  destruct d as [t i o act dr mx conf]. simpl in *. subst act dr.
  unfold activateLayer. simpl def_Type. simpl def_Activation. simpl def_Dropout.
  rewrite Hs, Hv, Hr. simpl orb. cbv iota.
  unfold bind at 1. unfold ret at 1. unfold bind at 1. unfold ret at 1.
  replace (String.eqb "" ReLU) with false by reflexivity.
  destruct (String.eqb t FullyConnected || String.eqb t Conv); reflexivity.
Qed.

Lemma for_each_plain (defs newDefs : list (LayerDef F)) (s : State F) :
  Forall plain_def defs ->
  for_each defs activateLayer newDefs s = Ok (newDefs ++ defs, s).
Proof.
  intros Hall. revert newDefs.
  induction Hall as [|d defs Hd _ IH]; intros newDefs.
  - simpl. rewrite app_nil_r. reflexivity.
  - simpl. rewrite (bind_ok _ _ _ _ _ (activateLayer_plain newDefs d s Hd)).
    rewrite IH, <- app_assoc. reflexivity.
Qed.

(** X21.  ActivateLayers returns a list of plain definitions (no loss
    type, no activation, no dropout) as it is, and leaves the store as
    it was. *)
Theorem ActivateLayers_plain (defs : list (LayerDef F)) (s : State F) :
  Forall plain_def defs -> ActivateLayers defs s = Ok (defs, s).
Proof.
  intros Hall. unfold ActivateLayers.
  rewrite (for_each_plain defs [] s Hall). reflexivity.
Qed.

(** What one step of ActivateLayers appends: the accumulated
    definitions are kept, and the step of an expanding definition
    appends a definition without output. *)
Lemma activateLayer_inv (newDefs newDefs' : list (LayerDef F)) (d : LayerDef F)
  (s s' : State F) :
  activateLayer newDefs d s = Ok (newDefs', s') ->
  exists ext,
    newDefs' = newDefs ++ ext
    /\ (expanding_def d -> Exists without_output ext).
Proof.
  unfold activateLayer. intros Hact.
  apply bind_inv_ok in Hact as (nd1 & s1 & H1 & Hact).
  apply bind_inv_ok in Hact as (nd2 & s2 & H2 & Hact).
  assert (Hfc : forall c : fullyConnLayerConfig F, without_output (fullyConnDef c)).
  { intros c. split; reflexivity. }
  assert (Hty : forall (t : LayerType) (c : LayerConfig F),
            needs_output t = true -> without_output (typeDef t c)).
  { intros t c Ht. split; [reflexivity|exact Ht]. }
  (* the fully connected definition before a softmax or an SVM *)
  assert (E1 : exists e1, nd1 = newDefs ++ e1
               /\ (String.eqb (def_Type d) SoftMax || String.eqb (def_Type d) SVM
                   = true -> Exists without_output e1)).
  { destruct (String.eqb (def_Type d) SoftMax || String.eqb (def_Type d) SVM).
    - destruct (def_LayerConfig d); try discriminate H1;
        apply bind_inv_ok in H1 as (fc & sc & _ & H1); injection H1 as <- _;
        exists [fullyConnDef fc]; (split; [reflexivity|]);
        intros _; apply Exists_cons_hd; apply Hfc.
    - injection H1 as <- _. exists []. split; [rewrite app_nil_r; reflexivity|].
      discriminate. }
  (* the fully connected definition before a regression *)
  assert (E2 : exists e2, nd2 = nd1 ++ e2
               /\ (String.eqb (def_Type d) Regression = true ->
                   Exists without_output e2)).
  { destruct (String.eqb (def_Type d) Regression).
    - destruct (def_LayerConfig d); try discriminate H2;
        apply bind_inv_ok in H2 as (fc & sc & _ & H2); injection H2 as <- _;
        exists [fullyConnDef fc]; (split; [reflexivity|]);
        intros _; apply Exists_cons_hd; apply Hfc.
    - injection H2 as <- _. exists []. split; [rewrite app_nil_r; reflexivity|].
      discriminate. }
  destruct E1 as (e1 & -> & He1). destruct E2 as (e2 & -> & He2).
  set (def' := if String.eqb (def_Type d) FullyConnected
                  || String.eqb (def_Type d) Conv
               then if String.eqb (def_Activation d) ReLU
                    then match def_LayerConfig d with
                         | fullyConnConfig conf =>
                             with_LayerConfig d
                               (fullyConnConfig
                                  (mkFullyConnLayerConfig (fc_Neurons conf)
                                     (fc_L1DecayMult conf) (fc_L2DecayMult conf)
                                     (fdec 1 10)))
                         | convConfig conf =>
                             with_LayerConfig d
                               (convConfig
                                  (mkConvLayerConfig (conv_FilterCount conf)
                                     (conv_Sx conf) (conv_Sy conf)
                                     (conv_Stride conf) (conv_Padding conf)
                                     (conv_L1DecayMult conf)
                                     (conv_L2DecayMult conf) (fdec 1 10)))
                         | _ => d
                         end
                    else d
               else d) in Hact.
  assert (Hsame : def_Activation def' = def_Activation d).
  { unfold def'.
    destruct (String.eqb (def_Type d) FullyConnected || String.eqb (def_Type d) Conv);
      [|reflexivity].
    destruct (String.eqb (def_Activation d) ReLU); [|reflexivity].
    destruct (def_LayerConfig d); reflexivity. }
  cbv zeta in Hact.
  apply bind_inv_ok in Hact as (nd3 & s3 & H3 & Hact).
  rewrite Hsame in H3.
  (* the activation definition after the definition itself *)
  assert (E3 : exists e3, nd3 = ((newDefs ++ e1) ++ e2) ++ [def'] ++ e3
               /\ (def_Activation d <> ""%string -> Exists without_output e3)).
  { destruct (String.eqb_spec (def_Activation d) "") as [Hemp|Hnon].
    - injection H3 as <- _. exists []. split; [reflexivity|]. contradiction.
    - simpl negb in H3. cbv iota in H3.
      destruct (String.eqb (def_Activation d) ReLU);
        [injection H3 as <- _; eexists; split;
           [rewrite <- app_assoc; reflexivity
           |intros _; apply Exists_cons_hd; apply Hty; reflexivity]|].
      destruct (String.eqb (def_Activation d) Sigmoid);
        [injection H3 as <- _; eexists; split;
           [rewrite <- app_assoc; reflexivity
           |intros _; apply Exists_cons_hd; apply Hty; reflexivity]|].
      destruct (String.eqb (def_Activation d) Tanh);
        [injection H3 as <- _; eexists; split;
           [rewrite <- app_assoc; reflexivity
           |intros _; apply Exists_cons_hd; apply Hty; reflexivity]|].
      destruct (String.eqb (def_Activation d) Maxout);
        [injection H3 as <- _; eexists; split;
           [rewrite <- app_assoc; reflexivity
           |intros _; apply Exists_cons_hd; apply Hty; reflexivity]|].
      discriminate H3. }
  destruct E3 as (e3 & -> & He3).
  assert (E4 : exists e4, newDefs' = (((newDefs ++ e1) ++ e2) ++ [def'] ++ e3) ++ e4).
  { destruct (def_Dropout def'); injection Hact as <- _.
    - eexists. reflexivity.
    - exists []. rewrite app_nil_r. reflexivity. }
  destruct E4 as (e4 & ->).
  exists (e1 ++ e2 ++ [def'] ++ e3 ++ e4). split.
  - rewrite <- !app_assoc. reflexivity.
  - intros [Hloss|Hactv].
    + unfold is_loss_type in Hloss.
      apply orb_true_elim in Hloss as [Hloss|Hreg].
      * apply Exists_app. left. apply He1. exact Hloss.
      * apply Exists_app. right. apply Exists_app. left. apply He2. exact Hreg.
    + apply Exists_app. right. apply Exists_app. right.
      apply Exists_app. right. apply Exists_app. left. apply He3. exact Hactv.
Qed.

Lemma for_each_activate_inv (defs acc newDefs : list (LayerDef F))
  (s s' : State F) :
  for_each defs activateLayer acc s = Ok (newDefs, s') ->
  Exists without_output acc \/ Exists expanding_def defs ->
  Exists without_output newDefs.
Proof.
  revert acc s. induction defs as [|d defs IH]; intros acc s Hrun Hex.
  - simpl in Hrun. injection Hrun as <- _.
    destruct Hex as [Hex|Hex]; [exact Hex|]. inversion Hex.
  - simpl in Hrun. apply bind_inv_ok in Hrun as (acc' & s1 & Hstep & Hrun).
    destruct (activateLayer_inv _ _ _ _ _ Hstep) as (ext & -> & Hext).
    apply (IH _ _ Hrun).
    destruct Hex as [Hex|Hex].
    + left. apply Exists_app. left. exact Hex.
    + apply Exists_cons in Hex as [Hd|Htl].
      * left. apply Exists_app. right. apply Hext. exact Hd.
      * right. exact Htl.
Qed.

(** The constructor of a definition without output panics. *)
Lemma newLayer_without_output (d : LayerDef F) :
  without_output d ->
  exists mk, newLayer d = Some mk /\ forall s, exists msg, mk s = Panic msg.
Proof.
  intros [Hout Hty]. destruct d as [t i o act dr mx conf]. simpl in Hout, Hty.
  unfold needs_output in Hty.
  destruct (String.eqb_spec t FullyConnected) as [->|_].
  { eexists. split; [reflexivity|]. intros s. eexists.
    unfold bind, NewFullyConnectedLayer. simpl. rewrite Hout. reflexivity. }
  destruct (String.eqb_spec t ReLU) as [->|_].
  { eexists. split; [reflexivity|]. intros s. eexists.
    unfold bind, NewReluLayer. simpl. rewrite Hout. reflexivity. }
  destruct (String.eqb_spec t Sigmoid) as [->|_].
  { eexists. split; [reflexivity|]. intros s. eexists.
    unfold bind, NewSigmoidLayer. simpl. rewrite Hout. reflexivity. }
  destruct (String.eqb_spec t Tanh) as [->|_].
  { eexists. split; [reflexivity|]. intros s. eexists.
    unfold bind, NewTanhLayer. simpl. rewrite Hout. reflexivity. }
  destruct (String.eqb_spec t Maxout) as [->|_].
  { eexists. split; [reflexivity|]. intros s. eexists.
    unfold bind, NewMaxoutLayer. simpl. rewrite Hout. reflexivity. }
  discriminate Hty.
Qed.

Lemma without_output_with_Input (d : LayerDef F) (input : Dimensions) :
  without_output d -> without_output (with_Input d input).
Proof. intros Hd. exact Hd. Qed.

(** The loop of NewNetwork returns no layers when one of the
    definitions is without output. *)
Lemma buildLayers_without_output (defs : list (LayerDef F)) :
  Exists without_output defs ->
  forall prev newLayers s r s',
    buildLayers prev defs newLayers s = Ok (r, s') ->
    exists msg, r = Error msg.
Proof.
  induction defs as [|def0 rest IH]; intros Hex prev newLayers s r s' Hrun.
  - inversion Hex.
  - simpl in Hrun.
    set (def := match prev with
                | Some p => with_Input def0 (def_Output p)
                | None => def0
                end) in Hrun.
    destruct (newLayer def) as [mk|] eqn:Hmk.
    + apply bind_inv_ok in Hrun as (l & s1 & Hl & Hrun).
      apply Exists_cons in Hex as [Hbad|Hrest].
      * assert (Hdef : without_output def).
        { unfold def. destruct prev; [apply without_output_with_Input|];
            exact Hbad. }
        destruct (newLayer_without_output def Hdef) as (mk' & Hmk' & Hpanic).
        rewrite Hmk in Hmk'. injection Hmk' as <-.
        destruct (Hpanic s) as [msg Hmsg]. rewrite Hmsg in Hl. discriminate.
      * eapply IH; eassumption.
    + injection Hrun as <- _. eexists. reflexivity.
Qed.

(** X22.  NewNetwork never returns a network for definitions of which
    one has a loss type (softmax, svm, regression) or names an
    activation: ActivateLayers gives every definition it inserts for
    them empty output dimensions, which the constructors of the
    inserted layers reject.  NewNetwork then panics or returns an
    error. *)
Theorem NewNetwork_rejects_expanding_defs (defs : list (LayerDef F))
  (s : State F) :
  Exists expanding_def defs ->
  returns_network (NewNetwork defs s) = false.
Proof.
  intros Hex.
  destruct (NewNetwork defs s) as [[[n|msg] s']|msg] eqn:Hnew; try reflexivity.
  exfalso. unfold NewNetwork in Hnew.
  destruct (len defs <=? 2); [discriminate|].
  apply bind_inv_ok in Hnew as (d0 & s0 & _ & Hnew).
  destruct (negb (String.eqb (def_Type d0) Input)); [discriminate|].
  apply bind_inv_ok in Hnew as (defs' & s1 & Hact & Hnew).
  apply bind_inv_ok in Hnew as (r & s2 & Hbuild & Hnew).
  assert (Hbad : Exists without_output defs').
  { eapply for_each_activate_inv; [exact Hact|]. right. exact Hex. }
  destruct (buildLayers_without_output defs' Hbad _ _ _ _ _ Hbuild) as [msg ->].
  discriminate.
Qed.

End ActivateFacts.

Lemma ActivateLayers_plain_witness :
  ActivateLayers defs_plain (scores_store [1; 3; 3]%R)
  = Ok (defs_plain, scores_store [1; 3; 3]%R).
Proof.
  apply (@ActivateLayers_plain R realnum defs_plain).
  repeat constructor.
Defined.

Lemma NewNetwork_rejects_expanding_defs_witness :
  returns_network
    (@NewNetwork R realnum zero_source defs_svm (scores_store [1; 3; 3]%R))
  = false.
Proof.
  apply (@NewNetwork_rejects_expanding_defs R realnum zero_source defs_svm).
  apply Exists_cons_tl. apply Exists_cons_tl. apply Exists_cons_hd.
  left. reflexivity.
Defined.

(** ** Layers that have not seen Forward *)

Section FreshLayers.
Context {F : Type} `{Float64 F} `{GoRand F}.

Lemma ZeroGrad_nil (s : State F) :
  Volume_ZeroGrad None s = Panic "nil pointer dereference".
Proof. reflexivity. Qed.

Lemma NewFullyConnectedLayer_fresh (def : LayerDef F) (s s' : State F)
  (l : fullyConnLayer F) :
  NewFullyConnectedLayer def s = Ok (l, s') -> fc_inVol l = None.
Proof.
  unfold NewFullyConnectedLayer.
  destruct (negb _); [discriminate|].
  destruct (_ =? 0); [discriminate|].
  destruct (def_LayerConfig def); try discriminate.
  intros Hnew.
  apply bind_inv_ok in Hnew as (filters & s1 & _ & Hnew).
  apply bind_inv_ok in Hnew as (biases & s2 & _ & Hnew).
  injection Hnew as <- _. reflexivity.
Qed.

Lemma NewConvLayer_fresh (def : LayerDef F) (s s' : State F) (l : convLayer F) :
  NewConvLayer def s = Ok (l, s') -> conv_inVol l = None.
Proof.
  unfold NewConvLayer.
  destruct (negb _); [discriminate|].
  destruct (_ =? 0); [discriminate|].
  destruct (def_LayerConfig def); try discriminate.
  intros Hnew. cbv zeta in Hnew.
  apply bind_inv_ok in Hnew as (filters & s1 & _ & Hnew).
  apply bind_inv_ok in Hnew as (biases & s2 & _ & Hnew).
  injection Hnew as <- _. reflexivity.
Qed.

Lemma NewPoolLayer_fresh (def : LayerDef F) (s s' : State F) (l : poolLayer) :
  NewPoolLayer def s = Ok (l, s') -> pool_inVol l = None.
Proof.
  unfold NewPoolLayer.
  destruct (negb _); [discriminate|].
  destruct (_ =? 0); [discriminate|].
  destruct (def_LayerConfig def); try discriminate.
  intros Hnew. cbv zeta in Hnew.
  apply bind_inv_ok in Hnew as (switchX & s1 & _ & Hnew).
  apply bind_inv_ok in Hnew as (switchY & s2 & _ & Hnew).
  injection Hnew as <- _. reflexivity.
Qed.

Lemma NewDropoutLayer_fresh (def : LayerDef F) (s s' : State F)
  (l : dropoutLayer F) :
  NewDropoutLayer def s = Ok (l, s') -> dropout_inVol l = None.
Proof.
  unfold NewDropoutLayer.
  destruct (negb _); [discriminate|].
  destruct (def_LayerConfig def); try discriminate.
  intros Hnew. cbv zeta in Hnew.
  apply bind_inv_ok in Hnew as (dropped & s1 & _ & Hnew).
  injection Hnew as <- _. reflexivity.
Qed.

Lemma NewMaxoutLayer_fresh (def : LayerDef F) (s s' : State F) (l : maxoutLayer) :
  NewMaxoutLayer def s = Ok (l, s') -> maxout_inVol l = None.
Proof.
  unfold NewMaxoutLayer.
  destruct (negb _); [discriminate|].
  destruct (_ =? 0); [discriminate|].
  destruct (def_LayerConfig def); try discriminate.
  destruct (_ <=? 0); [discriminate|].
  intros Hnew.
  apply bind_inv_ok in Hnew as (switches & s1 & _ & Hnew).
  injection Hnew as <- _. reflexivity.
Qed.

Lemma NewReluLayer_fresh (def : LayerDef F) (s s' : State F) (l : reluLayer) :
  NewReluLayer def s = Ok (l, s') -> relu_inVol l = None.
Proof.
  unfold NewReluLayer.
  destruct (negb _); [discriminate|].
  destruct (_ =? 0); [discriminate|].
  intros Hnew. injection Hnew as <- _. reflexivity.
Qed.

Lemma NewSigmoidLayer_fresh (def : LayerDef F) (s s' : State F) (l : sigmoidLayer) :
  NewSigmoidLayer def s = Ok (l, s') -> sigmoid_inVol l = None.
Proof.
  unfold NewSigmoidLayer.
  destruct (negb _); [discriminate|].
  destruct (_ =? 0); [discriminate|].
  intros Hnew. injection Hnew as <- _. reflexivity.
Qed.

Lemma NewTanhLayer_fresh (def : LayerDef F) (s s' : State F) (l : tanhLayer) :
  NewTanhLayer def s = Ok (l, s') -> tanh_inVol l = None.
Proof.
  unfold NewTanhLayer.
  destruct (negb _); [discriminate|].
  destruct (_ =? 0); [discriminate|].
  intros Hnew. injection Hnew as <- _. reflexivity.
Qed.

(** X23.  Backward panics on every layer that NewNetwork's constructors
    return, as long as the layer has not seen Forward: the layers with
    a backward pass start by dereferencing the input volume, which is
    still nil, and the input and the loss layers do not support
    Backward at all. *)
Theorem fresh_layer_Backward_panics (def : LayerDef F)
  (mk : M (State F) (Layer F)) (s s1 : State F) (l : Layer F) :
  newLayer def = Some mk ->
  mk s = Ok (l, s1) ->
  forall s2, is_panic (Layer_Backward l s2) = true.
Proof.
  unfold newLayer. intros Hmk Hl s2.
  enough (exists msg, Layer_Backward l s2 = Panic msg) as [msg ->]
    by reflexivity.
  repeat match type of Hmk with
         | (if ?b then _ else _) = _ => destruct b
         end;
    try discriminate Hmk; injection Hmk as <-;
    apply bind_inv_ok in Hl as (lx & sx & Hnew & Hl); injection Hl as <- _;
    eexists; simpl Layer_Backward; apply bind_panic.
  - apply NewFullyConnectedLayer_fresh in Hnew.
    unfold fullyConnLayer_Backward. rewrite Hnew. reflexivity.
  - apply NewDropoutLayer_fresh in Hnew.
    unfold dropoutLayer_Backward. rewrite Hnew. reflexivity.
  - reflexivity.
  - reflexivity.
  - reflexivity.
  - apply NewConvLayer_fresh in Hnew.
    unfold convLayer_Backward. rewrite Hnew. reflexivity.
  - apply NewPoolLayer_fresh in Hnew.
    unfold poolLayer_Backward. rewrite Hnew. reflexivity.
  - apply NewReluLayer_fresh in Hnew.
    unfold reluLayer_Backward. rewrite Hnew. reflexivity.
  - apply NewSigmoidLayer_fresh in Hnew.
    unfold sigmoidLayer_Backward. rewrite Hnew. reflexivity.
  - apply NewTanhLayer_fresh in Hnew.
    unfold tanhLayer_Backward. rewrite Hnew. reflexivity.
  - apply NewMaxoutLayer_fresh in Hnew.
    unfold maxoutLayer_Backward. rewrite Hnew. reflexivity.
  - reflexivity.
Qed.

End FreshLayers.

Lemma fresh_layer_Backward_panics_witness :
  is_panic (Layer_Backward (reluL (mkReluLayer (NewDimensions 1 1 2) None None))
              (scores_store [1; 3; 3]%R))
  = true.
Proof.
  refine (@fresh_layer_Backward_panics R realnum zero_source
           (realDef ReLU zeroDimensions (NewDimensions 1 1 2) nilConfig)
           (let* l := NewReluLayer
                        (realDef ReLU zeroDimensions (NewDimensions 1 1 2) nilConfig)
            in ret (reluL l))
           (scores_store [1; 3; 3]%R) (scores_store [1; 3; 3]%R)
           (reluL (mkReluLayer (NewDimensions 1 1 2) None None))
           _ _ (scores_store [1; 3; 3]%R)).
  - reflexivity.
  - reflexivity.
Defined.

(** ** The loss entry points of the network *)

Section NetworkEntryPoints.
Context {F : Type} `{Float64 F} `{Libm F} `{GoRand F}.

Lemma layer_at_last (n : network F) (init : list (Layer F)) (last : Layer F)
  (s : State F) :
  layers n = init ++ [last] ->
  len (layers n) < 2 ^ 63 ->
  layer_at n (GoInt.sub (network_Size n) 1) s = Ok (last, s).
Proof.
  intros Hl Hfit. unfold layer_at, network_Size, GoInt.sub, lift.
  assert (Hlen : len (layers n) = Z.of_nat (length init) + 1).
  { unfold len. rewrite Hl, length_app. simpl. lia. }
  rewrite Hlen in Hfit |- *.
  rewrite wrap_small by (unfold GoInt.in_range; lia).
  rewrite (slice_get_lookup _ _ last); [reflexivity|lia|].
  replace (Z.to_nat (Z.of_nat (length init) + 1 - 1)) with (length init) by lia.
  rewrite Hl, lookup_app_r by lia. rewrite Nat.sub_diag. reflexivity.
Qed.

(** X24.  The loss entry points of a network look at its last layer
    only: Backward panics unless that layer is a softmax or an SVM
    layer, GetPrediction unless it is a softmax layer, and
    MultiDimensionalLoss and DimensionalLoss unless it is a regression
    layer; in each case before any layer is touched. *)
Theorem network_loss_entry_points (n : network F) (init : list (Layer F))
  (last : Layer F) (s : State F) :
  layers n = init ++ [last] ->
  len (layers n) < 2 ^ 63 ->
  (Layer_Type last <> SoftMax -> Layer_Type last <> SVM ->
   forall index,
     network_Backward n index s
     = Panic "expecting loss layer as last layer in network")
  /\ (Layer_Type last <> SoftMax ->
      network_GetPrediction n s
      = Panic "GetPrediction assumes Softmax is the last layer in the network")
  /\ (Layer_Type last <> Regression ->
      (forall y,
         network_MultiDimensionalLoss n y s
         = Panic "MultiDimensionalLoss assumes a Regression layer is the last layer in the network")
      /\ (forall index value,
            network_DimensionalLoss n index value s
            = Panic "DimensionalLoss assumes a Regression layer is the last layer in the network")).
Proof.
  intros Hl Hfit. pose proof (layer_at_last n init last s Hl Hfit) as Hlast.
  split; [|split].
  - intros Hsm Hsvm index. unfold network_Backward. cbv zeta.
    rewrite (bind_ok _ _ _ _ _ Hlast).
    destruct last; try reflexivity; exfalso; [apply Hsm|apply Hsvm]; reflexivity.
  - intros Hsm. unfold network_GetPrediction.
    rewrite (bind_ok _ _ _ _ _ Hlast).
    destruct last; try reflexivity. exfalso. apply Hsm. reflexivity.
  - intros Hreg. split.
    + intros y. unfold network_MultiDimensionalLoss.
      rewrite (bind_ok _ _ _ _ _ Hlast).
      destruct last; try reflexivity. exfalso. apply Hreg. reflexivity.
    + intros index value. unfold network_DimensionalLoss.
      rewrite (bind_ok _ _ _ _ _ Hlast).
      destruct last; try reflexivity. exfalso. apply Hreg. reflexivity.
Qed.

End NetworkEntryPoints.

Lemma network_loss_entry_points_witness :
  (Layer_Type (reluL (mkReluLayer (NewDimensions 1 1 4) None None) : Layer R)
   <> SoftMax ->
   Layer_Type (reluL (mkReluLayer (NewDimensions 1 1 4) None None) : Layer R)
   <> SVM ->
   forall index,
     network_Backward network_relu index (scores_store [1; 3; 3]%R)
     = Panic "expecting loss layer as last layer in network")
  /\ (Layer_Type (reluL (mkReluLayer (NewDimensions 1 1 4) None None) : Layer R)
      <> SoftMax ->
      network_GetPrediction network_relu (scores_store [1; 3; 3]%R)
      = Panic "GetPrediction assumes Softmax is the last layer in the network")
  /\ (Layer_Type (reluL (mkReluLayer (NewDimensions 1 1 4) None None) : Layer R)
      <> Regression ->
      (forall y,
         network_MultiDimensionalLoss network_relu y (scores_store [1; 3; 3]%R)
         = Panic "MultiDimensionalLoss assumes a Regression layer is the last layer in the network")
      /\ (forall index value,
            network_DimensionalLoss network_relu index value
              (scores_store [1; 3; 3]%R)
            = Panic "DimensionalLoss assumes a Regression layer is the last layer in the network")).
Proof.
  apply (@network_loss_entry_points R realnum realnum_libm network_relu
           [inputL (mkInputLayer (NewDimensions 1 1 4) None None)]
           (reluL (mkReluLayer (NewDimensions 1 1 4) None None))
           (scores_store [1; 3; 3]%R)).
  - reflexivity.
  - vm_compute. reflexivity.
Defined.


(** ** The trainer *)

Lemma for_range_first_panics {St A} (n : Z) (body : Z -> A -> M St A) (acc : A)
  (s : St) (msg : string) :
  0 < n -> body 0 acc s = Panic msg -> for_range n body acc s = Panic msg.
Proof.
  intros Hn Hb. unfold for_range.
  destruct (Z.to_nat n) eqn:E; [lia|]. simpl. apply bind_panic. exact Hb.
Qed.

Section TrainerFacts.
Context {F : Type} `{Float64 F} `{Libm F} `{GoRand F}.

(** X25.  A batch size of 0 is accepted by the options, and Train then
    never returns: once Forward and the loss function have run, the
    remainder [k % 0] panics. *)
Theorem trainer_Train_BatchSize_zero (t : trainer F) (vol : ptr)
  (lossFunc : LossFunc) (s : State F) :
  BatchSize (t_opts t) = 0 ->
  (exists msg, trainer_Train t vol lossFunc s = Panic msg)
  /\ (forall net out s1 net' costLoss s2,
        network_Forward (t_net t) vol true s = Ok ((net, out), s1) ->
        lossFunc net s1 = Ok ((net', costLoss), s2) ->
        trainer_Train t vol lossFunc s = Panic "integer divide by zero").
Proof.
  intros HB.
  assert (Hrun : forall net out s1 net' costLoss s2,
            network_Forward (t_net t) vol true s = Ok ((net, out), s1) ->
            lossFunc net s1 = Ok ((net', costLoss), s2) ->
            trainer_Train t vol lossFunc s = Panic "integer divide by zero").
  { intros net out s1 net' costLoss s2 Hfwd Hloss. unfold trainer_Train.
    rewrite (bind_ok _ _ _ _ _ Hfwd). rewrite (bind_ok _ _ _ _ _ Hloss).
    cbv zeta. cbn [t_opts]. rewrite HB. reflexivity. }
  split; [|exact Hrun].
  destruct (network_Forward (t_net t) vol true s) as [[[net out] s1]|msg] eqn:Hfwd.
  - destruct (lossFunc net s1) as [[[net' costLoss] s2]|msg] eqn:Hloss.
    + eexists. eapply Hrun; [reflexivity|exact Hloss].
    + exists msg. unfold trainer_Train. rewrite (bind_ok _ _ _ _ _ Hfwd).
      apply bind_panic. exact Hloss.
  - exists msg. unfold trainer_Train. apply bind_panic. exact Hfwd.
Qed.

(** X26.  With a training method other than SGD and a momentum that is
    not positive, the accumulators are never allocated, and the first
    parameter update panics on [t.gsum[i]] as soon as the network has a
    parameter. *)
Theorem update_pass_without_accumulators (t : trainer F) (s : State F)
  (pg : LayerResponse F) (rest : list (LayerResponse F)) (a : nat)
  (v : Volume F) :
  gsum t = [] ->
  String.eqb (Method (t_opts t)) SGD = false ->
  fgtb (Momentum (t_opts t)) f0 = false ->
  network_GetResponse (t_net t) s = Ok (pg :: rest, s) ->
  resp_vol pg = Some a ->
  heap s !! a = Some v ->
  wf_volume v ->
  w v <> [] ->
  update_pass t s = Panic "index out of range".
Proof.
  intros Hg Hm Hmom Hresp Hpg Hv [Hw Hdw] Hne.
  unfold update_pass. rewrite (bind_ok _ _ _ _ _ Hresp).
  unfold init_accumulators, accumulators_needed.
  rewrite Hm, Hmom, andb_false_r. simpl orb. cbv iota.
  unfold bind at 1. unfold ret at 1.
  unfold update_parameters.
  apply for_range_first_panics; [unfold len; simpl; lia|].
  unfold bind at 1. unfold lift at 1.
  change (slice_get (pg :: rest) 0) with (Ok pg). cbv iota beta.
  rewrite Hpg. rewrite (bind_ok _ _ _ _ _ (Volume_Weights_ok _ _ _ Hv)).
  destruct (w v) as [|p0 ps] eqn:Hwv; [contradiction|].
  destruct (dw v) as [|g0 gs] eqn:Hdwv.
  { unfold len in *. simpl in *. lia. }
  apply for_range_first_panics; [unfold len; simpl; lia|].
  unfold update_parameter. cbv zeta. rewrite Hpg.
  rewrite (bind_ok _ _ _ p0 s).
  2:{ apply (Volume_GetByIndex_ok s a v 0); [exact Hv|rewrite Hwv; reflexivity]. }
  rewrite (bind_ok _ _ _ g0 s).
  2:{ apply (Volume_GetGradByIndex_ok s a v 0); [exact Hv|rewrite Hdwv; reflexivity]. }
  rewrite Hg. reflexivity.
Qed.

(** X27.  Plain gradient descent (method SGD, momentum not positive) on
    the parameters of one response: every parameter [p] with gradient
    [g] becomes [p - LearningRate * (l2Decay * p + l1Grad + g) /
    BatchSize], every gradient becomes 0, the decay losses are
    accumulated over the old parameters, and the accumulators of the
    trainer are not touched. *)
Theorem sgd_update_volume (t : trainer F) (i : nat) (gi xi : list F)
  (pg : LayerResponse F) (l1Decay l2Decay l1Loss l2Loss : F) (s : State F)
  (a : nat) (v : Volume F) :
  Method (t_opts t) = SGD ->
  fgtb (Momentum (t_opts t)) f0 = false ->
  gsum t !! i = Some gi ->
  xsum t !! i = Some xi ->
  resp_vol pg = Some a ->
  heap s !! a = Some v ->
  wf_volume v ->
  for_range (len (w v)) (update_parameter (Z.of_nat i) pg l1Decay l2Decay)
    (t, l1Loss, l2Loss) s
  = Ok ((t,
         fst (decay_losses l1Decay l2Decay (w v) (l1Loss, l2Loss)),
         snd (decay_losses l1Decay l2Decay (w v) (l1Loss, l2Loss))),
        set_vol s a
          (mkVolume (dim v)
             (zip_with (sgd_step (t_opts t) l1Decay l2Decay) (w v) (dw v))
             (zeros (length (dw v))))).
Proof.
  intros Hm Hmom Hgi Hxi Hpg Hv [Hw Hdw].
  set (n := length (w v)).
  assert (Hn : length (dw v) = n) by (unfold n, len in *; lia).
  set (W' := zip_with (sgd_step (t_opts t) l1Decay l2Decay) (w v) (dw v)).
  assert (HW' : length W' = n) by (unfold W'; rewrite length_zip_with; lia).
  set (D := fun k => decay_losses l1Decay l2Decay (take k (w v)) (l1Loss, l2Loss)).
  rewrite (for_range_steps _
    (fun k => ((t, fst (D k), snd (D k)),
               set_vol s a (mkVolume (dim v) (take k W' ++ drop k (w v))
                              (take k (zeros n) ++ drop k (dw v)))))).
  - unfold len. rewrite Nat2Z.id. fold n. unfold D.
    rewrite !take_ge, !drop_ge
      by (try (unfold zeros; rewrite length_replicate); lia).
    rewrite !app_nil_r, Hn. reflexivity.
  - cbv beta. unfold D. simpl take. rewrite !drop_0. simpl app.
    rewrite set_vol_id; [reflexivity|]. destruct v; exact Hv.
  - intros k Hk. unfold len in Hk. rewrite Nat2Z.id in Hk. fold n in Hk.
    cbv beta. cbn [fst snd].
    destruct (lookup_lt_is_Some_2 (w v) k) as [pk Hpk]; [fold n; lia|].
    destruct (lookup_lt_is_Some_2 (dw v) k) as [gk Hgk]; [lia|].
    set (cw := take k W' ++ drop k (w v)).
    set (cg := take k (zeros n) ++ drop k (dw v)).
    set (st := set_vol s a (mkVolume (dim v) cw cg)).
    assert (Hst : heap st !! a = Some (mkVolume (dim v) cw cg))
      by (eapply set_vol_lookup; exact Hv).
    assert (Hcw : cw !! k = Some pk).
    { unfold cw. rewrite lookup_take_drop; [exact Hpk|fold n; lia|fold n; lia]. }
    assert (Hcg : cg !! k = Some gk).
    { unfold cg. rewrite lookup_take_drop; [exact Hgk| |lia].
      unfold zeros. rewrite length_replicate. lia. }
    assert (HWk : W' !! k = Some (sgd_step (t_opts t) l1Decay l2Decay pk gk)).
    { unfold W'. rewrite lookup_zip_with, Hpk, Hgk. reflexivity. }
    unfold update_parameter. cbv zeta. rewrite Hpg.
    rewrite (bind_ok _ _ _ _ _ (Volume_GetByIndex_ok _ _ _ _ _ Hst Hcw)).
    rewrite (bind_ok _ _ _ _ _ (Volume_GetGradByIndex_ok _ _ _ _ _ Hst Hcg)).
    rewrite (bind_ok _ _ _ gi st)
      by (unfold lift; rewrite (slice_get_lookup _ _ gi);
          [reflexivity|lia|rewrite Nat2Z.id; exact Hgi]).
    rewrite (bind_ok _ _ _ xi st)
      by (unfold lift; rewrite (slice_get_lookup _ _ xi);
          [reflexivity|lia|rewrite Nat2Z.id; exact Hxi]).
    rewrite Hm, Hmom.
    change (String.eqb SGD Adam) with false.
    change (String.eqb SGD Adagrad) with false.
    change (String.eqb SGD Windowgrad) with false.
    change (String.eqb SGD Adadelta) with false.
    change (String.eqb SGD Netsterov) with false.
    cbv iota.
    rewrite (bind_ok _ _ _ t
               (set_vol s a (mkVolume (dim v) (take (S k) W' ++ drop (S k) (w v)) cg))).
    2:{ rewrite (bind_ok _ _ _ _ _ (Volume_GetByIndex_ok _ _ _ _ _ Hst Hcw)).
        erewrite bind_ok.
        2:{ eapply Volume_SetByIndex_ok; [exact Hst|].
            eapply lookup_lt_Some; exact Hcw. }
        unfold ret, st. rewrite set_vol_set_vol. cbn [dim w dw].
        unfold cw. rewrite insert_take_drop; [reflexivity|fold n; lia|].
        rewrite HWk. reflexivity. }
    erewrite bind_ok.
    2:{ eapply Volume_SetGradByIndex_ok.
        - eapply set_vol_lookup; exact Hv.
        - cbn [dw]. eapply lookup_lt_Some; exact Hcg. }
    unfold ret, with_dw. rewrite set_vol_set_vol. cbn [dim w dw].
    unfold cg. rewrite insert_take_drop.
    + unfold D, decay_losses.
      rewrite (take_S_r _ _ _ Hpk), fold_left_app. reflexivity.
    + unfold zeros. rewrite length_replicate. lia.
    + unfold zeros. apply lookup_replicate_2. exact Hk.
Qed.

End TrainerFacts.

Lemma realnum_not_positive_0 : @fgtb R realnum 0%R f0 = false.
Proof.
  unfold fgtb, f0. simpl. unfold RealNum.ltb.
  destruct (Rlt_dec 0 0) as [Hlt|_]; [lra|reflexivity].
Qed.

Lemma trainer_Train_BatchSize_zero_witness :
  (exists msg,
     @trainer_Train R realnum realnum_libm zero_source trainer_batch_0
       (Some 0%nat) (LabeledLossFunc 0) store_params = Panic msg)
  /\ (forall net out s1 net' costLoss s2,
        @network_Forward R realnum realnum_libm zero_source (t_net trainer_batch_0)
          (Some 0%nat) true store_params = Ok ((net, out), s1) ->
        LabeledLossFunc 0 net s1 = Ok ((net', costLoss), s2) ->
        @trainer_Train R realnum realnum_libm zero_source trainer_batch_0
          (Some 0%nat) (LabeledLossFunc 0) store_params
        = Panic "integer divide by zero").
Proof.
  apply (@trainer_Train_BatchSize_zero R realnum realnum_libm zero_source
           trainer_batch_0 (Some 0%nat) (LabeledLossFunc 0) store_params).
  reflexivity.
Defined.

Lemma update_pass_without_accumulators_witness :
  update_pass trainer_adagrad store_params = Panic "index out of range".
Proof.
  apply (@update_pass_without_accumulators R realnum realnum_libm
           trainer_adagrad store_params
           (mkLayerResponse (Some 0%nat) 0%R 1%R)
           [mkLayerResponse (Some 1%nat) f0 f0] 0%nat
           (mkVolume (NewDimensions 1 1 2) [1; -2]%R [0.5; 0.25]%R)).
  - reflexivity.
  - reflexivity.
  - exact realnum_not_positive_0.
  - reflexivity.
  - reflexivity.
  - reflexivity.
  - split; reflexivity.
  - discriminate.
Defined.

Lemma sgd_update_volume_witness :
  for_range (len [1; -2]%R)
    (update_parameter (Z.of_nat 0) (mkLayerResponse (Some 0%nat) 0%R 1%R) 0%R 0%R)
    (trainer_sgd, 0%R, 0%R) store_params
  = Ok ((trainer_sgd,
         fst (decay_losses 0%R 0%R [1; -2]%R (0%R, 0%R)),
         snd (decay_losses 0%R 0%R [1; -2]%R (0%R, 0%R))),
        set_vol store_params 0
          (mkVolume (NewDimensions 1 1 2)
             (zip_with (sgd_step (t_opts trainer_sgd) 0%R 0%R) [1; -2]%R
                [0.5; 0.25]%R)
             (zeros (length [0.5; 0.25]%R)))).
Proof.
  apply (@sgd_update_volume R realnum realnum_libm trainer_sgd 0%nat
           [0; 0]%R [] (mkLayerResponse (Some 0%nat) 0%R 1%R) 0%R 0%R 0%R 0%R
           store_params 0%nat
           (mkVolume (NewDimensions 1 1 2) [1; -2]%R [0.5; 0.25]%R)).
  - reflexivity.
  - exact realnum_not_positive_0.
  - reflexivity.
  - reflexivity.
  - reflexivity.
  - reflexivity.
  - split; reflexivity.
Defined.


(** ** The output size of a window layer *)





(** ** SetConst, AddFrom and AddFromScaled *)

Section BulkUpdates.
Context {F : Type} `{Float64 F} `{GoRand F}.

(** X29.  On a well-formed volume, SetConst makes every weight the
    given value; AddFrom adds the weights of another volume of the
    same length to its own, position by position, and AddFromScaled
    adds them multiplied by the scale.  The gradients and the other
    volume are not written. *)
Theorem Volume_bulk_updates (s : State F) (a b : nat) (v u : Volume F) :
  heap s !! a = Some v ->
  heap s !! b = Some u ->
  a <> b ->
  wf_volume v ->
  length (w u) = length (w v) ->
  (forall val,
     Volume_SetConst (Some a) val s
     = Ok (tt, set_vol s a (mkVolume (dim v) (replicate (length (w v)) val) (dw v))))
  /\ Volume_AddFrom (Some a) (Some b) s
     = Ok (tt, set_vol s a (mkVolume (dim v) (zip_with fadd (w v) (w u)) (dw v)))
  /\ (forall scale,
        Volume_AddFromScaled (Some a) (Some b) scale s
        = Ok (tt, set_vol s a
                    (mkVolume (dim v)
                       (zip_with (fun x y => fadd x (fmul y scale)) (w v) (w u))
                       (dw v)))).
Proof.
  intros Hv Hu Hab [Hw Hdw] Hlen.
  assert (Hadd : forall (g : F -> F -> F),
            for_range (len (w v)) (fun i _ =>
              let* x := Volume_GetByIndex (Some a) i in
              let* y := Volume_GetByIndex (Some b) i in
              Volume_SetByIndex (Some a) i (g x y)) tt s
            = Ok (tt, set_vol s a (mkVolume (dim v) (zip_with g (w v) (w u)) (dw v)))).
  { intros g. apply (weights_loop s a v); [exact Hv|rewrite length_zip_with; lia|].
    intros k x Hx. rewrite lookup_zip_with in Hx.
    destruct (w v !! k) as [xk|] eqn:Hxk; [|discriminate]. simpl in Hx.
    destruct (w u !! k) as [yk|] eqn:Hyk; [|discriminate]. simpl in Hx.
    injection Hx as <-.
    pose proof (lookup_lt_Some _ _ _ Hxk) as Hk.
    set (cur := take k (zip_with g (w v) (w u)) ++ drop k (w v)).
    assert (Hcur : cur !! k = Some xk).
    { unfold cur. rewrite lookup_take_drop;
        [exact Hxk|rewrite length_zip_with; lia|exact Hk]. }
    assert (Hst : heap (set_vol s a (mkVolume (dim v) cur (dw v))) !! a
                  = Some (mkVolume (dim v) cur (dw v)))
      by (eapply set_vol_lookup; exact Hv).
    assert (Hsb : heap (set_vol s a (mkVolume (dim v) cur (dw v))) !! b = Some u)
      by (rewrite set_vol_lookup_ne by exact Hab; exact Hu).
    rewrite (bind_ok _ _ _ _ _ (Volume_GetByIndex_ok _ _ _ _ _ Hst Hcur)).
    rewrite (bind_ok _ _ _ _ _ (Volume_GetByIndex_ok _ _ _ _ _ Hsb Hyk)).
    erewrite Volume_SetByIndex_ok;
      [|exact Hst|eapply lookup_lt_Some; exact Hcur].
    rewrite set_vol_set_vol. reflexivity. }
  split; [|split].
  - intros val. unfold Volume_SetConst.
    rewrite (bind_ok _ _ _ _ _ (Volume_Size_ok _ _ _ Hv)). rewrite <- Hw.
    apply (weights_loop s a v); [exact Hv|apply length_replicate|].
    intros k x Hx. apply lookup_replicate in Hx as [-> Hk].
    erewrite Volume_SetByIndex_ok.
    2:{ eapply set_vol_lookup; exact Hv. }
    2:{ simpl. rewrite length_app, length_take, length_drop, length_replicate. lia. }
    rewrite set_vol_set_vol. reflexivity.
  - unfold Volume_AddFrom.
    rewrite (bind_ok _ _ _ _ _ (Volume_Size_ok _ _ _ Hv)). rewrite <- Hw.
    apply (Hadd fadd).
  - intros scale. unfold Volume_AddFromScaled.
    rewrite (bind_ok _ _ _ _ _ (Volume_Size_ok _ _ _ Hv)). rewrite <- Hw.
    apply (Hadd (fun x y => fadd x (fmul y scale))).
Qed.

End BulkUpdates.

Lemma Volume_bulk_updates_witness :
  (forall val,
     @Volume_SetConst float (Some 0%nat) val store_signs
     = Ok (tt, set_vol store_signs 0
                 (mkVolume (dim volume_signs)
                    (replicate (length (w volume_signs)) val) (dw volume_signs))))
  /\ @Volume_AddFrom float binary64 (Some 0%nat) (Some 1%nat) store_signs
     = Ok (tt, set_vol store_signs 0
                 (mkVolume (dim volume_signs)
                    (zip_with fadd (w volume_signs) (w relu_output_signs))
                    (dw volume_signs)))
  /\ (forall scale,
        @Volume_AddFromScaled float binary64 (Some 0%nat) (Some 1%nat) scale
          store_signs
        = Ok (tt, set_vol store_signs 0
                    (mkVolume (dim volume_signs)
                       (zip_with (fun x y => fadd x (fmul y scale))
                          (w volume_signs) (w relu_output_signs))
                       (dw volume_signs)))).
Proof.
  apply (@Volume_bulk_updates float binary64 store_signs 0%nat 1%nat
           volume_signs relu_output_signs).
  - reflexivity.
  - reflexivity.
  - discriminate.
  - split; reflexivity.
  - reflexivity.
Defined.
